(** * The oit runtime: selection of image and rpm configs, record log,
      lookups and flag files

    A shallow embedding of [elliott/oit/packages/runtime.py] (Python 2).  The
    [Runtime] object and the part of the operating system it touches
    (directories, files, working directory, console, [atexit] registry) are
    one explicit state; every method is a computation over that state that
    either returns or raises, and a raised exception leaves the mutations
    made so far in place, as in Python.  The embedding is of one thread:
    the two locks of the class are not modelled. *)

From stdpp Require Import base option list gmap sets strings.
From Stdlib Require Import Ascii String.

Local Open Scope string_scope.
Local Open Scope list_scope.

(** ** Python strings *)

Module PyStr.

Definition LF : ascii := Ascii.ascii_of_nat 10.
Definition CR : ascii := Ascii.ascii_of_nat 13.

(** [s.replace(c, new)] for a one-character pattern [c]. *)
Fixpoint replace (c : ascii) (new : string) (s : string) : string :=
  match s with
  | EmptyString => EmptyString
  | String a r =>
      if Ascii.eqb a c then new +:+ replace c new r
      else String a (replace c new r)
  end.

(** [c in s] for a one-character [c]. *)
Fixpoint contains (c : ascii) (s : string) : bool :=
  match s with
  | EmptyString => false
  | String a r => Ascii.eqb a c || contains c r
  end.

(** Number of occurrences of [c] in [s] ([s.count(c)]). *)
Fixpoint count (c : ascii) (s : string) : nat :=
  match s with
  | EmptyString => 0
  | String a r => (if Ascii.eqb a c then 1 else 0) + count c r
  end.

(** [sep.join(l)]. *)
Fixpoint join (sep : string) (l : list string) : string :=
  match l with
  | [] => ""
  | [x] => x
  | x :: r => x +:+ sep +:+ join sep r
  end.

(** Last character of a string, if any. *)
Fixpoint last (s : string) : option ascii :=
  match s with
  | EmptyString => None
  | String a EmptyString => Some a
  | String _ r => last r
  end.

(** [x in l] on a sequence of names. *)
Definition mem (x : string) (l : list string) : bool :=
  bool_decide (x ∈ l).

(** [l.remove(x)]: drops the first occurrence of [x]; Python raises
    [ValueError] when there is none, which is [None] here. *)
Fixpoint list_remove (x : string) (l : list string) : option (list string) :=
  match l with
  | [] => None
  | y :: r => if decide (x = y) then Some r else cons y <$> list_remove x r
  end.

(** [str(l)] of a list of names, for names that need no escaping (a tuple
    prints with parentheses instead). *)
Definition str_list (l : list string) : string :=
  "[" +:+ join ", " (map (fun n => "'" +:+ n +:+ "'") l) +:+ "]".

End PyStr.

(** ** Paths ([os.path] on POSIX) *)

Module PyPath.

Definition starts_with_slash (s : string) : bool :=
  match s with
  | String c _ => Ascii.eqb c "/"
  | EmptyString => false
  end.

Definition ends_with_slash (s : string) : bool :=
  match PyStr.last s with
  | Some c => Ascii.eqb c "/"
  | None => false
  end.

(** [os.path.join(a, b)]. *)
Definition join (a b : string) : string :=
  if starts_with_slash b then b
  else if String.eqb a "" || ends_with_slash a then a +:+ b
  else a +:+ "/" +:+ b.

(** The prefix of [s] up to and including its last slash. *)
Fixpoint head (s : string) : option string :=
  match s with
  | EmptyString => None
  | String c r =>
      match head r with
      | Some h => Some (String c h)
      | None => if Ascii.eqb c "/" then Some "/" else None
      end
  end.

Fixpoint rstrip_slash (s : string) : string :=
  match s with
  | EmptyString => EmptyString
  | String c r =>
      let r' := rstrip_slash r in
      if Ascii.eqb c "/" && String.eqb r' "" then "" else String c r'
  end.

(** [os.path.dirname(p)]. *)
Definition dirname (p : string) : string :=
  let h := default "" (head p) in
  if String.eqb (rstrip_slash h) "" then h else rstrip_slash h.

End PyPath.

(** ** Exceptions *)

Inductive PyError : Type :=
  | SystemExit (code : nat)
  | IOError (msg : string)
  | OSError (msg : string)
  | TypeError
  | ValueError
  | AttributeError
  | AssertionError.

Inductive Outcome (A : Type) : Type :=
  | Ok (a : A)
  | Raise (e : PyError).
Arguments Ok {A} a.
Arguments Raise {A} e.

(** ** Data model *)

(** Modelled from the spec: the [image] module is not part of the sources.
    A handle is opaque to the runtime (spec, section 6); it is represented
    by the two names its factory [ImageMetadata(runtime, name, name)]
    receives, and the factory is taken to return. *)
Inductive ImageMetadata : Type :=
  | mkImageMetadata (dir name : string).

(** Modelled from the spec: the [rpm] module is not part of the sources;
    as for images, the handle keeps the arguments of
    [RPMMetadata(runtime, name, name)]. *)
Inductive RPMMetadata : Type :=
  | mkRPMMetadata (dir name : string).

(** Modelled from the spec: [Model(yaml.load(group_yml))] of the absent
    [model] module, restricted to the fields of [group.yml] the runtime
    reads (spec, section 6); [None] is [Missing]. *)
Record GroupConfig : Type := {
  gc_name : option string;
  gc_excludes : option (list string);
  gc_includes : option (list string);
  gc_branch : option string
}.

(** The keyword arguments [__init__] copies into the object, those the
    modelled methods read; all of them are taken to be passed, as the
    command line does.  [None] is Python's [None]. *)
Record Kwargs : Type := {
  group : option string;
  metadata_dir : string;
  working_dir : option string;
  include : option (list string);
  exclude : option (list string);
  optional_include : option (list string);
  branch : option string;
  verbose : bool
}.

(** Paths and open log files below the working directory.  An open file
    object is represented by the path it was opened at. *)
Record Workspace : Type := {
  distgits_dir : option string;
  distgits_diff_dir : option string;
  record_log : option string;
  record_log_path : option string;
  debug_log : option string;
  debug_log_path : option string;
  brew_logs_dir : option string;
  flags_dir : option string
}.

(** The attributes of a [Runtime] object that the modelled methods read or
    write ([default_registries], [source_alias] and [uuid] are left out). *)
Record Runtime : Type := {
  args : Kwargs;
  ws : Workspace;
  remove_tmp_working_dir : bool;
  group_config : option GroupConfig;
  image_map : gmap string ImageMetadata;
  rpm_map : gmap string RPMMetadata;
  stream_alias_overrides : gmap string string;
  initialized : bool;
  streams : gmap string string
}.

(** Callbacks registered with [atexit]. *)
Inductive AtExit : Type :=
  | close_file (f : string)
  | remove_tmp_working_dir_cb.

(** The operating system as far as the runtime sees it.  Paths are compared
    as spelled (no symbolic links, no resolution of [..]); [os_cwd] is an
    absolute path; [os_tempdir] is the directory [tempfile.gettempdir()]
    answers with (the environment decides it: [TMPDIR], [TEMP], [TMP],
    then the defaults of the system); [os_tmp] are the names [mkdtemp]
    will draw. *)
Record OS : Type := {
  os_dirs : gset string;
  os_files : gmap string string;
  os_cwd : string;
  os_console : list string;
  os_atexit : list AtExit;
  os_tempdir : string;
  os_tmp : list string
}.

Record State : Type := { os : OS; self : Runtime }.

(** *** Attribute assignment *)

Definition set_working_dir (v : option string) (k : Kwargs) : Kwargs :=
  {| group := group k; metadata_dir := metadata_dir k; working_dir := v;
     include := include k; exclude := exclude k;
     optional_include := optional_include k; branch := branch k;
     verbose := verbose k |}.

Definition set_include (v : option (list string)) (k : Kwargs) : Kwargs :=
  {| group := group k; metadata_dir := metadata_dir k;
     working_dir := working_dir k; include := v; exclude := exclude k;
     optional_include := optional_include k; branch := branch k;
     verbose := verbose k |}.

Definition set_exclude (v : option (list string)) (k : Kwargs) : Kwargs :=
  {| group := group k; metadata_dir := metadata_dir k;
     working_dir := working_dir k; include := include k; exclude := v;
     optional_include := optional_include k; branch := branch k;
     verbose := verbose k |}.

Definition set_branch (v : option string) (k : Kwargs) : Kwargs :=
  {| group := group k; metadata_dir := metadata_dir k;
     working_dir := working_dir k; include := include k;
     exclude := exclude k; optional_include := optional_include k;
     branch := v; verbose := verbose k |}.

Definition set_distgits_dir (v : option string) (w : Workspace) : Workspace :=
  {| distgits_dir := v; distgits_diff_dir := distgits_diff_dir w;
     record_log := record_log w; record_log_path := record_log_path w;
     debug_log := debug_log w; debug_log_path := debug_log_path w;
     brew_logs_dir := brew_logs_dir w; flags_dir := flags_dir w |}.

Definition set_distgits_diff_dir (v : option string) (w : Workspace) : Workspace :=
  {| distgits_dir := distgits_dir w; distgits_diff_dir := v;
     record_log := record_log w; record_log_path := record_log_path w;
     debug_log := debug_log w; debug_log_path := debug_log_path w;
     brew_logs_dir := brew_logs_dir w; flags_dir := flags_dir w |}.

Definition set_record_log (v : option string) (w : Workspace) : Workspace :=
  {| distgits_dir := distgits_dir w; distgits_diff_dir := distgits_diff_dir w;
     record_log := v; record_log_path := record_log_path w;
     debug_log := debug_log w; debug_log_path := debug_log_path w;
     brew_logs_dir := brew_logs_dir w; flags_dir := flags_dir w |}.

Definition set_record_log_path (v : option string) (w : Workspace) : Workspace :=
  {| distgits_dir := distgits_dir w; distgits_diff_dir := distgits_diff_dir w;
     record_log := record_log w; record_log_path := v;
     debug_log := debug_log w; debug_log_path := debug_log_path w;
     brew_logs_dir := brew_logs_dir w; flags_dir := flags_dir w |}.

Definition set_debug_log (v : option string) (w : Workspace) : Workspace :=
  {| distgits_dir := distgits_dir w; distgits_diff_dir := distgits_diff_dir w;
     record_log := record_log w; record_log_path := record_log_path w;
     debug_log := v; debug_log_path := debug_log_path w;
     brew_logs_dir := brew_logs_dir w; flags_dir := flags_dir w |}.

Definition set_debug_log_path (v : option string) (w : Workspace) : Workspace :=
  {| distgits_dir := distgits_dir w; distgits_diff_dir := distgits_diff_dir w;
     record_log := record_log w; record_log_path := record_log_path w;
     debug_log := debug_log w; debug_log_path := v;
     brew_logs_dir := brew_logs_dir w; flags_dir := flags_dir w |}.

Definition set_brew_logs_dir (v : option string) (w : Workspace) : Workspace :=
  {| distgits_dir := distgits_dir w; distgits_diff_dir := distgits_diff_dir w;
     record_log := record_log w; record_log_path := record_log_path w;
     debug_log := debug_log w; debug_log_path := debug_log_path w;
     brew_logs_dir := v; flags_dir := flags_dir w |}.

Definition set_flags_dir (v : option string) (w : Workspace) : Workspace :=
  {| distgits_dir := distgits_dir w; distgits_diff_dir := distgits_diff_dir w;
     record_log := record_log w; record_log_path := record_log_path w;
     debug_log := debug_log w; debug_log_path := debug_log_path w;
     brew_logs_dir := brew_logs_dir w; flags_dir := v |}.

Definition set_args (v : Kwargs) (r : Runtime) : Runtime :=
  {| args := v; ws := ws r;
     remove_tmp_working_dir := remove_tmp_working_dir r;
     group_config := group_config r; image_map := image_map r;
     rpm_map := rpm_map r;
     stream_alias_overrides := stream_alias_overrides r;
     initialized := initialized r; streams := streams r |}.

Definition set_ws (v : Workspace) (r : Runtime) : Runtime :=
  {| args := args r; ws := v;
     remove_tmp_working_dir := remove_tmp_working_dir r;
     group_config := group_config r; image_map := image_map r;
     rpm_map := rpm_map r;
     stream_alias_overrides := stream_alias_overrides r;
     initialized := initialized r; streams := streams r |}.

Definition set_remove_tmp_working_dir (v : bool) (r : Runtime) : Runtime :=
  {| args := args r; ws := ws r; remove_tmp_working_dir := v;
     group_config := group_config r; image_map := image_map r;
     rpm_map := rpm_map r;
     stream_alias_overrides := stream_alias_overrides r;
     initialized := initialized r; streams := streams r |}.

Definition set_group_config (v : option GroupConfig) (r : Runtime) : Runtime :=
  {| args := args r; ws := ws r;
     remove_tmp_working_dir := remove_tmp_working_dir r;
     group_config := v; image_map := image_map r; rpm_map := rpm_map r;
     stream_alias_overrides := stream_alias_overrides r;
     initialized := initialized r; streams := streams r |}.

Definition set_image_map (v : gmap string ImageMetadata) (r : Runtime) : Runtime :=
  {| args := args r; ws := ws r;
     remove_tmp_working_dir := remove_tmp_working_dir r;
     group_config := group_config r; image_map := v; rpm_map := rpm_map r;
     stream_alias_overrides := stream_alias_overrides r;
     initialized := initialized r; streams := streams r |}.

Definition set_rpm_map (v : gmap string RPMMetadata) (r : Runtime) : Runtime :=
  {| args := args r; ws := ws r;
     remove_tmp_working_dir := remove_tmp_working_dir r;
     group_config := group_config r; image_map := image_map r; rpm_map := v;
     stream_alias_overrides := stream_alias_overrides r;
     initialized := initialized r; streams := streams r |}.

Definition set_stream_alias_overrides (v : gmap string string) (r : Runtime) : Runtime :=
  {| args := args r; ws := ws r;
     remove_tmp_working_dir := remove_tmp_working_dir r;
     group_config := group_config r; image_map := image_map r;
     rpm_map := rpm_map r; stream_alias_overrides := v;
     initialized := initialized r; streams := streams r |}.

Definition set_streams (v : gmap string string) (r : Runtime) : Runtime :=
  {| args := args r; ws := ws r;
     remove_tmp_working_dir := remove_tmp_working_dir r;
     group_config := group_config r; image_map := image_map r;
     rpm_map := rpm_map r;
     stream_alias_overrides := stream_alias_overrides r;
     initialized := initialized r; streams := v |}.

Definition set_os_dirs (v : gset string) (o : OS) : OS :=
  {| os_dirs := v; os_files := os_files o; os_cwd := os_cwd o;
     os_console := os_console o; os_atexit := os_atexit o;
     os_tempdir := os_tempdir o; os_tmp := os_tmp o |}.

Definition set_os_files (v : gmap string string) (o : OS) : OS :=
  {| os_dirs := os_dirs o; os_files := v; os_cwd := os_cwd o;
     os_console := os_console o; os_atexit := os_atexit o;
     os_tempdir := os_tempdir o; os_tmp := os_tmp o |}.

Definition set_os_cwd (v : string) (o : OS) : OS :=
  {| os_dirs := os_dirs o; os_files := os_files o; os_cwd := v;
     os_console := os_console o; os_atexit := os_atexit o;
     os_tempdir := os_tempdir o; os_tmp := os_tmp o |}.

Definition set_os_console (v : list string) (o : OS) : OS :=
  {| os_dirs := os_dirs o; os_files := os_files o; os_cwd := os_cwd o;
     os_console := v; os_atexit := os_atexit o;
     os_tempdir := os_tempdir o; os_tmp := os_tmp o |}.

Definition set_os_atexit (v : list AtExit) (o : OS) : OS :=
  {| os_dirs := os_dirs o; os_files := os_files o; os_cwd := os_cwd o;
     os_console := os_console o; os_atexit := v;
     os_tempdir := os_tempdir o; os_tmp := os_tmp o |}.

Definition set_os_tmp (v : list string) (o : OS) : OS :=
  {| os_dirs := os_dirs o; os_files := os_files o; os_cwd := os_cwd o;
     os_console := os_console o; os_atexit := os_atexit o;
     os_tempdir := os_tempdir o; os_tmp := v |}.

(** ** The monad of Python computations *)

Definition Py (A : Type) : Type := State -> Outcome A * State.

#[global] Instance Py_ret : MRet Py := fun A a st => (Ok a, st).

#[global] Instance Py_bind : MBind Py := fun A B f m st =>
  match m st with
  | (Ok a, st') => f a st'
  | (Raise e, st') => (Raise e, st')
  end.

Definition raise {A : Type} (e : PyError) : Py A := fun st => (Raise e, st).

Definition get_self : Py Runtime := fun st => (Ok (self st), st).
Definition get_os : Py OS := fun st => (Ok (os st), st).

Definition modify_self (f : Runtime -> Runtime) : Py unit :=
  fun st => (Ok tt, {| os := os st; self := f (self st) |}).
Definition modify_os (f : OS -> OS) : Py unit :=
  fun st => (Ok tt, {| os := f (os st); self := self st |}).

Definition modify_args (f : Kwargs -> Kwargs) : Py unit :=
  modify_self (fun r => set_args (f (args r)) r).
Definition modify_ws (f : Workspace -> Workspace) : Py unit :=
  modify_self (fun r => set_ws (f (ws r)) r).

(** [o is None], also used for [o is Missing]. *)
Definition is_none {A : Type} (o : option A) : bool :=
  match o with
  | None => true
  | Some _ => false
  end.

(** [len(l) > 0]. *)
Definition len_gt_0 {A : Type} (l : list A) : bool := (0 <? List.length l)%nat.

(** [pass], and [if c: body]. *)
Definition pass : Py unit := mret tt.

Definition when (c : bool) (body : Py unit) : Py unit :=
  if c then body else pass.

(** An attribute that must not be [None] at the point of use: calling
    [len], [in] or [set] on [None] raises [TypeError]. *)
Definition sequence {A : Type} (o : option A) : Py A :=
  match o with
  | Some l => mret l
  | None => raise TypeError
  end.

(** ** Operating-system primitives *)

Module Os.

(** A path as the kernel sees it: relative paths start at [os_cwd]. *)
Definition resolve (o : OS) (p : string) : string :=
  if String.eqb p "." then os_cwd o else PyPath.join (os_cwd o) p.

Definition is_dir (o : OS) (p : string) : bool :=
  bool_decide (resolve o p ∈ os_dirs o).

Definition is_file (o : OS) (p : string) : bool :=
  bool_decide (is_Some (os_files o !! resolve o p)).

Definition parent_is_dir (o : OS) (p : string) : bool :=
  bool_decide (PyPath.dirname (resolve o p) ∈ os_dirs o).

(** [os.path.isdir(p)], [os.path.isfile(p)]. *)
Definition isdir (p : string) : Py bool :=
  o ← get_os; mret (is_dir o p).
Definition isfile (p : string) : Py bool :=
  o ← get_os; mret (is_file o p).

(** [os.mkdir(p)]. *)
Definition mkdir (p : string) : Py unit :=
  o ← get_os;
  if is_dir o p || is_file o p then raise (OSError "File exists")
  else if negb (parent_is_dir o p) then
    raise (OSError "No such file or directory")
  else modify_os (fun o => set_os_dirs ({[ resolve o p ]} ∪ os_dirs o) o).

(** [os.chdir(p)]. *)
Definition chdir (p : string) : Py unit :=
  o ← get_os;
  if is_dir o p then modify_os (set_os_cwd (resolve o p))
  else raise (OSError "No such file or directory").

Fixpoint strip_prefix (pre s : string) : option string :=
  match pre, s with
  | EmptyString, _ => Some s
  | String a pre', String b s' =>
      if Ascii.eqb a b then strip_prefix pre' s' else None
  | String _ _, EmptyString => None
  end.

(** The name of [p] inside directory [d], when [p] is an entry of [d]. *)
Definition child_name (d p : string) : option string :=
  let d' := if PyPath.ends_with_slash d then d else d +:+ "/" in
  match strip_prefix d' p with
  | Some n =>
      if String.eqb n "" || PyStr.contains "/" n then None else Some n
  | None => None
  end.

Definition entries (o : OS) (d : string) : list string :=
  omap (child_name d) (elements (os_dirs o ∪ dom (os_files o))).

(** [os.listdir(p)]; the order of the entries is the system's. *)
Definition listdir (p : string) : Py (list string) :=
  o ← get_os;
  if is_dir o p then mret (entries o (resolve o p))
  else raise (OSError "No such file or directory").

(** [open(p, 'a')]: the file is created when absent. *)
Definition open_append (p : string) : Py string :=
  o ← get_os;
  if is_dir o p then raise (IOError "Is a directory")
  else if negb (parent_is_dir o p) then
    raise (IOError "No such file or directory")
  else
    modify_os (fun o =>
      set_os_files (<[ resolve o p := default "" (os_files o !! resolve o p) ]>
                      (os_files o)) o);;
    mret (resolve o p).

(** [open(p, 'w')]: the file is created or truncated. *)
Definition open_write (p : string) : Py string :=
  o ← get_os;
  if is_dir o p then raise (IOError "Is a directory")
  else if negb (parent_is_dir o p) then
    raise (IOError "No such file or directory")
  else
    modify_os (fun o => set_os_files (<[ resolve o p := "" ]> (os_files o)) o);;
    mret (resolve o p).

(** [open(p, 'r').read()]. *)
Definition read_file (p : string) : Py string :=
  o ← get_os;
  match os_files o !! resolve o p with
  | Some content => mret content
  | None => raise (IOError "No such file or directory")
  end.

(** [f.write(text)] followed by [f.flush()] on an open file object. *)
Definition write (f : string) (text : string) : Py unit :=
  modify_os (fun o =>
    set_os_files (<[ f := default "" (os_files o !! f) +:+ text ]>
                    (os_files o)) o).

(** [os.remove(p)]. *)
Definition remove (p : string) : Py unit :=
  o ← get_os;
  if is_file o p then
    modify_os (fun o => set_os_files (delete (resolve o p) (os_files o)) o)
  else raise (OSError "No such file or directory").

(** [tempfile.mkdtemp(suffix, prefix)]: the directory is made in
    [tempfile.gettempdir()]; names are drawn, and joined to it between
    [prefix] and [suffix], until [os.mkdir] does not find the path taken
    (it is neither a directory nor a file); any other failure of
    [os.mkdir] is raised. *)
Fixpoint mkdtemp_draw (dir suffix prefix : string) (names : list string)
    (o : OS) : option (string * list string) :=
  match names with
  | [] => None
  | n :: rest =>
      let p := PyPath.join dir (prefix +:+ n +:+ suffix) in
      if is_dir o p || is_file o p
      then mkdtemp_draw dir suffix prefix rest o
      else Some (p, rest)
  end.

Definition mkdtemp (suffix prefix : string) : Py string :=
  o ← get_os;
  match mkdtemp_draw (os_tempdir o) suffix prefix (os_tmp o) o with
  | None => raise (IOError "No usable temporary directory name found")
  | Some (p, rest) =>
      modify_os (set_os_tmp rest);;
      mkdir p;;
      mret p
  end.

(** [click.echo(message)]. *)
Definition echo (message : string) : Py unit :=
  modify_os (fun o => set_os_console (os_console o ++ [message]) o).

(** [atexit.register(cb)]. *)
Definition atexit_register (cb : AtExit) : Py unit :=
  modify_os (fun o => set_os_atexit (os_atexit o ++ [cb]) o).

End Os.

(** ** Helpers of the absent [common] module *)

(** Modelled from the spec: [assert_dir(path, msg)] of the absent [common]
    module validates that the path exists and is a directory and fails with
    a configuration error otherwise (spec, section 4.1); the error is an
    [IOError] like the runtime's own, and the wording of its message is not
    specified. *)
Definition assert_dir (path msg : string) : Py unit :=
  d ← Os.isdir path;
  if (d : bool) then pass else raise (IOError (msg +:+ ": " +:+ path)).

(** Modelled from the spec: [with Dir(d): body] of the absent [common]
    module runs [body] with [d] as working directory and returns to the
    previous one on every exit path. *)
Definition with_Dir {A : Type} (d : string) (body : Py A) : Py A :=
  fun st =>
    let old := os_cwd (os st) in
    match Os.chdir d st with
    | (Raise e, st1) => (Raise e, st1)
    | (Ok _, st1) =>
        let '(r, st2) := body st1 in
        (r, {| os := set_os_cwd old (os st2); self := self st2 |})
    end.

(** ** Logger *)

(** [Runtime.log_verbose]. *)
Definition log_verbose (message : string) : Py unit :=
  r ← get_self;
  when (verbose (args r)) (Os.echo message);;
  match debug_log (ws r) with
  | Some f => Os.write f (message +:+ String PyStr.LF "")
  | None => raise AttributeError
  end.

(** [Runtime.info]. *)
Definition info (message : string) (debug : option string) : Py unit :=
  r ← get_self;
  if verbose (args r) then
    match debug with
    | Some d => log_verbose (message +:+ " [" +:+ d +:+ "]")
    | None => log_verbose message
    end
  else Os.echo message.

(** ** The [Runtime] class *)

(** [Runtime.__init__]: the keyword arguments become attributes,
    then the attributes of the runtime proper get their initial values. *)
Definition __init__ (kwargs : Kwargs) : Runtime :=
  {| args := kwargs;
     ws := {| distgits_dir := None; distgits_diff_dir := None;
              record_log := None; record_log_path := None;
              debug_log := None; debug_log_path := None;
              brew_logs_dir := None; flags_dir := None |};
     remove_tmp_working_dir := false;
     group_config := None;
     image_map := ∅;
     rpm_map := ∅;
     stream_alias_overrides := ∅;
     initialized := false;
     streams := ∅ |}.

(** [Runtime.register_stream_alias]. *)
Definition register_stream_alias (alias image : string) : Py unit :=
  info ("Registering image stream alias override " +:+ alias +:+ ": " +:+ image)
       None;;
  modify_self (fun r =>
    set_stream_alias_overrides (<[ alias := image ]> (stream_alias_overrides r)) r).

(** *** Record log *)

(** The value as written to the log: line feeds become the token [ ;;; ],
    then carriage returns are dropped. *)
Definition encode_value (v : string) : string :=
  PyStr.replace PyStr.CR "" (PyStr.replace PyStr.LF " ;;; " v).

(** The loop of [add_record] over [kwargs.iteritems()]: [kwargs] is the
    list of the items in the order in which the dictionary hands them out,
    an order that the call does not fix (it is not the order in which the
    keyword arguments were written); [record] is the line built so far. *)
Fixpoint add_record_fields (kwargs : list (string * string)) (record : string)
    : Py string :=
  match kwargs with
  | [] => mret record
  | (k, v) :: rest =>
      if PyStr.contains PyStr.LF k then raise AssertionError
      else add_record_fields rest (record +:+ k +:+ "=" +:+ encode_value v +:+ "|")
  end.

(** [Runtime.add_record]. *)
Definition add_record (record_type : string) (kwargs : list (string * string))
    : Py unit :=
  record ← add_record_fields kwargs (record_type +:+ "|");
  r ← get_self;
  match record_log (ws r) with
  | Some f => Os.write f (record +:+ String PyStr.LF "")
  | None => raise AttributeError
  end.

(** *** Lookups *)

(** [Runtime.resolve_image(distgit_name, required=True)]; Python's [None]
    result is [None]. *)
Definition resolve_image (distgit_name : string) (required : bool)
    : Py (option ImageMetadata) :=
  r ← get_self;
  match image_map r !! distgit_name with
  | None =>
      if negb required then mret None
      else raise (IOError
        ("Unable to find image metadata in group / included images: "
           +:+ distgit_name))
  | Some image => mret (Some image)
  end.

(** [Runtime.resolve_stream(stream_name)]. *)
Definition resolve_stream (stream_name : string) : Py string :=
  r ← get_self;
  match stream_alias_overrides r !! stream_name with
  | Some image => mret image
  | None =>
      match streams r !! stream_name with
      | None => raise (IOError
          ("Unable to find definition for stream: " +:+ stream_name))
      | Some image => mret image
      end
  end.

(** *** Flag files *)

(** [Runtime._flag_file]: [os.path.join(self.flags_dir, flag_name)]; with
    [flags_dir] still [None] the join fails on [None.endswith] unless the
    name is absolute. *)
Definition _flag_file (flag_name : string) : Py string :=
  r ← get_self;
  match flags_dir (ws r) with
  | Some d => mret (PyPath.join d flag_name)
  | None =>
      if PyPath.starts_with_slash flag_name then mret flag_name
      else raise AttributeError
  end.

(** [Runtime.flag_create(flag_name, msg="")]. *)
Definition flag_create (flag_name msg : string) : Py unit :=
  p ← _flag_file flag_name;
  f ← Os.open_write p;
  Os.write f msg.

(** [Runtime.flag_exists]. *)
Definition flag_exists (flag_name : string) : Py bool :=
  p ← _flag_file flag_name;
  Os.isfile p.

(** [Runtime.flag_remove]. *)
Definition flag_remove (flag_name : string) : Py unit :=
  e ← flag_exists flag_name;
  if (e : bool) then
    p ← _flag_file flag_name;
    Os.remove p
  else pass.

(** *** Initialization *)

(** [if not os.path.isdir(p): os.mkdir(p)]. *)
Definition ensure_dir (p : string) : Py unit :=
  d ← Os.isdir p;
  when (negb d) (Os.mkdir p).

(** Lines 96-102: the working directory, a fresh temporary one when the
    caller gave none. *)
Definition setup_working_dir : Py string :=
  r ← get_self;
  match working_dir (args r) with
  | None =>
      d ← Os.mkdtemp ".tmp" "oit-";
      modify_args (set_working_dir (Some d));;
      modify_self (set_remove_tmp_working_dir true);;
      Os.atexit_register remove_tmp_working_dir_cb;;
      mret d
  | Some d =>
      assert_dir d "Invalid working directory";;
      mret d
  end.

(** Lines 104-128: sub-directories and log files of the working directory. *)
Definition setup_workspace (wd : string) : Py unit :=
  let distgits := PyPath.join wd "distgits" in
  modify_ws (set_distgits_dir (Some distgits));;
  ensure_dir distgits;;
  let diffs := PyPath.join wd "distgits-diffs" in
  modify_ws (set_distgits_diff_dir (Some diffs));;
  ensure_dir diffs;;
  let debug_path := PyPath.join wd "debug.log" in
  modify_ws (set_debug_log_path (Some debug_path));;
  f ← Os.open_append debug_path;
  modify_ws (set_debug_log (Some f));;
  Os.atexit_register (close_file f);;
  let record_path := PyPath.join wd "record.log" in
  modify_ws (set_record_log_path (Some record_path));;
  f ← Os.open_append record_path;
  modify_ws (set_record_log (Some f));;
  Os.atexit_register (close_file f);;
  let brew_logs := PyPath.join wd "brew-logs" in
  modify_ws (set_brew_logs_dir (Some brew_logs));;
  ensure_dir brew_logs;;
  let flags := PyPath.join wd "flags" in
  modify_ws (set_flags_dir (Some flags));;
  ensure_dir flags.

(** Lines 130-139: the group directory; returns [group_dir], [images_dir]
    and [rpms_dir].  Both later checks test [group_dir] again, as the source
    does. *)
Definition locate_group (g : string) : Py (string * string * string) :=
  r ← get_self;
  let group_dir := PyPath.join (PyPath.join (metadata_dir (args r)) "groups") g in
  assert_dir group_dir "Cannot find group directory";;
  let images_dir := PyPath.join group_dir "images" in
  assert_dir group_dir ("Cannot find images directory for " +:+ group_dir);;
  let rpms_dir := PyPath.join group_dir "rpms" in
  assert_dir group_dir ("Cannot find rpms directory for " +:+ group_dir);;
  info ("Searching group directory: " +:+ group_dir) None;;
  mret (group_dir, images_dir, rpms_dir).

(** Lines 150-163: defaults of [group.yml] for what the command line left
    out. *)
Definition merge_group_defaults (gc : GroupConfig) : Py unit :=
  r ← get_self;
  when (negb (is_none (gc_excludes gc)) && is_none (exclude (args r)))
       (modify_args (set_exclude (gc_excludes gc)));;
  r ← get_self;
  when (negb (is_none (gc_includes gc)) && is_none (include (args r)))
       (modify_args (set_include (gc_includes gc)));;
  r ← get_self;
  match branch (args r) with
  | None =>
      match gc_branch gc with
      | Some b =>
          modify_args (set_branch (Some b));;
          info ("Using branch from group.yml: " +:+ b) None
      | None =>
          info "No branch specified either in group.yml or on the command line; all included images will need to specify their own." None
      end
  | Some b => info ("Using branch from command line: " +:+ b) None
  end.

(** [[x for x in os.listdir(".") if os.path.isdir(x)]] inside
    [with Dir(d)]. *)
Definition list_dirs (d : string) : Py (list string) :=
  with_Dir d (
    l ← Os.listdir ".";
    o ← get_os;
    mret (filter (fun x => Is_true (Os.is_dir o x)) l)).

(** Lines 181-187 and 192-198: the names of one listing that occur in each
    of the three filters. *)
Fixpoint match_filters (names : list string)
    (acc : list string * list string * list string)
    : Py (list string * list string * list string) :=
  match names with
  | [] => mret acc
  | name :: rest =>
      let '(inc, opt, exc) := acc in
      r ← get_self;
      l ← sequence (include (args r));
      let inc := if PyStr.mem name l then inc ++ [name] else inc in
      l ← sequence (optional_include (args r));
      let opt := if PyStr.mem name l then opt ++ [name] else opt in
      l ← sequence (exclude (args r));
      let exc := if PyStr.mem name l then exc ++ [name] else exc in
      match_filters rest (inc, opt, exc)
  end.

(** [l.remove(name)] on a local list: the first occurrence of [name] is
    dropped; [ValueError] when there is none. *)
Definition remove (name : string) (l : list string) : Py (list string) :=
  match PyStr.list_remove name l with
  | Some l' => mret l'
  | None => raise ValueError
  end.

Section CollectConfigs.

(** The arguments of [collect_configs] that stay fixed during its loop;
    [gen] is the registration callback. *)
Variable search_type : string.
Variable check_include check_optional_include check_exclude : bool.
Variable gen : string -> Py unit.

(** Lines 221-231: [None] when the name is skipped, otherwise the two
    lists after the name was consumed. *)
Definition include_stage (name : string) (include optional_include : list string)
    : Py (option (list string * list string)) :=
  if check_include || check_optional_include then
    if check_include && PyStr.mem name include then
      info ("include: " +:+ name) None;;
      include' ← remove name include;
      mret (Some (include', optional_include))
    else if check_optional_include && PyStr.mem name optional_include then
      info ("optional_include: " +:+ name) None;;
      optional_include' ← remove name optional_include;
      mret (Some (include, optional_include'))
    else
      info (search_type +:+ " skip: " +:+ name) None;;
      log_verbose ("Skipping " +:+ search_type +:+ " " +:+ name
                     +:+ " since it is not in the include list");;
      mret None
  else mret (Some (include, optional_include)).

(** Lines 233-236: [true] when the name is excluded.  The test reads
    [self.exclude], not the local [exclude] list. *)
Definition exclude_stage (name : string) : Py bool :=
  if check_exclude then
    r ← get_self;
    l ← sequence (exclude (args r));
    if PyStr.mem name l then
      info (search_type +:+ " exclude: " +:+ name) None;;
      log_verbose ("Skipping " +:+ search_type +:+ " " +:+ name
                     +:+ " since it is in the exclude list");;
      mret true
    else mret false
  else mret false.

(** The loop of [collect_configs]; returns what is left of the two local
    lists, which the source mutates in place. *)
Fixpoint collect_loop (name_list include optional_include : list string)
    : Py (list string * list string) :=
  match name_list with
  | [] => mret (include, optional_include)
  | name :: rest =>
      s ← include_stage name include optional_include;
      match s with
      | None => collect_loop rest include optional_include
      | Some (include', optional_include') =>
          x ← exclude_stage name;
          if (x : bool) then collect_loop rest include' optional_include'
          else gen name;; collect_loop rest include' optional_include'
      end
  end.

End CollectConfigs.

(** [collect_configs], local to [initialize]. *)
Definition collect_configs (search_type search_dir : string)
    (name_list include optional_include exclude : list string)
    (gen : string -> Py unit) : Py (list string * list string) :=
  let check_include := len_gt_0 include in
  let check_optional_include := len_gt_0 optional_include in
  let check_exclude := len_gt_0 exclude in
  with_Dir search_dir
    (collect_loop search_type check_include check_optional_include
       check_exclude gen name_list include optional_include).

Definition gen_ImageMetadata (name : string) : Py unit :=
  modify_self (fun r =>
    set_image_map (<[ name := mkImageMetadata name name ]> (image_map r)) r).

Definition gen_RPMMetadata (name : string) : Py unit :=
  modify_self (fun r =>
    set_rpm_map (<[ name := mkRPMMetadata name name ]> (rpm_map r)) r).

(** [set(a) - set(b)], in the iteration order of the resulting set. *)
Definition set_difference (a b : list string) : list string :=
  elements ((list_to_set a : gset string) ∖ list_to_set b).

(** Lines 165-246: the selection of images and rpms. *)
Definition select_configs (images_dir rpms_dir : string) : Py unit :=
  r ← get_self;
  l ← sequence (include (args r));
  when (len_gt_0 l) (info ("Include list set to: " +:+ PyStr.str_list l) None);;
  l ← sequence (exclude (args r));
  when (len_gt_0 l) (info ("Exclude list set to: " +:+ PyStr.str_list l) None);;
  images_list ← list_dirs images_dir;
  rpms_list ← list_dirs rpms_dir;
  '(image_include, image_optional_include, image_exclude) ←
    match_filters images_list ([], [], []);
  '(rpm_include, rpm_optional_include, rpm_exclude) ←
    match_filters rpms_list ([], [], []);
  r ← get_self;
  l ← sequence (include (args r));
  let missed_include := set_difference l (image_include ++ rpm_include) in
  if len_gt_0 missed_include then
    raise (IOError ("Unable to find the following images or rpms configs: "
                      +:+ PyStr.join ", " missed_include))
  else
    l ← sequence (optional_include (args r));
    let missed_optional_include :=
      set_difference l (image_optional_include ++ rpm_optional_include) in
    when (len_gt_0 missed_optional_include)
         (info ("The following images or rpms were not found, but optional: "
                  +:+ PyStr.join ", " missed_optional_include) None);;
    collect_configs "image" images_dir images_list image_include
      image_optional_include image_exclude gen_ImageMetadata;;
    collect_configs "rpm" rpms_dir rpms_list rpm_include
      rpm_optional_include rpm_exclude gen_RPMMetadata;;
    pass.

Section Initialize.

(** [yaml.load] is an opaque document loader (spec, section 1); it is
    taken at the two shapes the runtime reads: the group document and the
    stream aliases. *)
Variable yaml_load_group : string -> GroupConfig.
Variable yaml_load_streams : string -> gmap string string.

(** Lines 141-148: [group.yml] is read and its name checked. *)
Definition load_group_yml (g : string) : Py GroupConfig :=
  group_yml ← Os.read_file "group.yml";
  let gc := yaml_load_group group_yml in
  modify_self (set_group_config (Some gc));;
  if bool_decide (gc_name gc = Some g) then mret gc
  else raise (IOError "Name in group.yml does not match group name. Someone may have copied this group without updating group.yml (make sure to check branch)").

(** Lines 140-246: the body of [with Dir(group_dir)]. *)
Definition initialize_group (g images_dir rpms_dir : string) : Py unit :=
  gc ← load_group_yml g;
  merge_group_defaults gc;;
  select_configs images_dir rpms_dir.

(** Lines 248-255: the empty-selection check and [streams.yml]. *)
Definition finish_initialize (group_dir : string) : Py unit :=
  r ← get_self;
  if (size (image_map r) + size (rpm_map r) =? 0)%nat then
    raise (IOError ("No image or rpm metadata directories found within: "
                      +:+ group_dir))
  else
    let streams_path := PyPath.join group_dir "streams.yml" in
    e ← Os.isfile streams_path;
    if (e : bool) then
      s ← Os.read_file streams_path;
      modify_self (set_streams (yaml_load_streams s))
    else pass.

(** Lines 90-139: everything before [with Dir(group_dir)]; returns the
    group name and the three directories. *)
Definition prepare : Py (string * (string * string * string)) :=
  r ← get_self;
  g ← match group (args r) with
      | None => Os.echo "Group must be specified";; raise (SystemExit 1)
      | Some g => mret g
      end;
  assert_dir (metadata_dir (args r)) "Invalid metadata-dir directory";;
  wd ← setup_working_dir;
  setup_workspace wd;;
  dirs ← locate_group g;
  mret (g, dirs).

(** [Runtime.initialize]. *)
Definition initialize : Py unit :=
  r ← get_self;
  if initialized r then pass
  else
    '(g, (group_dir, images_dir, rpms_dir)) ← prepare;
    with_Dir group_dir (initialize_group g images_dir rpms_dir);;
    finish_initialize group_dir.

End Initialize.

(** ** Descriptions used in the statements *)

(** The encoding of a value as section 4.4 words it, character by
    character: a line feed becomes the token [ ;;; ], a carriage return
    disappears, anything else stays. *)
Fixpoint substitute_newlines (v : string) : string :=
  match v with
  | EmptyString => EmptyString
  | String c r =>
      if Ascii.eqb c PyStr.LF then " ;;; " +:+ substitute_newlines r
      else if Ascii.eqb c PyStr.CR then substitute_newlines r
      else String c (substitute_newlines r)
  end.

(** The line of a record as section 4.4 words it:
    [recordType|k1=v1|k2=v2|...|], every value encoded as above. *)
Fixpoint record_fields (kwargs : list (string * string)) : string :=
  match kwargs with
  | [] => ""
  | (k, v) :: rest =>
      k +:+ "=" +:+ substitute_newlines v +:+ "|" +:+ record_fields rest
  end.

Definition record_line (record_type : string) (kwargs : list (string * string))
    : string :=
  record_type +:+ "|" +:+ record_fields kwargs.

(** The state after [text] was written to the open file [f]. *)
Definition appended (f text : string) (st : State) : State :=
  {| os := set_os_files
             (<[ f := default "" (os_files (os st) !! f) +:+ text ]>
                (os_files (os st))) (os st);
     self := self st |}.

(** ** The selection, described on lists *)

(** The debug log is an open file: [log_verbose] can write. *)
Definition log_ready (st : State) : Prop :=
  exists f : string,
    debug_log (ws (self st)) = Some f /\ f ∈ dom (os_files (os st)).

(** The state after [info(message)] and after [log_verbose(message)]. *)
Definition logged (message : string) (st : State) : State :=
  snd (info message None st).
Definition vlogged (message : string) (st : State) : State :=
  snd (log_verbose message st).

(** Unfolds the operations of the monad. *)
Ltac py_unfold :=
  unfold mbind, mret, Py_bind, Py_ret, get_self, get_os, modify_os,
    modify_self, modify_args, modify_ws, raise, pass, when, sequence in *.

(** Closes a goal that is decided by evaluation. *)
Ltac by_computation :=
  first [ vm_compute; reflexivity
        | apply (bool_decide_unpack _); vm_compute; exact I ].

Definition logged_if (c : bool) (message : string) (st : State) : State :=
  if c then logged message st else st.

(** The state after lines 165-169 announced the two lists. *)
Definition banner (I E : list string) (st : State) : State :=
  logged_if (len_gt_0 E) ("Exclude list set to: " +:+ PyStr.str_list E)
    (logged_if (len_gt_0 I) ("Include list set to: " +:+ PyStr.str_list I) st).

(** The same directories, the same working directory and the same files
    (whose contents may differ). *)
Definition same_fs (st st' : State) : Prop :=
  os_dirs (os st') = os_dirs (os st)
  /\ os_cwd (os st') = os_cwd (os st)
  /\ dom (os_files (os st')) = dom (os_files (os st)).

(** What [gen_ImageMetadata] and [gen_RPMMetadata] do to the object. *)
Definition register_image (name : string) (r : Runtime) : Runtime :=
  set_image_map (<[ name := mkImageMetadata name name ]> (image_map r)) r.
Definition register_rpm (name : string) (r : Runtime) : Runtime :=
  set_rpm_map (<[ name := mkRPMMetadata name name ]> (rpm_map r)) r.

(** The directories listed in [d], as [list_dirs d] finds them. *)
Definition listing (o : OS) (d : string) : list string :=
  let o' := set_os_cwd (Os.resolve o d) o in
  filter (fun x => Is_true (Os.is_dir o' x)) (Os.entries o' (Os.resolve o' ".")).

Section Selection.

(** The three filters: [include], [optional_include], [exclude]. *)
Variable I O E : list string.

(** The names of a listing that a filter mentions. *)
Definition matched (l names : list string) : list string :=
  filter (fun n => n ∈ l) names.

(** Selective mode of one kind: one of its two match lists is not empty. *)
Definition selective (names : list string) : bool :=
  len_gt_0 (matched I names) || len_gt_0 (matched O names).

(** A name gets past lines 221-231. *)
Definition passes_include (sel : bool) (n : string) : bool :=
  negb sel || bool_decide (n ∈ I) || bool_decide (n ∈ O).

(** A name is registered. *)
Definition admits (sel : bool) (n : string) : bool :=
  passes_include sel n && negb (bool_decide (n ∈ E)).

Definition admitted (names : list string) : list string :=
  filter (fun n => Is_true (admits (selective names) n)) names.

(** The console lines of lines 233-236 for one name. *)
Definition exclude_lines (search_type : string) (verbose : bool)
    (n : string) : list string :=
  if bool_decide (n ∈ E) then
    (search_type +:+ " exclude: " +:+ n)
    :: (if verbose then
          ["Skipping " +:+ search_type +:+ " " +:+ n
             +:+ " since it is in the exclude list"]
        else [])
  else [].

(** The console lines of one round of the loop of [collect_configs]. *)
Definition console_lines (search_type : string) (verbose sel : bool)
    (n : string) : list string :=
  if passes_include sel n then
    (if sel then
       if bool_decide (n ∈ I) then ["include: " +:+ n]
       else ["optional_include: " +:+ n]
     else [])
    ++ exclude_lines search_type verbose n
  else
    (search_type +:+ " skip: " +:+ n)
    :: (if verbose then
          ["Skipping " +:+ search_type +:+ " " +:+ n
             +:+ " since it is not in the include list"]
        else []).

(** The names of [include] found neither as image nor as rpm. *)
Definition missed (images rpms : list string) : list string :=
  set_difference I (matched I images ++ matched I rpms).

End Selection.

(** ** Where a run of [initialize] stands *)

(** A computation leaves an attribute [p] of the object alone, whether it
    returns or raises. *)
Definition preserves {A X : Type} (p : Runtime -> X) (m : Py A) : Prop :=
  forall st : State, p (self (snd (m st))) = p (self st).

(** A computation leaves the debug log open, whether it returns or
    raises. *)
Definition keeps_log {A : Type} (m : Py A) : Prop :=
  forall st : State, log_ready st -> log_ready (snd (m st)).

(** The filter a run works with after [group.yml] was merged in: the
    caller's, or else the default of the group. *)
Definition effective (caller default : option (list string))
    : option (list string) :=
  match caller with
  | Some l => Some l
  | None => default
  end.

Section Reaches.

Variable yaml_load_group : string -> GroupConfig.

(** Lines 82-148 of [initialize], run from [st]: when they all return, the
    working directory that was left for the group directory, the group,
    images and rpms directories, the loaded [group.yml] and the state in
    which line 150 starts. *)
Definition run_to_merge (st : State)
    : option (string * string * string * string * GroupConfig * State) :=
  match prepare st with
  | (Ok (g, (gd, id, rd)), st1) =>
      match Os.chdir gd st1 with
      | (Ok _, st2) =>
          match load_group_yml yaml_load_group g st2 with
          | (Ok gc, st3) => Some (os_cwd (os st1), gd, id, rd, gc, st3)
          | (Raise _, _) => None
          end
      | (Raise _, _) => None
      end
  | (Raise _, _) => None
  end.

(** The same up to line 163: the state in which line 165 starts. *)
Definition run_to_selection (st : State)
    : option (string * string * string * string * State) :=
  match run_to_merge st with
  | Some (old, gd, id, rd, gc, st3) =>
      match merge_group_defaults gc st3 with
      | (Ok _, st4) => Some (old, gd, id, rd, st4)
      | (Raise _, _) => None
      end
  | None => None
  end.

(** The run of [initialize] from [st] is about to execute line 150 in
    state [st3]: the workspace is set up, the group directory [gd] was
    entered (coming from working directory [old]) and [group.yml] was
    loaded as [gc]; [id] and [rd] are the images and rpms directories. *)
Definition reaches_merge (st : State) (old gd id rd : string)
    (gc : GroupConfig) (st3 : State) : Prop :=
  initialized (self st) = false
  /\ run_to_merge st = Some (old, gd, id, rd, gc, st3).

(** The run is about to execute line 165 in state [st4]. *)
Definition reaches_selection (st : State) (old gd id rd : string)
    (st4 : State) : Prop :=
  initialized (self st) = false
  /\ run_to_selection st = Some (old, gd, id, rd, st4).

End Reaches.

(** The state when [with Dir] is left for the working directory [old]. *)
Definition leave_Dir (old : string) (st : State) : State :=
  {| os := set_os_cwd old (os st); self := self st |}.

(** The registry after the names of [l] were registered in turn. *)
Definition with_images (l : list string) (m : gmap string ImageMetadata)
    : gmap string ImageMetadata :=
  foldl (fun m n => <[ n := mkImageMetadata n n ]> m) m l.
Definition with_rpms (l : list string) (m : gmap string RPMMetadata)
    : gmap string RPMMetadata :=
  foldl (fun m n => <[ n := mkRPMMetadata n n ]> m) m l.

(** ** A small installation, for concrete runs *)

Module Demo.

(** A metadata tree with images [a], [b], [c] and rpm [x] in group [g],
    and a working directory [/work]. *)
Definition tree : OS :=
  {| os_dirs := list_to_set
       ["/"; "/tmp"; "/work"; "/meta"; "/meta/groups"; "/meta/groups/g";
        "/meta/groups/g/images"; "/meta/groups/g/rpms";
        "/meta/groups/g/images/a"; "/meta/groups/g/images/b";
        "/meta/groups/g/images/c"; "/meta/groups/g/rpms/x"];
     os_files := {[ "/meta/groups/g/group.yml" := "name: g" ]};
     os_cwd := "/";
     os_console := [];
     os_atexit := [];
     os_tempdir := "/tmp";
     os_tmp := ["k3j2"] |}.

(** The same tree where [a] is both an image and an rpm. *)
Definition tree_shared_name : OS :=
  set_os_dirs ({[ "/meta/groups/g/rpms/a" ]} ∪ os_dirs tree) tree.

(** A group directory without any image or rpm. *)
Definition tree_empty : OS :=
  set_os_dirs (list_to_set
    ["/"; "/tmp"; "/work"; "/meta"; "/meta/groups"; "/meta/groups/g";
     "/meta/groups/g/images"; "/meta/groups/g/rpms"]) tree.

Definition yaml_load_group (text : string) : GroupConfig :=
  {| gc_name := Some "g"; gc_excludes := None; gc_includes := None;
     gc_branch := None |}.

Definition yaml_load_streams (text : string) : gmap string string := ∅.

Definition kwargs (inc opt exc : option (list string)) : Kwargs :=
  {| group := Some "g"; metadata_dir := "/meta";
     working_dir := Some "/work"; include := inc; exclude := exc;
     optional_include := opt; branch := None; verbose := false |}.

Definition start (o : OS) (inc opt exc : option (list string)) : State :=
  {| os := o; self := __init__ (kwargs inc opt exc) |}.

Definition init : Py unit := initialize yaml_load_group yaml_load_streams.

(** The state after [initialize()] with [include=["a","x"]]. *)
Definition ready : State :=
  snd (init (start tree (Some ["a"; "x"]) (Some []) (Some []))).

(** The states in which a run from [st] starts lines 150 and 165. *)
Definition at_merge (st : State) : State :=
  match run_to_merge yaml_load_group st with
  | Some (_, st3) => st3
  | None => st
  end.

Definition at_selection (st : State) : State :=
  match run_to_selection yaml_load_group st with
  | Some (_, st4) => st4
  | None => st
  end.

Definition group_dir : string := "/meta/groups/g".
Definition images_dir : string := "/meta/groups/g/images".
Definition rpms_dir : string := "/meta/groups/g/rpms".

(** Runs with particular filters. *)
Definition missing_q : State := start tree (Some ["q"]) (Some []) (Some []).
Definition exclude_b : State := start tree (Some []) (Some []) (Some ["b"]).
Definition include_a_exclude_b : State :=
  start tree (Some ["a"]) (Some []) (Some ["b"]).
Definition include_a_exclude_a : State :=
  start tree (Some ["a"]) (Some []) (Some ["a"]).
Definition shared_a : State :=
  start tree_shared_name (Some ["a"]) (Some []) (Some []).
Definition optional_none : State :=
  start tree_empty (Some ["q"]) None (Some []).
Definition include_none : State := start tree None (Some []) (Some []).

End Demo.

(** ** The remaining methods of [Runtime] *)

Module Rt.

(** [Runtime.images()]: the values of the image registry, in the order of
    the dictionary. *)
Definition images : Py (list ImageMetadata) :=
  r ← get_self;
  mret (snd <$> map_to_list (image_map r)).

(** [Runtime.add_distgits_diff(distgit, diff)].  [distgits_diff_dir] is an
    attribute only once [initialize] assigned it; before, reading it raises
    [AttributeError]. *)
Definition add_distgits_diff (distgit diff : string) : Py unit :=
  r ← get_self;
  match distgits_diff_dir (ws r) with
  | None => raise AttributeError
  | Some d =>
      f ← Os.open_write (PyPath.join d (distgit +:+ ".patch"));
      Os.write f diff
  end.

End Rt.

(** ** Descriptions used for the whole of [initialize] *)

(** The second system has the working directory of the first, every
    directory of the first, every file of the first with its content
    possibly extended at the end, and the console lines and [atexit]
    registrations of the first followed by further ones. *)
Definition os_only_adds (o o' : OS) : Prop :=
  os_cwd o' = os_cwd o
  /\ os_dirs o ⊆ os_dirs o'
  /\ (forall p c, os_files o !! p = Some c ->
        exists c', os_files o' !! p = Some (c +:+ c'))
  /\ (exists l, os_console o' = os_console o ++ l)
  /\ (exists l, os_atexit o' = os_atexit o ++ l).

(** A computation that only adds to the system, whether it returns or
    raises. *)
Definition only_adds {A : Type} (m : Py A) : Prop :=
  forall st : State, os_only_adds (os st) (os (snd (m st))).

(** A computation registers nothing with [atexit], whether it returns or
    raises. *)
Definition keeps_atexit {A : Type} (m : Py A) : Prop :=
  forall st : State, os_atexit (os (snd (m st))) = os_atexit (os st).

(** The second system has the directories of the first, and its files
    but for the one at path [f]. *)
Definition os_writes_only (f : string) (o o' : OS) : Prop :=
  os_dirs o' = os_dirs o
  /\ forall p, p <> f -> os_files o' !! p = os_files o !! p.

(** A computation that, run with the debug log [f] open, keeps it as the
    debug log and writes to no other file, whether it returns or raises. *)
Definition logs_only (f : string) {A : Type} (m : Py A) : Prop :=
  forall st : State,
    debug_log (ws (self st)) = Some f ->
    debug_log (ws (self (snd (m st)))) = Some f
    /\ os_writes_only f (os st) (os (snd (m st))).

(** ** Further concrete runs *)

Module Cases.

(** The demo runtime with its keyword arguments changed. *)
Definition no_group : State :=
  {| os := Demo.tree;
     self := __init__
       {| group := None; metadata_dir := "/meta"; working_dir := Some "/work";
          include := Some []; exclude := Some []; optional_include := Some [];
          branch := None; verbose := false |} |}.

Definition bad_metadata_dir : State :=
  {| os := Demo.tree;
     self := __init__
       {| group := Some "g"; metadata_dir := "/nowhere";
          working_dir := Some "/work";
          include := Some []; exclude := Some []; optional_include := Some [];
          branch := None; verbose := false |} |}.

Definition bad_working_dir : State :=
  {| os := Demo.tree;
     self := __init__
       {| group := Some "g"; metadata_dir := "/meta";
          working_dir := Some "/nowhere";
          include := Some []; exclude := Some []; optional_include := Some [];
          branch := None; verbose := false |} |}.

(** The demo tree on a system whose temporary directory is [/work]. *)
Definition tree_tempdir : OS :=
  {| os_dirs := os_dirs Demo.tree; os_files := os_files Demo.tree;
     os_cwd := os_cwd Demo.tree; os_console := os_console Demo.tree;
     os_atexit := os_atexit Demo.tree;
     os_tempdir := "/work"; os_tmp := os_tmp Demo.tree |}.

(** No working directory given: a temporary one is made. *)
Definition temporary : State :=
  {| os := tree_tempdir;
     self := __init__
       {| group := Some "g"; metadata_dir := "/meta"; working_dir := None;
          include := Some []; exclude := Some []; optional_include := Some [];
          branch := None; verbose := false |} |}.

(** Runs of the demo tree with other filters: [include] names the rpm
    only; [optional_include] names a directory that does not exist; every
    directory is excluded. *)
Definition include_x : State :=
  Demo.start Demo.tree (Some ["x"]) (Some []) (Some []).
Definition optional_q : State :=
  Demo.start Demo.tree (Some []) (Some ["q"]) (Some []).
Definition all_excluded : State :=
  Demo.start Demo.tree (Some []) (Some []) (Some ["a"; "b"; "c"; "x"]).

(** A second group [h] whose [group.yml] was copied from group [g], and
    one without [group.yml]. *)
Definition tree_copied : OS :=
  set_os_files (<[ "/meta/groups/h/group.yml" := "name: g" ]> (os_files Demo.tree))
    (set_os_dirs ({[ "/meta/groups/h" ]} ∪ os_dirs Demo.tree) Demo.tree).

Definition tree_bare : OS :=
  set_os_dirs ({[ "/meta/groups/h" ]} ∪ os_dirs Demo.tree) Demo.tree.

Definition group_h (o : OS) : State :=
  {| os := o;
     self := __init__
       {| group := Some "h"; metadata_dir := "/meta"; working_dir := Some "/work";
          include := Some []; exclude := Some []; optional_include := Some [];
          branch := None; verbose := false |} |}.

End Cases.

(** ** The logger *)

(** The text [info(message, debug)] hands on: the debug detail is added in
    verbose mode only. *)
Definition info_text (message : string) (debug : option string) (v : bool)
    : string :=
  if v then
    match debug with
    | Some d => message +:+ " [" +:+ d +:+ "]"
    | None => message
    end
  else message.

(** ** The workspace *)

(** The attributes lines 104-128 assign for the working directory [wd];
    the two log attributes are the opened files. *)
Definition workspace_of (o : OS) (wd : string) : Workspace :=
  {| distgits_dir := Some (PyPath.join wd "distgits");
     distgits_diff_dir := Some (PyPath.join wd "distgits-diffs");
     record_log := Some (Os.resolve o (PyPath.join wd "record.log"));
     record_log_path := Some (PyPath.join wd "record.log");
     debug_log := Some (Os.resolve o (PyPath.join wd "debug.log"));
     debug_log_path := Some (PyPath.join wd "debug.log");
     brew_logs_dir := Some (PyPath.join wd "brew-logs");
     flags_dir := Some (PyPath.join wd "flags") |}.

(** The workspace is in place below [wd]: the attributes name it, its four
    directories and its two log files exist. *)
Definition workspace_ready (wd : string) (st : State) : Prop :=
  working_dir (args (self st)) = Some wd
  /\ ws (self st) = workspace_of (os st) wd
  /\ Os.is_dir (os st) wd = true
  /\ Forall (fun d => Os.is_dir (os st) (PyPath.join wd d) = true)
       ["distgits"; "distgits-diffs"; "brew-logs"; "flags"]
  /\ Forall (fun f => Os.is_file (os st) (PyPath.join wd f) = true)
       ["debug.log"; "record.log"].

(** * Properties *)

(** ** Strings *)

Lemma append_nil_l (s : string) : "" +:+ s = s.
Proof. reflexivity. Qed.

Lemma append_cons (c : ascii) (s t : string) :
  String c s +:+ t = String c (s +:+ t).
Proof. reflexivity. Qed.

Lemma append_nil_r (s : string) : s +:+ "" = s.
Proof. induction s as [|c s IH]; simpl; rewrite ?append_cons, ?append_nil_l; [reflexivity | now rewrite IH]. Qed.

Lemma append_assoc (a b c : string) : (a +:+ b) +:+ c = a +:+ (b +:+ c).
Proof. induction a as [|x a IH]; simpl; rewrite ?append_cons, ?append_nil_l; [reflexivity | now rewrite IH]. Qed.


Lemma count_append (c : ascii) (a b : string) :
  PyStr.count c (a +:+ b) = PyStr.count c a + PyStr.count c b.
Proof.
  induction a as [|x a IH]; simpl; rewrite ?append_cons, ?append_nil_l; [reflexivity | simpl; rewrite IH; lia].
Qed.

Lemma contains_count (c : ascii) (s : string) :
  PyStr.contains c s = false <-> PyStr.count c s = 0.
Proof.
  induction s as [|x s IH]; simpl; [tauto |].
  destruct (Ascii.eqb x c); simpl; [split; [discriminate | lia] | exact IH].
Qed.

Lemma replace_append (c : ascii) (new a b : string) :
  PyStr.replace c new (a +:+ b) = PyStr.replace c new a +:+ PyStr.replace c new b.
Proof.
  induction a as [|x a IH]; simpl; rewrite ?append_cons, ?append_nil_l; [reflexivity |].
  simpl. destruct (Ascii.eqb x c); rewrite IH;
    [now rewrite append_assoc | reflexivity].
Qed.

(** The two passes of [encode_value] amount to one substitution per
    character. *)
Lemma encode_value_substitute (v : string) :
  encode_value v = substitute_newlines v.
Proof.
  unfold encode_value. induction v as [|c v IH]; simpl; [reflexivity |].
  destruct (Ascii.eqb c PyStr.LF) eqn:ELF.
  - rewrite (replace_append PyStr.CR "" " ;;; "), IH. reflexivity.
  - simpl. destruct (Ascii.eqb c PyStr.CR); now rewrite IH.
Qed.

Lemma substitute_newlines_clean (v : string) :
  PyStr.count PyStr.LF (substitute_newlines v) = 0
  /\ PyStr.count PyStr.CR (substitute_newlines v) = 0.
Proof.
  induction v as [|c v [IH1 IH2]]; simpl; [split; reflexivity |].
  destruct (Ascii.eqb c PyStr.LF) eqn:ELF.
  - rewrite !count_append, IH1, IH2. split; reflexivity.
  - destruct (Ascii.eqb c PyStr.CR) eqn:ECR; [split; assumption |].
    simpl. rewrite ELF, ECR, IH1, IH2. split; reflexivity.
Qed.

(** ** The monad *)

Lemma bind_run {A B : Type} (m : Py A) (f : A -> Py B) (st : State) :
  (m ≫= f) st =
  match m st with
  | (Ok a, st') => f a st'
  | (Raise e, st') => (Raise e, st')
  end.
Proof. reflexivity. Qed.

Lemma bind_ok {A B : Type} (m : Py A) (f : A -> Py B) (st st' : State) (a : A) :
  m st = (Ok a, st') -> (m ≫= f) st = f a st'.
Proof. intros H. now rewrite bind_run, H. Qed.

Lemma bind_raise {A B : Type} (m : Py A) (f : A -> Py B) (st st' : State)
    (e : PyError) :
  m st = (Raise e, st') -> (m ≫= f) st = (Raise e, st').
Proof. intros H. now rewrite bind_run, H. Qed.

Lemma bind_get_self {B : Type} (f : Runtime -> Py B) (st : State) :
  (get_self ≫= f) st = f (self st) st.
Proof. reflexivity. Qed.

Lemma bind_get_os {B : Type} (f : OS -> Py B) (st : State) :
  (get_os ≫= f) st = f (os st) st.
Proof. reflexivity. Qed.

Lemma sequence_some {A : Type} (o : option A) (l : A) (st : State) :
  o = Some l -> sequence o st = (Ok l, st).
Proof. now intros ->. Qed.

Lemma sequence_none {A : Type} (o : option A) (st : State) :
  o = None -> sequence o st = (Raise TypeError, st).
Proof. now intros ->. Qed.

(** ** Record log *)

Lemma add_record_fields_ok (kwargs : list (string * string)) (record : string)
    (st : State) :
  Forall (fun kv => PyStr.contains PyStr.LF kv.1 = false) kwargs ->
  add_record_fields kwargs record st = (Ok (record +:+ record_fields kwargs), st).
Proof.
  intros H. revert record. induction H as [|[k v] rest Hk _ IH]; intros record.
  - simpl. now rewrite append_nil_r.
  - simpl in *. rewrite Hk, IH, encode_value_substitute.
    now rewrite !append_assoc.
Qed.






(** ** Lookups *)

(** C7: [resolve_image] returns the registered handle when the name is in
    the image registry; when it is absent the call raises [IOError] (the
    not-found error) if [required], and returns [None] otherwise; the state
    is left as it was. *)
Theorem resolve_image_spec (st : State) (distgit_name : string) (required : bool) :
  resolve_image distgit_name required st =
  match image_map (self st) !! distgit_name with
  | Some image => (Ok (Some image), st)
  | None =>
      if required then
        (Raise (IOError
           ("Unable to find image metadata in group / included images: "
              +:+ distgit_name)), st)
      else (Ok None, st)
  end.
Proof.
  unfold resolve_image. py_unfold. simpl.
  destruct (image_map (self st) !! distgit_name); [reflexivity |].
  destruct required; reflexivity.
Qed.

(** The scenario of section 8: after [initialize] with [include=["a","x"]]
    image [a] resolves, image [b] does not. *)
Example resolve_image_demo :
  resolve_image "a" true Demo.ready
  = (Ok (Some (mkImageMetadata "a" "a")), Demo.ready)
  /\ resolve_image "b" true Demo.ready
     = (Raise (IOError
          "Unable to find image metadata in group / included images: b"),
        Demo.ready)
  /\ resolve_image "b" false Demo.ready = (Ok None, Demo.ready).
Proof. repeat split; by_computation. Qed.

(** C8: [resolve_stream] returns the command-line override of the name
    whenever there is one, whatever the streams document says; otherwise
    the entry of the streams document; and raises [IOError] (the not-found
    error) when neither defines the name. *)
Theorem resolve_stream_spec (st : State) (stream_name : string) :
  resolve_stream stream_name st =
  match stream_alias_overrides (self st) !! stream_name with
  | Some image => (Ok image, st)
  | None =>
      match streams (self st) !! stream_name with
      | Some image => (Ok image, st)
      | None =>
          (Raise (IOError ("Unable to find definition for stream: "
                             +:+ stream_name)), st)
      end
  end.
Proof.
  unfold resolve_stream. py_unfold. simpl.
  destruct (stream_alias_overrides (self st) !! stream_name); [reflexivity |].
  destruct (streams (self st) !! stream_name); reflexivity.
Qed.

(** The precedence example of section 8: an override of [golang] wins over
    the streams document. *)
Example resolve_stream_golang (st : State) :
  stream_alias_overrides (self st) !! "golang" = Some "golang-1.18" ->
  streams (self st) !! "golang" = Some "golang-1.16" ->
  resolve_stream "golang" st = (Ok "golang-1.18", st).
Proof.
  intros Ho _. unfold resolve_stream. py_unfold. simpl. now rewrite Ho.
Qed.

(** ** Flag files *)

Lemma flag_file_path (st : State) (d flag_name : string) :
  flags_dir (ws (self st)) = Some d ->
  _flag_file flag_name st = (Ok (PyPath.join d flag_name), st).
Proof. intros Hd. unfold _flag_file. py_unfold. simpl. now rewrite Hd. Qed.

(** The state after [flag_create] succeeded on the flag file [p]. *)
Lemma flag_create_ok (st : State) (d flag_name msg : string) :
  flags_dir (ws (self st)) = Some d ->
  Os.is_dir (os st) (PyPath.join d flag_name) = false ->
  Os.parent_is_dir (os st) (PyPath.join d flag_name) = true ->
  flag_create flag_name msg st =
    (Ok tt,
     {| os := set_os_files
                (<[ Os.resolve (os st) (PyPath.join d flag_name) := msg ]>
                   (os_files (os st))) (os st);
        self := self st |}).
Proof.
  intros Hd Hdir Hparent. unfold flag_create.
  rewrite bind_run, (flag_file_path st d) by assumption.
  unfold Os.open_write, Os.write. py_unfold. simpl.
  rewrite Hdir, Hparent. simpl. unfold set_os_files at 1. simpl.
  rewrite lookup_insert_eq, insert_insert_eq. reflexivity.
Qed.

(** C9: with the flags directory in place, a flag name whose file can be
    opened for writing is created by two calls of [flag_create] in a row,
    after which [flag_exists] answers true; and [flag_remove] of a flag
    that has no file returns normally and leaves the state as it was. *)
Theorem flag_create_twice_and_remove_absent (st : State) (d flag_name : string) :
  flags_dir (ws (self st)) = Some d ->
  (Os.is_dir (os st) (PyPath.join d flag_name) = false ->
   Os.parent_is_dir (os st) (PyPath.join d flag_name) = true ->
   forall msg1 msg2 : string, exists st1 st2 : State,
     flag_create flag_name msg1 st = (Ok tt, st1)
     /\ flag_create flag_name msg2 st1 = (Ok tt, st2)
     /\ flag_exists flag_name st2 = (Ok true, st2))
  /\ (Os.is_file (os st) (PyPath.join d flag_name) = false ->
      flag_remove flag_name st = (Ok tt, st)).
Proof.
  intros Hd. split.
  - intros Hdir Hparent msg1 msg2.
    eexists _, _. split; [apply (flag_create_ok st d); assumption |].
    split.
    + apply (flag_create_ok _ d); assumption.
    + unfold flag_exists. rewrite bind_run, (flag_file_path _ d) by exact Hd.
      unfold Os.isfile, Os.is_file, Os.resolve. py_unfold. simpl.
      rewrite lookup_insert_eq.
      rewrite bool_decide_eq_true_2 by (eexists; reflexivity). reflexivity.
  - intros Hfile. unfold flag_remove, flag_exists.
    rewrite !bind_run, (flag_file_path st d) by exact Hd.
    unfold Os.isfile. py_unfold. simpl. now rewrite Hfile.
Qed.

(** Flag [done] in the workspace of [Demo.ready]: created twice, then
    present; flag [other] was never created and its removal is a no-op. *)
Lemma flag_create_twice_and_remove_absent_witness :
  flags_dir (ws (self Demo.ready)) = Some "/work/flags"
  /\ (exists st1 st2 : State,
        flag_create "done" "first" Demo.ready = (Ok tt, st1)
        /\ flag_create "done" "" st1 = (Ok tt, st2)
        /\ flag_exists "done" st2 = (Ok true, st2))
  /\ flag_remove "other" Demo.ready = (Ok tt, Demo.ready).
Proof.
  assert (Hd : flags_dir (ws (self Demo.ready)) = Some "/work/flags")
    by (vm_compute; reflexivity).
  split; [exact Hd |]. split.
  - apply (proj1 (flag_create_twice_and_remove_absent Demo.ready
                    "/work/flags" "done" Hd));
      vm_compute; reflexivity.
  - apply (proj2 (flag_create_twice_and_remove_absent Demo.ready
                    "/work/flags" "other" Hd)).
    vm_compute; reflexivity.
Defined.

(** ** Logger *)

Lemma vlogged_self (msg : string) (st : State) : self (vlogged msg st) = self st.
Proof.
  unfold vlogged, log_verbose, Os.echo, Os.write. py_unfold. simpl.
  destruct (verbose (args (self st))), (debug_log (ws (self st))); reflexivity.
Qed.

Lemma logged_self (msg : string) (st : State) : self (logged msg st) = self st.
Proof.
  unfold logged, info. py_unfold. simpl.
  destruct (verbose (args (self st))) eqn:V; [| reflexivity].
  apply vlogged_self.
Qed.

Lemma dom_write (f text : string) (files : gmap string string) :
  f ∈ dom files -> dom (<[ f := text ]> files) = dom files.
Proof.
  intros H. rewrite dom_insert_L. apply subseteq_union_1_L.
  now apply singleton_subseteq_l.
Qed.

Lemma vlogged_fs (msg : string) (st : State) :
  log_ready st -> same_fs st (vlogged msg st).
Proof.
  intros (f & Hf & Hdom).
  unfold vlogged, log_verbose, Os.echo, Os.write, same_fs. py_unfold. simpl.
  destruct (verbose (args (self st))); simpl; rewrite Hf; simpl;
    (split; [reflexivity | split; [reflexivity | now apply dom_write]]).
Qed.

Lemma logged_fs (msg : string) (st : State) :
  log_ready st -> same_fs st (logged msg st).
Proof.
  intros Hready. unfold logged, info. py_unfold. simpl.
  destruct (verbose (args (self st))) eqn:V; [now apply vlogged_fs |].
  repeat split.
Qed.

Lemma vlogged_console (msg : string) (st : State) :
  os_console (os (vlogged msg st))
  = os_console (os st) ++ (if verbose (args (self st)) then [msg] else []).
Proof.
  unfold vlogged, log_verbose, Os.echo, Os.write. py_unfold. simpl.
  destruct (verbose (args (self st))), (debug_log (ws (self st))); simpl;
    rewrite ?app_nil_r; reflexivity.
Qed.

Lemma logged_console (msg : string) (st : State) :
  os_console (os (logged msg st)) = os_console (os st) ++ [msg].
Proof.
  unfold logged, info. py_unfold. simpl.
  destruct (verbose (args (self st))) eqn:V; [| reflexivity].
  fold (vlogged msg st). now rewrite vlogged_console, V.
Qed.

Lemma log_verbose_ok (msg : string) (st : State) :
  log_ready st -> log_verbose msg st = (Ok tt, vlogged msg st).
Proof.
  intros (f & Hf & _). unfold vlogged, log_verbose, Os.echo, Os.write.
  py_unfold. simpl.
  destruct (verbose (args (self st))); simpl; rewrite Hf; reflexivity.
Qed.

Lemma info_ok (msg : string) (st : State) :
  log_ready st -> info msg None st = (Ok tt, logged msg st).
Proof.
  intros Hready. unfold logged, info. py_unfold. simpl.
  destruct (verbose (args (self st))); [| reflexivity].
  now rewrite log_verbose_ok.
Qed.

Lemma log_ready_transfer (st st1 : State) :
  ws (self st1) = ws (self st) -> same_fs st st1 ->
  log_ready st -> log_ready st1.
Proof.
  intros Hws (_ & _ & Hdom) (f & Hf & Hin). exists f.
  rewrite Hws, Hdom. split; assumption.
Qed.

Lemma logged_ready (msg : string) (st : State) :
  log_ready st -> log_ready (logged msg st).
Proof.
  intros H. apply (log_ready_transfer st);
    [now rewrite logged_self | now apply logged_fs | exact H].
Qed.

Lemma vlogged_ready (msg : string) (st : State) :
  log_ready st -> log_ready (vlogged msg st).
Proof.
  intros H. apply (log_ready_transfer st);
    [now rewrite vlogged_self | now apply vlogged_fs | exact H].
Qed.

Lemma same_fs_refl (st : State) : same_fs st st.
Proof. repeat split. Qed.

Lemma same_fs_trans (a b c : State) : same_fs a b -> same_fs b c -> same_fs a c.
Proof. intros (H1 & H2 & H3) (H4 & H5 & H6). repeat split; congruence. Qed.

(** ** The loop of [collect_configs] *)

Lemma remove_head (n : string) (l : list string) (st : State) :
  remove n (n :: l) st = (Ok l, st).
Proof. unfold remove. simpl. now rewrite decide_True. Qed.

Lemma remove_after (n : string) (pre l : list string) (st : State) :
  n ∉ pre -> remove n (pre ++ n :: l) st = (Ok (pre ++ l), st).
Proof.
  intros Hpre. unfold remove.
  assert (H : PyStr.list_remove n (pre ++ n :: l) = Some (pre ++ l)).
  { induction pre as [|x pre IH]; simpl.
    - now rewrite decide_True.
    - apply not_elem_of_cons in Hpre as [Hx Hpre].
      rewrite decide_False by exact Hx. now rewrite IH. }
  now rewrite H.
Qed.

Lemma mem_true (n : string) (l : list string) : n ∈ l -> PyStr.mem n l = true.
Proof. intros H. unfold PyStr.mem. now apply bool_decide_eq_true_2. Qed.

Lemma mem_false (n : string) (l : list string) : n ∉ l -> PyStr.mem n l = false.
Proof. intros H. unfold PyStr.mem. now apply bool_decide_eq_false_2. Qed.

Section Stages.

Variable search_type : string.
Variable ci co ce : bool.
Variable gen : string -> Py unit.

Lemma include_stage_include (n : string) (inc opt : list string) (st : State) :
  ci = true -> log_ready st ->
  include_stage search_type ci co n (n :: inc) opt st
  = (Ok (Some (inc, opt)), logged ("include: " +:+ n) st).
Proof.
  intros -> Hready. unfold include_stage. simpl.
  rewrite (mem_true n (n :: inc)) by apply list_elem_of_here.
  rewrite bind_run, info_ok by exact Hready.
  rewrite bind_run, remove_head. reflexivity.
Qed.

Lemma include_stage_optional (n : string) (inc pre opt : list string) (st : State) :
  co = true -> n ∉ inc -> n ∉ pre -> log_ready st ->
  include_stage search_type ci co n inc (pre ++ n :: opt) st
  = (Ok (Some (inc, pre ++ opt)), logged ("optional_include: " +:+ n) st).
Proof.
  intros -> Hinc Hpre Hready. unfold include_stage.
  rewrite orb_true_r, (mem_false n inc) by exact Hinc.
  rewrite andb_false_r. simpl.
  rewrite (mem_true n (pre ++ n :: opt))
    by (apply elem_of_app; right; apply list_elem_of_here).
  rewrite bind_run, info_ok by exact Hready.
  rewrite bind_run, remove_after by exact Hpre. reflexivity.
Qed.

Lemma include_stage_skip (n : string) (inc opt : list string) (st : State) :
  ci || co = true -> n ∉ inc -> n ∉ opt -> log_ready st ->
  include_stage search_type ci co n inc opt st
  = (Ok None,
     vlogged ("Skipping " +:+ search_type +:+ " " +:+ n
                +:+ " since it is not in the include list")
       (logged (search_type +:+ " skip: " +:+ n) st)).
Proof.
  intros Hsel Hinc Hopt Hready. unfold include_stage. rewrite Hsel.
  rewrite (mem_false n inc), (mem_false n opt) by assumption.
  rewrite !andb_false_r.
  rewrite bind_run, info_ok by exact Hready.
  rewrite bind_run, log_verbose_ok by (apply logged_ready, Hready).
  reflexivity.
Qed.

Lemma include_stage_pass (n : string) (inc opt : list string) (st : State) :
  ci || co = false ->
  include_stage search_type ci co n inc opt st = (Ok (Some (inc, opt)), st).
Proof. intros Hsel. unfold include_stage. now rewrite Hsel. Qed.

Lemma exclude_stage_excluded (E : list string) (n : string) (st : State) :
  ce = true -> exclude (args (self st)) = Some E -> n ∈ E -> log_ready st ->
  exclude_stage search_type ce n st
  = (Ok true,
     vlogged ("Skipping " +:+ search_type +:+ " " +:+ n
                +:+ " since it is in the exclude list")
       (logged (search_type +:+ " exclude: " +:+ n) st)).
Proof.
  intros -> HE Hn Hready. unfold exclude_stage. py_unfold.
  simpl. rewrite HE. py_unfold. simpl. rewrite (mem_true n E) by exact Hn.
  rewrite info_ok by exact Hready.
  rewrite log_verbose_ok by (apply logged_ready, Hready). reflexivity.
Qed.

Lemma exclude_stage_kept (E : list string) (n : string) (st : State) :
  exclude (args (self st)) = Some E -> n ∉ E ->
  exclude_stage search_type ce n st = (Ok false, st).
Proof.
  intros HE Hn. unfold exclude_stage. destruct ce; [| reflexivity].
  py_unfold. simpl. rewrite HE. py_unfold. simpl.
  now rewrite (mem_false n E) by exact Hn.
Qed.

End Stages.

Section Loop.

Variable search_type : string.
Variable I O E : list string.
Variable ci co ce : bool.
Variable g : string -> Runtime -> Runtime.
Hypothesis g_args : forall n r, args (g n r) = args r.
Hypothesis g_ws : forall n r, ws (g n r) = ws r.

Local Abbreviation gen := (fun n : string => modify_self (g n)).
Local Abbreviation sel := (ci || co).
Local Abbreviation loop := (collect_loop search_type ci co ce gen).
Local Abbreviation both := (fun n : string => n ∈ I /\ n ∈ O).

(** Lines 233-238 of one round, followed by the rest of the loop [k]. *)
Lemma exclude_then_gen {A : Type} (k : Py A) (n : string) (st : State) :
  log_ready st -> exclude (args (self st)) = Some E ->
  (ce = false -> n ∉ E) ->
  exists st1 : State,
    (exclude_stage search_type ce n ≫= fun x : bool =>
       if x then k else gen n;; k) st = k st1
    /\ self st1 = (if bool_decide (n ∈ E) then self st else g n (self st))
    /\ os_console (os st1)
       = os_console (os st) ++ exclude_lines E search_type (verbose (args (self st))) n
    /\ same_fs st st1.
Proof.
  intros Hready HE Hce. unfold exclude_lines.
  destruct (decide (n ∈ E)) as [Hin | Hout].
  - rewrite bool_decide_eq_true_2 by exact Hin.
    assert (ce = true) as Hc by (destruct ce; [reflexivity | now destruct Hce]).
    eexists. split.
    { rewrite bind_run, (exclude_stage_excluded _ _ E) by assumption.
      reflexivity. }
    split; [now rewrite vlogged_self, logged_self |].
    split.
    + rewrite vlogged_console, logged_console, logged_self.
      now rewrite <- app_assoc.
    + eapply same_fs_trans;
        [apply logged_fs, Hready | apply vlogged_fs, logged_ready, Hready].
  - rewrite bool_decide_eq_false_2 by exact Hout.
    exists {| os := os st; self := g n (self st) |}. split.
    { rewrite bind_run, (exclude_stage_kept _ _ E) by assumption.
      reflexivity. }
    simpl. rewrite app_nil_r. repeat split.
Qed.

(** One round of the loop, on the match lists as [initialize] builds
    them: [pre] holds the names of [optional_include] that were claimed
    through [include] and therefore never removed. *)
Lemma collect_loop_step (n : string) (rest pre : list string) (st : State) :
  log_ready st -> exclude (args (self st)) = Some E ->
  (ci = false -> n ∉ I) -> (co = false -> n ∉ O) -> (ce = false -> n ∉ E) ->
  Forall (fun m => m ∈ I) pre ->
  exists (st1 : State) (pre' : list string),
    loop (n :: rest) (matched I (n :: rest)) (pre ++ matched O (n :: rest)) st
    = loop rest (matched I rest) (pre' ++ matched O rest) st1
    /\ self st1 = (if admits I O E sel n then g n (self st) else self st)
    /\ os_console (os st1)
       = os_console (os st)
         ++ console_lines I O E search_type (verbose (args (self st))) sel n
    /\ same_fs st st1
    /\ Forall (fun m => m ∈ I) pre'
    /\ pre' ++ filter both rest = pre ++ filter both (n :: rest).
Proof.
  intros Hready HE Hci Hco Hce Hpre.
  unfold loop at 1. simpl. fold loop. unfold matched, admits, console_lines,
    passes_include.
  destruct (decide (n ∈ I)) as [HI | HI].
  - (* claimed through include *)
    assert (ci = true) as Hc by (destruct ci; [reflexivity | now destruct Hci]).
    assert (Hsel : sel = true) by (unfold sel; now rewrite Hc).
    rewrite (filter_cons_True (fun m => m ∈ I)) by exact HI.
    rewrite bind_run, include_stage_include by assumption.
    set (st0 := logged ("include: " +:+ n) st).
    destruct (exclude_then_gen
                (loop rest (filter (fun m => m ∈ I) rest)
                   (pre ++ filter (fun m => m ∈ O) (n :: rest))) n st0)
      as (st1 & Hrun & Hself & Hcon & Hfs).
    { apply logged_ready, Hready. }
    { unfold st0. now rewrite logged_self. }
    { exact Hce. }
    rewrite Hsel, (bool_decide_eq_true_2 (n ∈ I)) by exact HI. simpl.
    destruct (decide (n ∈ O)) as [HO | HO].
    + exists st1, (pre ++ [n]). split.
      { rewrite Hrun, (filter_cons_True (fun m => m ∈ O)) by exact HO.
        now rewrite <- app_assoc. }
      split.
      { rewrite Hself. unfold st0. rewrite logged_self.
        now destruct (bool_decide (n ∈ E)). }
      split.
      { rewrite Hcon. unfold st0. rewrite logged_console, logged_self.
        now rewrite <- app_assoc. }
      split; [eapply same_fs_trans; [apply logged_fs, Hready | exact Hfs] |].
      split; [apply Forall_app; split; [exact Hpre | now constructor] |].
      rewrite (filter_cons_True both) by (split; assumption).
      now rewrite <- app_assoc.
    + exists st1, pre. split.
      { rewrite Hrun, (filter_cons_False (fun m => m ∈ O)) by exact HO.
        reflexivity. }
      split.
      { rewrite Hself. unfold st0. rewrite logged_self.
        now destruct (bool_decide (n ∈ E)). }
      split.
      { rewrite Hcon. unfold st0. rewrite logged_console, logged_self.
        now rewrite <- app_assoc. }
      split; [eapply same_fs_trans; [apply logged_fs, Hready | exact Hfs] |].
      split; [exact Hpre |].
      now rewrite (filter_cons_False both) by (intros [_ ?]; contradiction).
  - rewrite (filter_cons_False (fun m => m ∈ I)) by exact HI.
    rewrite (filter_cons_False both) by (intros [? _]; contradiction).
    rewrite (bool_decide_eq_false_2 (n ∈ I)) by exact HI.
    assert (Hinc : n ∉ filter (fun m => m ∈ I) rest).
    { intros [? _]%list_elem_of_filter. contradiction. }
    assert (Hnpre : n ∉ pre).
    { intros Hin. apply HI. exact (proj1 (Forall_forall _ _) Hpre n Hin). }
    destruct (decide (n ∈ O)) as [HO | HO].
    + (* claimed through optional_include *)
      assert (co = true) as Hc by (destruct co; [reflexivity | now destruct Hco]).
      assert (Hsel : sel = true) by (unfold sel; rewrite Hc; apply orb_true_r).
      rewrite (filter_cons_True (fun m => m ∈ O)) by exact HO.
      rewrite bind_run, include_stage_optional by assumption.
      set (st0 := logged ("optional_include: " +:+ n) st).
      destruct (exclude_then_gen
                  (loop rest (filter (fun m => m ∈ I) rest)
                     (pre ++ filter (fun m => m ∈ O) rest)) n st0)
        as (st1 & Hrun & Hself & Hcon & Hfs).
      { apply logged_ready, Hready. }
      { unfold st0. now rewrite logged_self. }
      { exact Hce. }
      rewrite Hsel, (bool_decide_eq_true_2 (n ∈ O)) by exact HO. simpl.
      exists st1, pre. split; [exact Hrun |].
      split.
      { rewrite Hself. unfold st0. rewrite logged_self.
        now destruct (bool_decide (n ∈ E)). }
      split.
      { rewrite Hcon. unfold st0. rewrite logged_console, logged_self.
        now rewrite <- app_assoc. }
      split; [eapply same_fs_trans; [apply logged_fs, Hready | exact Hfs] |].
      split; [exact Hpre | reflexivity].
    + rewrite (filter_cons_False (fun m => m ∈ O)) by exact HO.
      rewrite (bool_decide_eq_false_2 (n ∈ O)) by exact HO.
      assert (Hopt : n ∉ pre ++ filter (fun m => m ∈ O) rest).
      { intros [? | [? _]%list_elem_of_filter]%elem_of_app; contradiction. }
      destruct sel eqn:Hsel; simpl.
      * (* skipped *)
        rewrite bind_run, include_stage_skip by assumption.
        eexists _, pre. split; [reflexivity |].
        split; [now rewrite vlogged_self, logged_self |].
        split.
        { rewrite vlogged_console, logged_console, logged_self.
          now rewrite <- app_assoc. }
        split; [eapply same_fs_trans;
                 [apply logged_fs, Hready
                 | apply vlogged_fs, logged_ready, Hready] |].
        split; [exact Hpre | reflexivity].
      * (* no include list for this kind *)
        rewrite bind_run, include_stage_pass by exact Hsel.
        destruct (exclude_then_gen
                    (loop rest (filter (fun m => m ∈ I) rest)
                       (pre ++ filter (fun m => m ∈ O) rest)) n st)
          as (st1 & Hrun & Hself & Hcon & Hfs); [assumption .. |].
        exists st1, pre. split; [exact Hrun |].
        split; [rewrite Hself; now destruct (bool_decide (n ∈ E)) |].
        split; [exact Hcon |].
        split; [exact Hfs |].
        split; [exact Hpre | reflexivity].
Qed.

Lemma fold_gen_args (l : list string) (r : Runtime) :
  args (foldl (fun r n => g n r) r l) = args r.
Proof.
  revert r. induction l as [|n l IH]; intros r; simpl; [reflexivity |].
  now rewrite IH, g_args.
Qed.

Lemma fold_gen_ws (l : list string) (r : Runtime) :
  ws (foldl (fun r n => g n r) r l) = ws r.
Proof.
  revert r. induction l as [|n l IH]; intros r; simpl; [reflexivity |].
  now rewrite IH, g_ws.
Qed.

(** The whole loop: every name of both match lists is consumed, except
    the names of [optional_include] claimed through [include]; the
    callback runs on the admitted names, in listing order. *)
Lemma collect_loop_spec (names : list string) :
  forall (pre : list string) (st : State),
  log_ready st -> exclude (args (self st)) = Some E ->
  (ci = false -> Forall (fun n => n ∉ I) names) ->
  (co = false -> Forall (fun n => n ∉ O) names) ->
  (ce = false -> Forall (fun n => n ∉ E) names) ->
  Forall (fun m => m ∈ I) pre ->
  exists st' : State,
    loop names (matched I names) (pre ++ matched O names) st
    = (Ok ([], pre ++ filter both names), st')
    /\ self st'
       = foldl (fun r n => g n r) (self st)
           (filter (fun n => Is_true (admits I O E sel n)) names)
    /\ os_console (os st')
       = os_console (os st)
         ++ List.concat (map (console_lines I O E search_type
                           (verbose (args (self st))) sel) names)
    /\ same_fs st st'.
Proof.
  induction names as [|n rest IH]; intros pre st Hready HE Hci Hco Hce Hpre.
  - exists st. simpl. rewrite !app_nil_r. repeat split.
  - destruct (collect_loop_step n rest pre st) as
      (st1 & pre' & Hrun & Hself & Hcon & Hfs & Hpre' & Hleft); try assumption.
    { intros H. exact (Forall_inv (Hci H)). }
    { intros H. exact (Forall_inv (Hco H)). }
    { intros H. exact (Forall_inv (Hce H)). }
    assert (Hargs : args (self st1) = args (self st)).
    { rewrite Hself. destruct (admits I O E sel n); [apply g_args | reflexivity]. }
    assert (Hws : ws (self st1) = ws (self st)).
    { rewrite Hself. destruct (admits I O E sel n); [apply g_ws | reflexivity]. }
    destruct (IH pre' st1) as (st' & Hrun' & Hself' & Hcon' & Hfs').
    { exact (log_ready_transfer st st1 Hws Hfs Hready). }
    { now rewrite Hargs. }
    { intros H. exact (Forall_inv_tail (Hci H)). }
    { intros H. exact (Forall_inv_tail (Hco H)). }
    { intros H. exact (Forall_inv_tail (Hce H)). }
    { exact Hpre'. }
    exists st'. split; [now rewrite Hrun, Hrun', Hleft |].
    split.
    { rewrite Hself', Hself.
      destruct (admits I O E sel n) eqn:Ha.
      - rewrite filter_cons_True by (now rewrite Ha). reflexivity.
      - rewrite filter_cons_False by (now rewrite Ha). reflexivity. }
    split.
    { rewrite Hcon', Hcon, Hargs. simpl. now rewrite <- app_assoc. }
    eapply same_fs_trans; eassumption.
Qed.

End Loop.

Lemma matched_nil (l names : list string) :
  len_gt_0 (matched l names) = false -> Forall (fun n => n ∉ l) names.
Proof.
  unfold matched. intros H. apply Forall_forall. intros n Hn Hl.
  assert (Hin : n ∈ filter (fun m => m ∈ l) names)
    by (apply list_elem_of_filter; split; assumption).
  destruct (filter (fun m => m ∈ l) names); [inversion Hin | discriminate].
Qed.

Lemma chdir_ok (d : string) (st : State) :
  Os.is_dir (os st) d = true ->
  Os.chdir d st
  = (Ok tt, {| os := set_os_cwd (Os.resolve (os st) d) (os st); self := self st |}).
Proof. intros H. unfold Os.chdir. py_unfold. simpl. now rewrite H. Qed.

Lemma chdir_fail (d : string) (st : State) :
  Os.is_dir (os st) d = false ->
  Os.chdir d st = (Raise (OSError "No such file or directory"), st).
Proof. intros H. unfold Os.chdir. py_unfold. simpl. now rewrite H. Qed.

Section CollectConfigsSpec.

Variable I O E : list string.
Variable g : string -> Runtime -> Runtime.
Hypothesis g_args : forall n r, args (g n r) = args r.
Hypothesis g_ws : forall n r, ws (g n r) = ws r.

(** [collect_configs] on the match lists of one kind. *)
Lemma collect_configs_spec (search_type search_dir : string)
    (names : list string) (st : State) :
  log_ready st -> exclude (args (self st)) = Some E ->
  Os.is_dir (os st) search_dir = true ->
  exists st' : State,
    collect_configs search_type search_dir names (matched I names)
      (matched O names) (matched E names) (fun n => modify_self (g n)) st
    = (Ok ([], filter (fun n => n ∈ I /\ n ∈ O) names), st')
    /\ self st' = foldl (fun r n => g n r) (self st) (admitted I O E names)
    /\ os_console (os st')
       = os_console (os st)
         ++ List.concat (map (console_lines I O E search_type
                           (verbose (args (self st))) (selective I O names))
                      names)
    /\ same_fs st st'.
Proof.
  intros Hready HE Hdir. unfold collect_configs, with_Dir.
  rewrite chdir_ok by exact Hdir.
  set (st0 := {| os := set_os_cwd (Os.resolve (os st) search_dir) (os st);
                 self := self st |}).
  destruct (collect_loop_spec search_type I O E
              (len_gt_0 (matched I names)) (len_gt_0 (matched O names))
              (len_gt_0 (matched E names)) g g_args g_ws names [] st0)
    as (st' & Hrun & Hself & Hcon & Hdirs & Hcwd & Hdom);
    try (exact Hready || exact HE || apply matched_nil || constructor).
  simpl in Hrun. rewrite Hrun.
  eexists. split; [reflexivity |]. simpl.
  split; [exact Hself |]. split; [exact Hcon |].
  split; [exact Hdirs |]. split; [reflexivity | exact Hdom].
Qed.

End CollectConfigsSpec.

(** ** The steps of [select_configs] *)

Lemma when_info_ok (c : bool) (msg : string) (st : State) :
  log_ready st -> when c (info msg None) st = (Ok tt, logged_if c msg st).
Proof. intros H. destruct c; [now apply info_ok | reflexivity]. Qed.

Lemma logged_if_self (c : bool) (msg : string) (st : State) :
  self (logged_if c msg st) = self st.
Proof. destruct c; [apply logged_self | reflexivity]. Qed.

Lemma logged_if_fs (c : bool) (msg : string) (st : State) :
  log_ready st -> same_fs st (logged_if c msg st).
Proof. destruct c; [apply logged_fs | intros _; apply same_fs_refl]. Qed.

Lemma logged_if_console (c : bool) (msg : string) (st : State) :
  os_console (os (logged_if c msg st))
  = os_console (os st) ++ (if c then [msg] else []).
Proof. destruct c; simpl; [apply logged_console | now rewrite app_nil_r]. Qed.

Lemma logged_if_ready (c : bool) (msg : string) (st : State) :
  log_ready st -> log_ready (logged_if c msg st).
Proof. destruct c; [apply logged_ready | trivial]. Qed.

Lemma is_dir_same_fs (st st' : State) (d : string) :
  same_fs st st' -> Os.is_dir (os st') d = Os.is_dir (os st) d.
Proof.
  intros (Hd & Hc & _). unfold Os.is_dir, Os.resolve. now rewrite Hd, Hc.
Qed.

Lemma listing_same_fs (st st' : State) (d : string) :
  same_fs st st' -> listing (os st') d = listing (os st) d.
Proof.
  intros (Hd & Hc & Hf).
  unfold listing, Os.entries, Os.is_dir, Os.resolve. simpl.
  now rewrite Hd, Hc, Hf.
Qed.

Lemma restore_cwd (st : State) (d : string) :
  {| os := set_os_cwd (os_cwd (os st)) (set_os_cwd d (os st)); self := self st |}
  = st.
Proof. destruct st as [[] ?]. reflexivity. Qed.

Lemma list_dirs_ok (d : string) (st : State) :
  Os.is_dir (os st) d = true ->
  list_dirs d st = (Ok (listing (os st) d), st).
Proof.
  intros Hdir. unfold list_dirs, with_Dir. rewrite chdir_ok by exact Hdir.
  set (st0 := {| os := set_os_cwd (Os.resolve (os st) d) (os st);
                 self := self st |}).
  assert (Hcwd : Os.is_dir (os st0) "." = true).
  { unfold Os.is_dir in *. exact Hdir. }
  unfold Os.listdir. rewrite bind_run, bind_get_os, Hcwd.
  unfold mret at 1, Py_ret. rewrite bind_get_os.
  unfold mret, Py_ret. cbv beta iota. unfold st0 at 3 4. simpl os. simpl self.
  rewrite restore_cwd. reflexivity.
Qed.

Lemma list_dirs_fail (d : string) (st : State) :
  Os.is_dir (os st) d = false ->
  list_dirs d st = (Raise (OSError "No such file or directory"), st).
Proof.
  intros Hdir. unfold list_dirs, with_Dir. now rewrite chdir_fail by exact Hdir.
Qed.

Lemma matched_snoc (l a rest : list string) (n : string) :
  (if PyStr.mem n l then a ++ [n] else a) ++ matched l rest
  = a ++ matched l (n :: rest).
Proof.
  unfold matched. destruct (decide (n ∈ l)) as [H | H].
  - rewrite mem_true, filter_cons_True by exact H. now rewrite <- app_assoc.
  - now rewrite mem_false, filter_cons_False by exact H.
Qed.

Lemma match_filters_ok (I O E : list string) (names : list string) :
  forall (a b c : list string) (st : State),
  include (args (self st)) = Some I ->
  optional_include (args (self st)) = Some O ->
  exclude (args (self st)) = Some E ->
  match_filters names (a, b, c) st
  = (Ok (a ++ matched I names, b ++ matched O names, c ++ matched E names), st).
Proof.
  induction names as [|n rest IH]; intros a b c st HI HO HE.
  - simpl. unfold matched. simpl. now rewrite !app_nil_r.
  - simpl. rewrite bind_get_self.
    rewrite (bind_ok _ _ _ _ _ (sequence_some _ _ st HI)).
    rewrite (bind_ok _ _ _ _ _ (sequence_some _ _ st HO)).
    rewrite (bind_ok _ _ _ _ _ (sequence_some _ _ st HE)).
    rewrite IH by assumption. now rewrite !matched_snoc.
Qed.

(** With [optional_include] left at [None], the first name of a listing
    already fails: [name in None]. *)
Lemma match_filters_optional_none (I : list string) (n : string)
    (rest : list string) (acc : list string * list string * list string)
    (st : State) :
  include (args (self st)) = Some I ->
  optional_include (args (self st)) = None ->
  match_filters (n :: rest) acc st = (Raise TypeError, st).
Proof.
  intros HI HO. destruct acc as [[a b] c]. simpl. rewrite bind_get_self.
  rewrite (bind_ok _ _ _ _ _ (sequence_some _ _ st HI)).
  now rewrite (bind_raise _ _ _ _ _ (sequence_none _ st HO)).
Qed.

(** ** [select_configs] *)

Section SelectConfigs.

Variable I E : list string.
Variable images_dir rpms_dir : string.
Variable st : State.

Hypothesis Hinclude : include (args (self st)) = Some I.
Hypothesis Hexclude : exclude (args (self st)) = Some E.
Hypothesis Hready : log_ready st.

Lemma banner_self : self (banner I E st) = self st.
Proof. unfold banner. now rewrite !logged_if_self. Qed.

Lemma banner_fs : same_fs st (banner I E st).
Proof.
  unfold banner. eapply same_fs_trans; [apply logged_if_fs, Hready |].
  apply logged_if_fs, logged_if_ready, Hready.
Qed.

Lemma banner_ready : log_ready (banner I E st).
Proof. unfold banner. now apply logged_if_ready, logged_if_ready. Qed.

Lemma banner_console :
  os_console (os (banner I E st))
  = os_console (os st)
    ++ (if len_gt_0 I then ["Include list set to: " +:+ PyStr.str_list I] else [])
    ++ (if len_gt_0 E then ["Exclude list set to: " +:+ PyStr.str_list E] else []).
Proof.
  unfold banner. rewrite !logged_if_console. now rewrite <- app_assoc.
Qed.

(** Lines 165-169. *)
Lemma select_configs_banner :
  select_configs images_dir rpms_dir st
  = (list_dirs images_dir ≫= fun images_list =>
     list_dirs rpms_dir ≫= fun rpms_list =>
     match_filters images_list ([], [], []) ≫= fun x =>
     let '(image_include, image_optional_include, image_exclude) := x in
     match_filters rpms_list ([], [], []) ≫= fun y =>
     let '(rpm_include, rpm_optional_include, rpm_exclude) := y in
     get_self ≫= fun r =>
     sequence (include (args r)) ≫= fun l =>
     let missed_include := set_difference l (image_include ++ rpm_include) in
     if len_gt_0 missed_include then
       raise (IOError ("Unable to find the following images or rpms configs: "
                         +:+ PyStr.join ", " missed_include))
     else
       sequence (optional_include (args r)) ≫= fun l =>
       let missed_optional_include :=
         set_difference l (image_optional_include ++ rpm_optional_include) in
       when (len_gt_0 missed_optional_include)
         (info ("The following images or rpms were not found, but optional: "
                  +:+ PyStr.join ", " missed_optional_include) None);;
       collect_configs "image" images_dir images_list image_include
         image_optional_include image_exclude gen_ImageMetadata;;
       collect_configs "rpm" rpms_dir rpms_list rpm_include
         rpm_optional_include rpm_exclude gen_RPMMetadata;;
       pass) (banner I E st).
Proof.
  unfold select_configs. rewrite bind_get_self.
  rewrite (bind_ok _ _ _ _ _ (sequence_some _ _ st Hinclude)).
  rewrite (bind_ok _ _ _ _ _ (when_info_ok _ _ st Hready)).
  rewrite (bind_ok _ _ _ _ _ (sequence_some _ _ _ Hexclude)).
  rewrite (bind_ok _ _ _ _ _
             (when_info_ok _ _ _ (logged_if_ready _ _ st Hready))).
  reflexivity.
Qed.

Hypothesis Himages : Os.is_dir (os st) images_dir = true.
Hypothesis Hrpms : Os.is_dir (os st) rpms_dir = true.

Local Abbreviation images := (listing (os st) images_dir).
Local Abbreviation rpms := (listing (os st) rpms_dir).

(** Lines 171-175. *)
Lemma select_configs_listed :
  select_configs images_dir rpms_dir st
  = (match_filters images ([], [], []) ≫= fun x =>
     let '(image_include, image_optional_include, image_exclude) := x in
     match_filters rpms ([], [], []) ≫= fun y =>
     let '(rpm_include, rpm_optional_include, rpm_exclude) := y in
     get_self ≫= fun r =>
     sequence (include (args r)) ≫= fun l =>
     let missed_include := set_difference l (image_include ++ rpm_include) in
     if len_gt_0 missed_include then
       raise (IOError ("Unable to find the following images or rpms configs: "
                         +:+ PyStr.join ", " missed_include))
     else
       sequence (optional_include (args r)) ≫= fun l =>
       let missed_optional_include :=
         set_difference l (image_optional_include ++ rpm_optional_include) in
       when (len_gt_0 missed_optional_include)
         (info ("The following images or rpms were not found, but optional: "
                  +:+ PyStr.join ", " missed_optional_include) None);;
       collect_configs "image" images_dir images image_include
         image_optional_include image_exclude gen_ImageMetadata;;
       collect_configs "rpm" rpms_dir rpms rpm_include
         rpm_optional_include rpm_exclude gen_RPMMetadata;;
       pass) (banner I E st).
Proof.
  rewrite select_configs_banner.
  assert (Hi : Os.is_dir (os (banner I E st)) images_dir = true)
    by now rewrite (is_dir_same_fs st _ _ banner_fs).
  assert (Hr : Os.is_dir (os (banner I E st)) rpms_dir = true)
    by now rewrite (is_dir_same_fs st _ _ banner_fs).
  rewrite (bind_ok _ _ _ _ _ (list_dirs_ok _ _ Hi)).
  rewrite (bind_ok _ _ _ _ _ (list_dirs_ok _ _ Hr)).
  rewrite !(listing_same_fs st _ _ banner_fs). reflexivity.
Qed.

(** Lines 200-202: a name of [include] found in neither listing. *)
Lemma select_configs_missing (O : list string) :
  optional_include (args (self st)) = Some O ->
  len_gt_0 (missed I images rpms) = true ->
  select_configs images_dir rpms_dir st
  = (Raise (IOError ("Unable to find the following images or rpms configs: "
                       +:+ PyStr.join ", " (missed I images rpms))),
     banner I E st).
Proof.
  intros HO Hmiss. rewrite select_configs_listed.
  assert (HI' : include (args (self (banner I E st))) = Some I)
    by now rewrite banner_self.
  assert (HO' : optional_include (args (self (banner I E st))) = Some O)
    by now rewrite banner_self.
  assert (HE' : exclude (args (self (banner I E st))) = Some E)
    by now rewrite banner_self.
  rewrite (bind_ok _ _ _ _ _ (match_filters_ok I O E images _ _ _ _ HI' HO' HE')).
  cbv beta iota. simpl app.
  rewrite (bind_ok _ _ _ _ _ (match_filters_ok I O E rpms _ _ _ _ HI' HO' HE')).
  cbv beta iota. simpl app.
  rewrite bind_get_self, (bind_ok _ _ _ _ _ (sequence_some _ _ _ HI')).
  cbv zeta. fold (missed I images rpms). now rewrite Hmiss.
Qed.

(** Lines 204-246: the selection proper, once every name of [include]
    was found. *)
Lemma select_configs_ok (O : list string) :
  optional_include (args (self st)) = Some O ->
  len_gt_0 (missed I images rpms) = false ->
  exists st' : State,
    select_configs images_dir rpms_dir st = (Ok tt, st')
    /\ self st'
       = foldl (fun r n => register_rpm n r)
           (foldl (fun r n => register_image n r) (self st)
              (admitted I O E images))
           (admitted I O E rpms)
    /\ os_console (os st')
       = os_console (os (banner I E st))
         ++ (if len_gt_0 (missed O images rpms) then
               ["The following images or rpms were not found, but optional: "
                  +:+ PyStr.join ", " (missed O images rpms)]
             else [])
         ++ List.concat (map (console_lines I O E "image"
                                (verbose (args (self st)))
                                (selective I O images)) images)
         ++ List.concat (map (console_lines I O E "rpm"
                                (verbose (args (self st)))
                                (selective I O rpms)) rpms)
    /\ same_fs st st'.
Proof.
  intros HO Hmiss. rewrite select_configs_listed.
  assert (HI' : include (args (self (banner I E st))) = Some I)
    by now rewrite banner_self.
  assert (HO' : optional_include (args (self (banner I E st))) = Some O)
    by now rewrite banner_self.
  assert (HE' : exclude (args (self (banner I E st))) = Some E)
    by now rewrite banner_self.
  rewrite (bind_ok _ _ _ _ _ (match_filters_ok I O E images _ _ _ _ HI' HO' HE')).
  cbv beta iota. simpl app.
  rewrite (bind_ok _ _ _ _ _ (match_filters_ok I O E rpms _ _ _ _ HI' HO' HE')).
  cbv beta iota. simpl app.
  rewrite bind_get_self, (bind_ok _ _ _ _ _ (sequence_some _ _ _ HI')).
  cbv zeta. fold (missed I images rpms). rewrite Hmiss.
  rewrite (bind_ok _ _ _ _ _ (sequence_some _ _ _ HO')).
  fold (missed O images rpms).
  rewrite (bind_ok _ _ _ _ _ (when_info_ok _ _ _ banner_ready)).
  set (st2 := logged_if _ _ (banner I E st)).
  assert (Hself2 : self st2 = self st)
    by (unfold st2; now rewrite logged_if_self, banner_self).
  assert (Hfs2 : same_fs st st2).
  { eapply same_fs_trans; [apply banner_fs |].
    apply logged_if_fs, banner_ready. }
  assert (Hready2 : log_ready st2)
    by apply logged_if_ready, banner_ready.
  destruct (collect_configs_spec I O E register_image
              (fun _ _ => eq_refl) (fun _ _ => eq_refl)
              "image" images_dir images st2)
    as (st3 & Hrun3 & Hself3 & Hcon3 & Hfs3).
  { exact Hready2. }
  { now rewrite Hself2. }
  { now rewrite (is_dir_same_fs st _ _ Hfs2). }
  change gen_ImageMetadata with (fun n => modify_self (register_image n)).
  rewrite (bind_ok _ _ _ _ _ Hrun3).
  assert (Hargs3 : args (self st3) = args (self st)).
  { rewrite Hself3, (fold_gen_args register_image (fun _ _ => eq_refl)).
    now rewrite Hself2. }
  assert (Hws3 : ws (self st3) = ws (self st2)).
  { rewrite Hself3. apply (fold_gen_ws register_image (fun _ _ => eq_refl)). }
  destruct (collect_configs_spec I O E register_rpm
              (fun _ _ => eq_refl) (fun _ _ => eq_refl)
              "rpm" rpms_dir rpms st3)
    as (st4 & Hrun4 & Hself4 & Hcon4 & Hfs4).
  { exact (log_ready_transfer st2 st3 Hws3 Hfs3 Hready2). }
  { now rewrite Hargs3. }
  { rewrite (is_dir_same_fs st2 _ _ Hfs3).
    now rewrite (is_dir_same_fs st _ _ Hfs2). }
  change gen_RPMMetadata with (fun n => modify_self (register_rpm n)).
  rewrite (bind_ok _ _ _ _ _ Hrun4).
  exists st4. split; [reflexivity |].
  split; [now rewrite Hself4, Hself3, Hself2 |].
  split.
  - rewrite Hcon4, Hcon3, Hargs3, Hself2. unfold st2.
    rewrite logged_if_console. now rewrite <- !app_assoc.
  - eapply same_fs_trans; [exact Hfs2 |].
    eapply same_fs_trans; eassumption.
Qed.

End SelectConfigs.

Lemma match_filters_nil (acc : list string * list string * list string)
    (st : State) :
  match_filters [] acc st = (Ok acc, st).
Proof. reflexivity. Qed.

(** Lines 165 and 168 with a filter left at [None]. *)
Lemma select_configs_include_none (images_dir rpms_dir : string) (st : State) :
  include (args (self st)) = None ->
  select_configs images_dir rpms_dir st = (Raise TypeError, st).
Proof.
  intros H. unfold select_configs. rewrite bind_get_self.
  now rewrite (bind_raise _ _ _ _ _ (sequence_none _ st H)).
Qed.

Lemma select_configs_exclude_none (I : list string)
    (images_dir rpms_dir : string) (st : State) :
  include (args (self st)) = Some I ->
  exclude (args (self st)) = None ->
  log_ready st ->
  select_configs images_dir rpms_dir st
  = (Raise TypeError,
     logged_if (len_gt_0 I) ("Include list set to: " +:+ PyStr.str_list I) st).
Proof.
  intros HI HE Hready. unfold select_configs. rewrite bind_get_self.
  rewrite (bind_ok _ _ _ _ _ (sequence_some _ _ st HI)).
  rewrite (bind_ok _ _ _ _ _ (when_info_ok _ _ st Hready)).
  now rewrite (bind_raise _ _ _ _ _ (sequence_none _ _ HE)).
Qed.

(** Lines 181-204 with [optional_include] left at [None]: the membership
    test fails on the first listed name; without any listed name the
    missing names of [include] are reported first, and only an empty
    [include] lets line 204 fail on [set(None)]. *)
Lemma select_configs_optional_none (I E : list string)
    (images_dir rpms_dir : string) (st : State) :
  include (args (self st)) = Some I ->
  exclude (args (self st)) = Some E ->
  optional_include (args (self st)) = None ->
  log_ready st ->
  Os.is_dir (os st) images_dir = true ->
  Os.is_dir (os st) rpms_dir = true ->
  select_configs images_dir rpms_dir st
  = (match listing (os st) images_dir, listing (os st) rpms_dir, I with
     | [], [], _ :: _ =>
         Raise (IOError ("Unable to find the following images or rpms configs: "
                           +:+ PyStr.join ", " (missed I [] [])))
     | _, _, _ => Raise TypeError
     end,
     banner I E st).
Proof.
  intros HI HE HO Hready Himages Hrpms.
  rewrite (select_configs_listed I E images_dir rpms_dir st) by assumption.
  assert (HI' : include (args (self (banner I E st))) = Some I)
    by now rewrite banner_self.
  assert (HO' : optional_include (args (self (banner I E st))) = None)
    by now rewrite banner_self.
  destruct (listing (os st) images_dir) as [|n images].
  - rewrite (bind_ok _ _ _ _ _ (match_filters_nil _ _)). cbv beta iota.
    destruct (listing (os st) rpms_dir) as [|m rpms].
    + rewrite (bind_ok _ _ _ _ _ (match_filters_nil _ _)). cbv beta iota.
      rewrite bind_get_self, (bind_ok _ _ _ _ _ (sequence_some _ _ _ HI')).
      cbv zeta. change (set_difference I ([] ++ [])) with (missed I [] []).
      destruct I as [|i I'].
      * assert (Hm : missed [] [] [] = []) by (vm_compute; reflexivity).
        rewrite Hm. simpl.
        now rewrite (bind_raise _ _ _ _ _ (sequence_none _ _ HO')).
      * assert (Hm : len_gt_0 (missed (i :: I') [] []) = true).
        { unfold missed, set_difference, matched. simpl.
          destruct (elements _) eqn:Hel; [| reflexivity].
          apply elements_empty_inv in Hel. exfalso.
          assert (Hi : i ∈ (list_to_set (i :: I') ∖ list_to_set [] : gset string))
            by set_solver.
          rewrite Hel in Hi. set_solver. }
        now rewrite Hm.
    + now rewrite (bind_raise _ _ _ _ _
                     (match_filters_optional_none I m rpms _ _ HI' HO')).
  - now rewrite (bind_raise _ _ _ _ _
                   (match_filters_optional_none I n images _ _ HI' HO')).
Qed.

(** ** From [select_configs] to [initialize] *)

Section Lifting.

Variable yaml_load_group : string -> GroupConfig.
Variable yaml_load_streams : string -> gmap string string.

Local Abbreviation init := (initialize yaml_load_group yaml_load_streams).

Lemma with_Dir_entered {A : Type} (d : string) (body : Py A) (st st' : State) :
  Os.chdir d st = (Ok tt, st') ->
  with_Dir d body st
  = (fst (body st'), leave_Dir (os_cwd (os st)) (snd (body st'))).
Proof.
  intros H. unfold with_Dir. rewrite H. now destruct (body st').
Qed.

Lemma reaches_merge_steps (st : State) (old gd id rd : string)
    (gc : GroupConfig) (st3 : State) :
  reaches_merge yaml_load_group st old gd id rd gc st3 ->
  initialized (self st) = false
  /\ exists (g : string) (st1 st2 : State),
       prepare st = (Ok (g, (gd, id, rd)), st1)
       /\ old = os_cwd (os st1)
       /\ Os.chdir gd st1 = (Ok tt, st2)
       /\ load_group_yml yaml_load_group g st2 = (Ok gc, st3).
Proof.
  intros [Hflag Hrun]. split; [exact Hflag |]. unfold run_to_merge in Hrun.
  destruct (prepare st) as [[[g [[gd' id'] rd']] | e] st1]; [| discriminate].
  destruct (Os.chdir gd' st1) as [[[] | e] st2] eqn:Hcd; [| discriminate].
  destruct (load_group_yml yaml_load_group g st2) as [[gc' | e] st3'] eqn:Hload;
    [| discriminate].
  injection Hrun as <- <- <- <- <- <-.
  exists g, st1, st2. repeat split; assumption.
Qed.

Lemma reaches_selection_steps (st : State) (old gd id rd : string)
    (st4 : State) :
  reaches_selection yaml_load_group st old gd id rd st4 ->
  exists (gc : GroupConfig) (st3 : State),
    reaches_merge yaml_load_group st old gd id rd gc st3
    /\ merge_group_defaults gc st3 = (Ok tt, st4).
Proof.
  intros [Hflag Hrun]. unfold run_to_selection in Hrun.
  destruct (run_to_merge yaml_load_group st)
    as [[[[[[old' gd'] id'] rd'] gc] st3] |] eqn:Hm; [| discriminate].
  destruct (merge_group_defaults gc st3) as [[[] | e] st4'] eqn:Hmerge;
    [| discriminate].
  injection Hrun as <- <- <- <- <-.
  exists gc, st3. split; [split; assumption | assumption].
Qed.

(** [initialize] from line 150 on. *)
Lemma initialize_from_merge (st : State) (old gd id rd : string)
    (gc : GroupConfig) (st3 : State) :
  reaches_merge yaml_load_group st old gd id rd gc st3 ->
  init st
  = match (merge_group_defaults gc;; select_configs id rd) st3 with
    | (Ok _, st5) =>
        finish_initialize yaml_load_streams gd (leave_Dir old st5)
    | (Raise e, st5) => (Raise e, leave_Dir old st5)
    end.
Proof.
  intros (Hflag & g & st1 & st2 & Hprep & -> & Hcd & Hload)%reaches_merge_steps.
  unfold initialize. rewrite bind_get_self, Hflag.
  rewrite (bind_ok _ _ _ _ _ Hprep). cbv beta iota.
  rewrite bind_run, (with_Dir_entered _ _ _ _ Hcd).
  unfold initialize_group. rewrite (bind_ok _ _ _ _ _ Hload).
  destruct ((merge_group_defaults gc;; select_configs id rd) st3)
    as [[[] | e] st5]; reflexivity.
Qed.

(** [initialize] from line 165 on. *)
Lemma initialize_from_selection (st : State) (old gd id rd : string)
    (st4 : State) :
  reaches_selection yaml_load_group st old gd id rd st4 ->
  init st
  = match select_configs id rd st4 with
    | (Ok _, st5) =>
        finish_initialize yaml_load_streams gd (leave_Dir old st5)
    | (Raise e, st5) => (Raise e, leave_Dir old st5)
    end.
Proof.
  intros (gc & st3 & Hreach & Hmerge)%reaches_selection_steps.
  rewrite (initialize_from_merge _ _ _ _ _ _ _ Hreach).
  now rewrite (bind_ok _ _ _ _ _ Hmerge).
Qed.

(** The last lines of [initialize] register nothing. *)
Lemma finish_initialize_registries (gd : string) (st : State) :
  image_map (self (snd (finish_initialize yaml_load_streams gd st)))
  = image_map (self st)
  /\ rpm_map (self (snd (finish_initialize yaml_load_streams gd st)))
     = rpm_map (self st)
  /\ os_console (os (snd (finish_initialize yaml_load_streams gd st)))
     = os_console (os st).
Proof.
  unfold finish_initialize, Os.isfile, Os.read_file. py_unfold. simpl.
  destruct (size (image_map (self st)) + size (rpm_map (self st)) =? 0)%nat;
    [repeat split |].
  destruct (Os.is_file (os st) (PyPath.join gd "streams.yml"));
    [| repeat split].
  simpl. destruct (os_files (os st) !! _); repeat split.
Qed.

End Lifting.

(** ** Registries *)

Lemma fold_register_image (l : list string) (r : Runtime) :
  image_map (foldl (fun r n => register_image n r) r l)
  = with_images l (image_map r)
  /\ rpm_map (foldl (fun r n => register_image n r) r l) = rpm_map r.
Proof.
  revert r. induction l as [|n l IH]; intros r; simpl; [split; reflexivity |].
  destruct (IH (register_image n r)) as [H1 H2]. now rewrite H1, H2.
Qed.

Lemma fold_register_rpm (l : list string) (r : Runtime) :
  rpm_map (foldl (fun r n => register_rpm n r) r l)
  = with_rpms l (rpm_map r)
  /\ image_map (foldl (fun r n => register_rpm n r) r l) = image_map r.
Proof.
  revert r. induction l as [|n l IH]; intros r; simpl; [split; reflexivity |].
  destruct (IH (register_rpm n r)) as [H1 H2]. now rewrite H1, H2.
Qed.

Lemma with_images_lookup (l : list string) (m : gmap string ImageMetadata)
    (n : string) :
  with_images l m !! n
  = if bool_decide (n ∈ l) then Some (mkImageMetadata n n) else m !! n.
Proof.
  revert m. induction l as [|x l IH]; intros m; simpl; [reflexivity |].
  unfold with_images in *. simpl. rewrite IH.
  destruct (decide (n ∈ l)) as [Hl | Hl].
  - rewrite !bool_decide_eq_true_2; [reflexivity | now right | exact Hl].
  - rewrite (bool_decide_eq_false_2 (n ∈ l)) by exact Hl.
    destruct (decide (n = x)) as [-> | Hx].
    + rewrite bool_decide_eq_true_2 by left. apply lookup_insert_eq.
    + rewrite bool_decide_eq_false_2
        by (intros [? | ?]%elem_of_cons; contradiction).
      now apply lookup_insert_ne.
Qed.

Lemma with_rpms_lookup (l : list string) (m : gmap string RPMMetadata)
    (n : string) :
  with_rpms l m !! n
  = if bool_decide (n ∈ l) then Some (mkRPMMetadata n n) else m !! n.
Proof.
  revert m. induction l as [|x l IH]; intros m; simpl; [reflexivity |].
  unfold with_rpms in *. simpl. rewrite IH.
  destruct (decide (n ∈ l)) as [Hl | Hl].
  - rewrite !bool_decide_eq_true_2; [reflexivity | now right | exact Hl].
  - rewrite (bool_decide_eq_false_2 (n ∈ l)) by exact Hl.
    destruct (decide (n = x)) as [-> | Hx].
    + rewrite bool_decide_eq_true_2 by left. apply lookup_insert_eq.
    + rewrite bool_decide_eq_false_2
        by (intros [? | ?]%elem_of_cons; contradiction).
      now apply lookup_insert_ne.
Qed.

(** ** Merging the defaults of [group.yml] *)

Lemma merge_group_defaults_ok (gc : GroupConfig) (st : State) :
  log_ready st ->
  exists st' : State,
    merge_group_defaults gc st = (Ok tt, st')
    /\ include (args (self st'))
       = effective (include (args (self st))) (gc_includes gc)
    /\ exclude (args (self st'))
       = effective (exclude (args (self st))) (gc_excludes gc)
    /\ optional_include (args (self st')) = optional_include (args (self st))
    /\ log_ready st'
    /\ same_fs st st'.
Proof.
  intros Hready. unfold merge_group_defaults.
  rewrite bind_get_self.
  set (c1 := negb (is_none (gc_excludes gc))
             && is_none (exclude (args (self st)))).
  set (st1 := if c1 then {| os := os st;
                            self := set_args (set_exclude (gc_excludes gc)
                                                (args (self st))) (self st) |}
              else st).
  assert (H1 : when c1 (modify_args (set_exclude (gc_excludes gc))) st
               = (Ok tt, st1)) by (unfold st1; now destruct c1).
  rewrite (bind_ok _ _ _ _ _ H1), bind_get_self.
  set (c2 := negb (is_none (gc_includes gc))
             && is_none (include (args (self st1)))).
  set (st2 := if c2 then {| os := os st1;
                            self := set_args (set_include (gc_includes gc)
                                                (args (self st1))) (self st1) |}
              else st1).
  assert (H2 : when c2 (modify_args (set_include (gc_includes gc))) st1
               = (Ok tt, st2)) by (unfold st2; now destruct c2).
  rewrite (bind_ok _ _ _ _ _ H2), bind_get_self.
  assert (Hinc : include (args (self st2))
                 = effective (include (args (self st))) (gc_includes gc)).
  { unfold st2, c2, st1, c1.
    destruct (include (args (self st))) eqn:HI, (gc_includes gc),
      (exclude (args (self st))) eqn:HX, (gc_excludes gc);
      repeat progress (simpl; rewrite ?HI, ?HX); reflexivity. }
  assert (Hexc : exclude (args (self st2))
                 = effective (exclude (args (self st))) (gc_excludes gc)).
  { unfold st2, c2, st1, c1.
    destruct (include (args (self st))) eqn:HI, (gc_includes gc),
      (exclude (args (self st))) eqn:HX, (gc_excludes gc);
      repeat progress (simpl; rewrite ?HI, ?HX); reflexivity. }
  assert (Hopt : optional_include (args (self st2))
                 = optional_include (args (self st))).
  { unfold st2, st1. destruct c2, c1; reflexivity. }
  assert (Hws : ws (self st2) = ws (self st))
    by (unfold st2, st1; destruct c2, c1; reflexivity).
  assert (Hos : os st2 = os st)
    by (unfold st2, st1; destruct c2, c1; reflexivity).
  assert (Hfs : same_fs st st2) by (unfold same_fs; now rewrite Hos).
  assert (Hready2 : log_ready st2)
    by exact (log_ready_transfer st st2 Hws Hfs Hready).
  clearbody st2. clear H1 H2 st1 c1 c2.
  destruct (branch (args (self st2))) as [b |] eqn:Hb.
  - exists (logged ("Using branch from command line: " +:+ b) st2).
    rewrite info_ok by exact Hready2. rewrite logged_self.
    repeat split; try assumption; try apply logged_ready, Hready2.
    all: apply (same_fs_trans _ _ _ Hfs (logged_fs _ _ Hready2)).
  - destruct (gc_branch gc) as [b |].
    + set (st3 := {| os := os st2;
                     self := set_args (set_branch (Some b) (args (self st2)))
                               (self st2) |}).
      assert (Hready3 : log_ready st3) by exact Hready2.
      exists (logged ("Using branch from group.yml: " +:+ b) st3).
      rewrite bind_run. unfold modify_args, modify_self. fold st3.
      rewrite info_ok by exact Hready3. rewrite logged_self.
      repeat split; try assumption; try apply logged_ready, Hready3.
      all: apply (same_fs_trans _ st3 _ Hfs (logged_fs _ _ Hready3)).
    + eexists. rewrite info_ok by exact Hready2. rewrite logged_self.
      repeat split; try assumption; try apply logged_ready, Hready2.
      all: apply (same_fs_trans _ _ _ Hfs (logged_fs _ _ Hready2)).
Qed.

Lemma finish_initialize_outcome (yaml_load_streams : string -> gmap string string)
    (gd : string) (st : State) :
  fst (finish_initialize yaml_load_streams gd st)
  = if (size (image_map (self st)) + size (rpm_map (self st)) =? 0)%nat then
      Raise (IOError ("No image or rpm metadata directories found within: "
                        +:+ gd))
    else Ok tt.
Proof.
  unfold finish_initialize, Os.isfile, Os.read_file. py_unfold. simpl.
  destruct (size (image_map (self st)) + size (rpm_map (self st)) =? 0)%nat;
    [reflexivity |].
  unfold Os.is_file.
  destruct (os_files (os st) !! Os.resolve (os st) (PyPath.join gd "streams.yml"))
    eqn:Hf.
  - rewrite bool_decide_eq_true_2 by (eexists; reflexivity). simpl.
    now rewrite Hf.
  - rewrite bool_decide_eq_false_2; [reflexivity |]. now intros [? ?].
Qed.

(** ** What a computation leaves alone *)

Create HintDb preserves discriminated.

Lemma preserves_bind {A B X : Type} (p : Runtime -> X) (m : Py A) (f : A -> Py B) :
  preserves p m -> (forall a : A, preserves p (f a)) -> preserves p (m ≫= f).
Proof.
  intros Hm Hf st. rewrite bind_run. specialize (Hm st).
  destruct (m st) as [[a | e] st1]; simpl in *; [| exact Hm].
  now rewrite Hf.
Qed.

Lemma preserves_ret {A X : Type} (p : Runtime -> X) (a : A) :
  preserves p (mret a : Py A).
Proof. intros st. reflexivity. Qed.

Lemma preserves_pass {X : Type} (p : Runtime -> X) : preserves p pass.
Proof. intros st. reflexivity. Qed.

Lemma preserves_raise {A X : Type} (p : Runtime -> X) (e : PyError) :
  preserves p (raise e : Py A).
Proof. intros st. reflexivity. Qed.

Lemma preserves_get_self {X : Type} (p : Runtime -> X) : preserves p get_self.
Proof. intros st. reflexivity. Qed.

Lemma preserves_get_os {X : Type} (p : Runtime -> X) : preserves p get_os.
Proof. intros st. reflexivity. Qed.

Lemma preserves_modify_os {X : Type} (p : Runtime -> X) (f : OS -> OS) :
  preserves p (modify_os f).
Proof. intros st. reflexivity. Qed.

Lemma preserves_modify_self {X : Type} (p : Runtime -> X) (f : Runtime -> Runtime) :
  (forall r : Runtime, p (f r) = p r) -> preserves p (modify_self f).
Proof. intros H st. apply H. Qed.

Lemma preserves_when {X : Type} (p : Runtime -> X) (c : bool) (body : Py unit) :
  preserves p body -> preserves p (when c body).
Proof. intros H. destruct c; [exact H | apply preserves_pass]. Qed.

Lemma preserves_sequence {A X : Type} (p : Runtime -> X) (o : option A) :
  preserves p (sequence o).
Proof. destruct o; intros st; reflexivity. Qed.

#[local] Hint Resolve preserves_bind preserves_ret preserves_pass preserves_raise
  preserves_get_self preserves_get_os preserves_modify_os preserves_when
  preserves_sequence : preserves.

#[local] Hint Extern 1 (preserves _ (if ?c then _ else _)) =>
  destruct c : preserves.
#[local] Hint Extern 1 (preserves _ (match ?x with Some _ => _ | None => _ end)) =>
  destruct x : preserves.
#[local] Hint Extern 1 (preserves _ (match ?x with (_, _) => _ end)) =>
  destruct x : preserves.

Section OsFrame.

Context {X : Type} (p : Runtime -> X).

Lemma preserves_isdir (d : string) : preserves p (Os.isdir d).
Proof. unfold Os.isdir. eauto with preserves. Qed.

Lemma preserves_isfile (d : string) : preserves p (Os.isfile d).
Proof. unfold Os.isfile. eauto with preserves. Qed.

Lemma preserves_mkdir (d : string) : preserves p (Os.mkdir d).
Proof. unfold Os.mkdir. eauto with preserves. Qed.

Lemma preserves_chdir (d : string) : preserves p (Os.chdir d).
Proof. unfold Os.chdir. eauto with preserves. Qed.

Lemma preserves_listdir (d : string) : preserves p (Os.listdir d).
Proof. unfold Os.listdir. eauto with preserves. Qed.

Lemma preserves_open_append (d : string) : preserves p (Os.open_append d).
Proof. unfold Os.open_append. eauto 10 with preserves. Qed.

Lemma preserves_read_file (d : string) : preserves p (Os.read_file d).
Proof. unfold Os.read_file. eauto with preserves. Qed.

Lemma preserves_write (f text : string) : preserves p (Os.write f text).
Proof. unfold Os.write. eauto with preserves. Qed.

Lemma preserves_echo (msg : string) : preserves p (Os.echo msg).
Proof. unfold Os.echo. eauto with preserves. Qed.

Lemma preserves_atexit_register (cb : AtExit) :
  preserves p (Os.atexit_register cb).
Proof. unfold Os.atexit_register. eauto with preserves. Qed.

Lemma preserves_mkdtemp (suffix prefix : string) :
  preserves p (Os.mkdtemp suffix prefix).
Proof.
  unfold Os.mkdtemp. apply preserves_bind; [apply preserves_get_os |].
  intros o. destruct (Os.mkdtemp_draw _ _ _ _ _) as [[d rest] |];
    eauto using preserves_mkdir with preserves.
Qed.

Lemma preserves_assert_dir (d msg : string) : preserves p (assert_dir d msg).
Proof. unfold assert_dir. eauto using preserves_isdir with preserves. Qed.

Lemma preserves_ensure_dir (d : string) : preserves p (ensure_dir d).
Proof.
  unfold ensure_dir. eauto using preserves_isdir, preserves_mkdir with preserves.
Qed.

Lemma preserves_log_verbose (msg : string) : preserves p (log_verbose msg).
Proof.
  unfold log_verbose.
  eauto 10 using preserves_echo, preserves_write with preserves.
Qed.

Lemma preserves_info (msg : string) (debug : option string) :
  preserves p (info msg debug).
Proof.
  unfold info. apply preserves_bind; [apply preserves_get_self |].
  intros r. destruct (verbose (args r)); [| apply preserves_echo].
  destruct debug; apply preserves_log_verbose.
Qed.

Lemma preserves_with_Dir {A : Type} (d : string) (body : Py A) :
  preserves p body -> preserves p (with_Dir d body).
Proof.
  intros H st. unfold with_Dir.
  pose proof (preserves_chdir d st) as Hcd.
  destruct (Os.chdir d st) as [[[] | e] st1]; simpl in *; [| exact Hcd].
  specialize (H st1). destruct (body st1) as [r st2]. simpl in *.
  now rewrite H.
Qed.

Lemma preserves_remove (name : string) (l : list string) :
  preserves p (remove name l).
Proof. unfold remove. destruct (PyStr.list_remove name l); intros st; reflexivity. Qed.

Lemma preserves_list_dirs (d : string) : preserves p (list_dirs d).
Proof.
  unfold list_dirs. apply preserves_with_Dir.
  eauto using preserves_listdir with preserves.
Qed.

Lemma preserves_match_filters (names : list string) :
  forall acc, preserves p (match_filters names acc).
Proof.
  induction names as [|n rest IH]; intros [[a b] c]; simpl;
    eauto 10 with preserves.
Qed.

End OsFrame.

#[local] Hint Resolve preserves_isdir preserves_isfile preserves_mkdir
  preserves_chdir preserves_listdir preserves_open_append preserves_read_file
  preserves_write preserves_echo preserves_atexit_register preserves_mkdtemp
  preserves_assert_dir preserves_ensure_dir preserves_log_verbose
  preserves_info preserves_with_Dir preserves_remove preserves_list_dirs
  preserves_match_filters : preserves.

Section Frame.

Context {X : Type} (p : Runtime -> X).

(** The attribute [p] is none of those that lines 90-148 assign. *)
Hypothesis p_working_dir :
  forall v r, p (set_args (set_working_dir v (args r)) r) = p r.
Hypothesis p_ws : forall w r, p (set_ws w r) = p r.
Hypothesis p_remove_tmp : forall v r, p (set_remove_tmp_working_dir v r) = p r.
Hypothesis p_group_config : forall v r, p (set_group_config v r) = p r.

Lemma preserves_modify_ws (f : Workspace -> Workspace) :
  preserves p (modify_ws f).
Proof. apply preserves_modify_self. intros r. apply p_ws. Qed.

Lemma preserves_setup_working_dir : preserves p setup_working_dir.
Proof.
  unfold setup_working_dir. apply preserves_bind; [apply preserves_get_self |].
  intros r. destruct (working_dir (args r)); [eauto with preserves |].
  apply preserves_bind; [apply preserves_mkdtemp |]. intros d.
  apply preserves_bind.
  { apply preserves_modify_self. intros r'. apply p_working_dir. }
  intros _. apply preserves_bind.
  { apply preserves_modify_self. intros r'. apply p_remove_tmp. }
  eauto with preserves.
Qed.

Lemma preserves_setup_workspace (wd : string) : preserves p (setup_workspace wd).
Proof.
  unfold setup_workspace.
  repeat (apply preserves_bind; [| intros ?]);
    auto using preserves_modify_ws with preserves.
Qed.

Lemma preserves_locate_group (g : string) : preserves p (locate_group g).
Proof.
  unfold locate_group.
  repeat (apply preserves_bind; [| intros ?]); auto with preserves.
Qed.

Lemma preserves_prepare : preserves p prepare.
Proof.
  unfold prepare. apply preserves_bind; [apply preserves_get_self |].
  intros r. apply preserves_bind.
  { destruct (group (args r)); eauto with preserves. }
  intros g.
  apply preserves_bind; [apply preserves_assert_dir |]. intros _.
  apply preserves_bind; [apply preserves_setup_working_dir |]. intros wd.
  apply preserves_bind; [apply preserves_setup_workspace |]. intros _.
  apply preserves_bind; [apply preserves_locate_group |]. intros dirs.
  apply preserves_ret.
Qed.

Lemma preserves_load_group_yml (yaml_load_group : string -> GroupConfig)
    (g : string) :
  preserves p (load_group_yml yaml_load_group g).
Proof.
  unfold load_group_yml. apply preserves_bind; [apply preserves_read_file |].
  intros text. apply preserves_bind.
  { apply preserves_modify_self. intros r. apply p_group_config. }
  intros _. destruct (bool_decide _); auto with preserves.
Qed.

(** What line 150 finds in [p] is what the caller of [initialize] left
    there. *)
Lemma reaches_merge_frame (yaml_load_group : string -> GroupConfig)
    (st : State) (old gd id rd : string) (gc : GroupConfig) (st3 : State) :
  reaches_merge yaml_load_group st old gd id rd gc st3 ->
  p (self st3) = p (self st).
Proof.
  intros (_ & g & st1 & st2 & Hprep & _ & Hcd & Hload)%reaches_merge_steps.
  pose proof (preserves_prepare st) as H1. rewrite Hprep in H1.
  pose proof (preserves_chdir p gd st1) as H2. rewrite Hcd in H2.
  pose proof (preserves_load_group_yml yaml_load_group g st2) as H3.
  rewrite Hload in H3. simpl in *. congruence.
Qed.

(** The attribute is none of those lines 150-163 assign either. *)
Hypothesis p_exclude : forall v r, p (set_args (set_exclude v (args r)) r) = p r.
Hypothesis p_include : forall v r, p (set_args (set_include v (args r)) r) = p r.
Hypothesis p_branch : forall v r, p (set_args (set_branch v (args r)) r) = p r.

Lemma preserves_merge_group_defaults (gc : GroupConfig) :
  preserves p (merge_group_defaults gc).
Proof.
  unfold merge_group_defaults.
  apply preserves_bind; [apply preserves_get_self |]. intros r1.
  apply preserves_bind.
  { apply preserves_when, preserves_modify_self. intros r. apply p_exclude. }
  intros _. apply preserves_bind; [apply preserves_get_self |]. intros r2.
  apply preserves_bind.
  { apply preserves_when, preserves_modify_self. intros r. apply p_include. }
  intros _. apply preserves_bind; [apply preserves_get_self |]. intros r3.
  destruct (branch (args r3)); [apply preserves_info |].
  destruct (gc_branch gc); [| apply preserves_info].
  apply preserves_bind; [| intros _; apply preserves_info].
  apply preserves_modify_self. intros r. apply p_branch.
Qed.

Lemma reaches_selection_frame (yaml_load_group : string -> GroupConfig)
    (st : State) (old gd id rd : string) (st4 : State) :
  reaches_selection yaml_load_group st old gd id rd st4 ->
  p (self st4) = p (self st).
Proof.
  intros (gc & st3 & Hreach & Hmerge)%reaches_selection_steps.
  pose proof (preserves_merge_group_defaults gc st3) as H. rewrite Hmerge in H.
  simpl in H. rewrite H. exact (reaches_merge_frame _ _ _ _ _ _ _ _ Hreach).
Qed.

(** Nor one of the registries or the stream aliases. *)
Hypothesis p_image_map : forall v r, p (set_image_map v r) = p r.
Hypothesis p_rpm_map : forall v r, p (set_rpm_map v r) = p r.
Hypothesis p_streams : forall v r, p (set_streams v r) = p r.

Lemma preserves_gen_ImageMetadata (name : string) :
  preserves p (gen_ImageMetadata name).
Proof. apply preserves_modify_self. intros r. apply p_image_map. Qed.

Lemma preserves_gen_RPMMetadata (name : string) :
  preserves p (gen_RPMMetadata name).
Proof. apply preserves_modify_self. intros r. apply p_rpm_map. Qed.

Lemma preserves_collect_loop (search_type : string) (ci co ce : bool)
    (gen : string -> Py unit) (names : list string) :
  (forall n, preserves p (gen n)) ->
  forall inc opt, preserves p (collect_loop search_type ci co ce gen names inc opt).
Proof.
  intros Hgen. induction names as [|n rest IH]; intros inc opt; simpl.
  - apply preserves_ret.
  - apply preserves_bind.
    { unfold include_stage.
      destruct (ci || co); [| apply preserves_ret].
      destruct (ci && PyStr.mem n inc); [eauto 10 with preserves |].
      destruct (co && PyStr.mem n opt); eauto 10 with preserves. }
    intros [[inc' opt'] |]; [| apply IH].
    apply preserves_bind.
    { unfold exclude_stage. destruct ce; [| apply preserves_ret].
      apply preserves_bind; [apply preserves_get_self |]. intros r.
      apply preserves_bind; [apply preserves_sequence |]. intros l.
      destruct (PyStr.mem n l); eauto 10 with preserves. }
    intros [|]; [apply IH |].
    apply preserves_bind; [apply Hgen | intros _; apply IH].
Qed.

Lemma preserves_collect_configs (search_type search_dir : string)
    (names inc opt exc : list string) (gen : string -> Py unit) :
  (forall n, preserves p (gen n)) ->
  preserves p (collect_configs search_type search_dir names inc opt exc gen).
Proof.
  intros Hgen. unfold collect_configs.
  apply preserves_with_Dir, preserves_collect_loop, Hgen.
Qed.

Lemma preserves_select_configs (images_dir rpms_dir : string) :
  preserves p (select_configs images_dir rpms_dir).
Proof.
  unfold select_configs.
  apply preserves_bind; [apply preserves_get_self |]. intros r.
  apply preserves_bind; [apply preserves_sequence |]. intros l1.
  apply preserves_bind; [apply preserves_when, preserves_info |]. intros _.
  apply preserves_bind; [apply preserves_sequence |]. intros l2.
  apply preserves_bind; [apply preserves_when, preserves_info |]. intros _.
  apply preserves_bind; [apply preserves_list_dirs |]. intros images.
  apply preserves_bind; [apply preserves_list_dirs |]. intros rpms.
  apply preserves_bind; [apply preserves_match_filters |]. intros [[a b] c].
  apply preserves_bind; [apply preserves_match_filters |]. intros [[a' b'] c'].
  apply preserves_bind; [apply preserves_get_self |]. intros r'.
  apply preserves_bind; [apply preserves_sequence |]. intros l3.
  cbv zeta. destruct (len_gt_0 _); [apply preserves_raise |].
  apply preserves_bind; [apply preserves_sequence |]. intros l4.
  apply preserves_bind; [apply preserves_when, preserves_info |]. intros _.
  apply preserves_bind.
  { apply preserves_collect_configs, preserves_gen_ImageMetadata. }
  intros _. apply preserves_bind; [| intros _; apply preserves_pass].
  apply preserves_collect_configs, preserves_gen_RPMMetadata.
Qed.

Lemma preserves_finish_initialize
    (yaml_load_streams : string -> gmap string string) (gd : string) :
  preserves p (finish_initialize yaml_load_streams gd).
Proof.
  unfold finish_initialize.
  apply preserves_bind; [apply preserves_get_self |]. intros r.
  destruct (_ =? 0)%nat; [apply preserves_raise |].
  apply preserves_bind; [apply preserves_isfile |]. intros [|];
    [| apply preserves_pass].
  apply preserves_bind; [apply preserves_read_file |]. intros s.
  apply preserves_modify_self. intros r'. apply p_streams.
Qed.

(** [initialize] assigns no other attribute. *)
Lemma preserves_initialize (yaml_load_group : string -> GroupConfig)
    (yaml_load_streams : string -> gmap string string) :
  preserves p (initialize yaml_load_group yaml_load_streams).
Proof.
  unfold initialize.
  apply preserves_bind; [apply preserves_get_self |]. intros r.
  destruct (initialized r); [apply preserves_pass |].
  apply preserves_bind; [apply preserves_prepare |].
  intros [g [[gd id] rd]].
  apply preserves_bind; [| intros _; apply preserves_finish_initialize].
  apply preserves_with_Dir. unfold initialize_group.
  apply preserves_bind; [apply preserves_load_group_yml |]. intros gc.
  apply preserves_bind; [apply preserves_merge_group_defaults |]. intros _.
  apply preserves_select_configs.
Qed.

End Frame.

(** ** The debug log stays open *)

Lemma bind_ok_inv {A B : Type} (m : Py A) (f : A -> Py B) (st st' : State) (b : B) :
  (m ≫= f) st = (Ok b, st') ->
  exists (a : A) (st1 : State), m st = (Ok a, st1) /\ f a st1 = (Ok b, st').
Proof.
  rewrite bind_run. destruct (m st) as [[a | e] st1]; [| discriminate].
  intros H. now exists a, st1.
Qed.

Lemma keeps_bind {A B : Type} (m : Py A) (f : A -> Py B) :
  keeps_log m -> (forall a : A, keeps_log (f a)) -> keeps_log (m ≫= f).
Proof.
  intros Hm Hf st Hst. rewrite bind_run. specialize (Hm st Hst).
  destruct (m st) as [[a | e] st1]; simpl in *; [| exact Hm].
  now apply Hf.
Qed.

Lemma keeps_ret {A : Type} (a : A) : keeps_log (mret a : Py A).
Proof. intros st H. exact H. Qed.

Lemma keeps_raise {A : Type} (e : PyError) : keeps_log (raise e : Py A).
Proof. intros st H. exact H. Qed.

Lemma keeps_get_self : keeps_log get_self.
Proof. intros st H. exact H. Qed.

Lemma keeps_get_os : keeps_log get_os.
Proof. intros st H. exact H. Qed.

Lemma keeps_when (c : bool) (body : Py unit) :
  keeps_log body -> keeps_log (when c body).
Proof. intros H. destruct c; [exact H | intros st Hst; exact Hst]. Qed.

Lemma keeps_modify_os (f : OS -> OS) :
  (forall o, dom (os_files o) ⊆ dom (os_files (f o))) ->
  keeps_log (modify_os f).
Proof.
  intros Hf st (l & Hl & Hin). exists l. split; [exact Hl |].
  simpl. now apply Hf.
Qed.

Lemma keeps_modify_self (f : Runtime -> Runtime) :
  (forall r, debug_log (ws (f r)) = debug_log (ws r)) ->
  keeps_log (modify_self f).
Proof.
  intros Hf st (l & Hl & Hin). exists l. simpl. rewrite Hf.
  split; assumption.
Qed.

Create HintDb keeps discriminated.

#[local] Hint Resolve keeps_bind keeps_ret keeps_raise keeps_get_self
  keeps_get_os keeps_when : keeps.

#[local] Hint Extern 1 (keeps_log (if ?c then _ else _)) =>
  destruct c : keeps.
#[local] Hint Extern 1 (keeps_log (match ?x with Some _ => _ | None => _ end)) =>
  destruct x : keeps.
#[local] Hint Extern 1 (keeps_log (modify_os _)) =>
  apply keeps_modify_os; intros ?; simpl;
  rewrite ?dom_insert_L; set_solver : keeps.
#[local] Hint Extern 1 (keeps_log (modify_self _)) =>
  apply keeps_modify_self; intros ?; reflexivity : keeps.

Lemma keeps_isdir (d : string) : keeps_log (Os.isdir d).
Proof. unfold Os.isdir. eauto with keeps. Qed.

Lemma keeps_mkdir (d : string) : keeps_log (Os.mkdir d).
Proof. unfold Os.mkdir. eauto with keeps. Qed.

Lemma keeps_chdir (d : string) : keeps_log (Os.chdir d).
Proof. unfold Os.chdir. eauto with keeps. Qed.

Lemma keeps_echo (msg : string) : keeps_log (Os.echo msg).
Proof. unfold Os.echo. eauto with keeps. Qed.

Lemma keeps_write (f text : string) : keeps_log (Os.write f text).
Proof. unfold Os.write. eauto with keeps. Qed.

Lemma keeps_atexit_register (cb : AtExit) : keeps_log (Os.atexit_register cb).
Proof. unfold Os.atexit_register. eauto with keeps. Qed.

Lemma keeps_open_append (d : string) : keeps_log (Os.open_append d).
Proof. unfold Os.open_append. eauto 10 with keeps. Qed.

Lemma keeps_read_file (d : string) : keeps_log (Os.read_file d).
Proof. unfold Os.read_file. eauto with keeps. Qed.

Lemma keeps_assert_dir (d msg : string) : keeps_log (assert_dir d msg).
Proof. unfold assert_dir. eauto using keeps_isdir with keeps. Qed.

Lemma keeps_ensure_dir (d : string) : keeps_log (ensure_dir d).
Proof. unfold ensure_dir. eauto using keeps_isdir, keeps_mkdir with keeps. Qed.

Lemma keeps_log_verbose (msg : string) : keeps_log (log_verbose msg).
Proof.
  unfold log_verbose. eauto 10 using keeps_echo, keeps_write with keeps.
Qed.

Lemma keeps_info (msg : string) (debug : option string) :
  keeps_log (info msg debug).
Proof.
  unfold info. apply keeps_bind; [apply keeps_get_self |].
  intros r. destruct (verbose (args r)); [| apply keeps_echo].
  destruct debug; apply keeps_log_verbose.
Qed.

Lemma keeps_modify_ws (f : Workspace -> Workspace) :
  (forall w, debug_log (f w) = debug_log w) -> keeps_log (modify_ws f).
Proof. intros Hf. apply keeps_modify_self. intros r. apply Hf. Qed.

Lemma keeps_locate_group (g : string) : keeps_log (locate_group g).
Proof.
  unfold locate_group. apply keeps_bind; [apply keeps_get_self |]. intros r.
  apply keeps_bind; [apply keeps_assert_dir |]. intros _.
  apply keeps_bind; [apply keeps_assert_dir |]. intros _.
  apply keeps_bind; [apply keeps_assert_dir |]. intros _.
  apply keeps_bind; [apply keeps_info | intros _; apply keeps_ret].
Qed.

Lemma keeps_load_group_yml (yaml_load_group : string -> GroupConfig) (g : string) :
  keeps_log (load_group_yml yaml_load_group g).
Proof.
  unfold load_group_yml. apply keeps_bind; [apply keeps_read_file |].
  intros text. apply keeps_bind.
  { apply keeps_modify_self. intros r. reflexivity. }
  intros _. destruct (bool_decide _); auto with keeps.
Qed.

(** Once [debug.log] is open, the rest of lines 114-128 leaves it open. *)
Lemma keeps_setup_workspace_tail (wd f : string) :
  keeps_log
    (Os.atexit_register (close_file f);;
     modify_ws (set_record_log_path (Some (PyPath.join wd "record.log")));;
     f' ← Os.open_append (PyPath.join wd "record.log");
     modify_ws (set_record_log (Some f'));;
     Os.atexit_register (close_file f');;
     modify_ws (set_brew_logs_dir (Some (PyPath.join wd "brew-logs")));;
     ensure_dir (PyPath.join wd "brew-logs");;
     modify_ws (set_flags_dir (Some (PyPath.join wd "flags")));;
     ensure_dir (PyPath.join wd "flags")).
Proof.
  apply keeps_bind; [apply keeps_atexit_register |]. intros _.
  apply keeps_bind; [now apply keeps_modify_ws |]. intros _.
  apply keeps_bind; [apply keeps_open_append |]. intros f'.
  apply keeps_bind; [now apply keeps_modify_ws |]. intros _.
  apply keeps_bind; [apply keeps_atexit_register |]. intros _.
  apply keeps_bind; [now apply keeps_modify_ws |]. intros _.
  apply keeps_bind; [apply keeps_ensure_dir |]. intros _.
  apply keeps_bind; [now apply keeps_modify_ws |]. intros _.
  apply keeps_ensure_dir.
Qed.

Lemma open_append_ok_inv (p f : string) (st st' : State) :
  Os.open_append p st = (Ok f, st') ->
  f ∈ dom (os_files (os st')) /\ self st' = self st.
Proof.
  unfold Os.open_append. py_unfold. simpl.
  destruct (Os.is_dir (os st) p); [discriminate |].
  destruct (negb (Os.parent_is_dir (os st) p)); [discriminate |].
  simpl. intros H. injection H as <- <-. simpl.
  split; [| reflexivity]. rewrite dom_insert_L. set_solver.
Qed.

(** Lines 104-128 open the debug log. *)
Lemma setup_workspace_log_ready (wd : string) (st st' : State) :
  setup_workspace wd st = (Ok tt, st') -> log_ready st'.
Proof.
  unfold setup_workspace. cbv zeta. intros H.
  apply bind_ok_inv in H as ([] & s1 & _ & H).
  apply bind_ok_inv in H as ([] & s2 & _ & H).
  apply bind_ok_inv in H as ([] & s3 & _ & H).
  apply bind_ok_inv in H as ([] & s4 & _ & H).
  apply bind_ok_inv in H as ([] & s5 & _ & H).
  apply bind_ok_inv in H as (f & s6 & Hopen & H).
  apply bind_ok_inv in H as ([] & s7 & Hset & H).
  apply open_append_ok_inv in Hopen as [Hin _].
  assert (Hready : log_ready s7).
  { unfold modify_ws, modify_self in Hset. injection Hset as <-.
    exists f. split; [reflexivity | exact Hin]. }
  pose proof (keeps_setup_workspace_tail wd f s7 Hready) as Hk.
  rewrite H in Hk. exact Hk.
Qed.

Lemma prepare_log_ready (st st1 : State) (x : string * (string * string * string)) :
  prepare st = (Ok x, st1) -> log_ready st1.
Proof.
  unfold prepare. intros H.
  apply bind_ok_inv in H as (r & s1 & _ & H).
  apply bind_ok_inv in H as (g & s2 & _ & H).
  apply bind_ok_inv in H as ([] & s3 & _ & H).
  apply bind_ok_inv in H as (wd & s4 & _ & H).
  apply bind_ok_inv in H as ([] & s5 & Hws & H).
  apply bind_ok_inv in H as (dirs & s6 & Hloc & H).
  injection H as _ <-.
  pose proof (keeps_locate_group g s5 (setup_workspace_log_ready _ _ _ Hws)) as Hk.
  now rewrite Hloc in Hk.
Qed.

Lemma reaches_merge_log_ready (yaml_load_group : string -> GroupConfig)
    (st : State) (old gd id rd : string) (gc : GroupConfig) (st3 : State) :
  reaches_merge yaml_load_group st old gd id rd gc st3 -> log_ready st3.
Proof.
  intros (_ & g & st1 & st2 & Hprep & _ & Hcd & Hload)%reaches_merge_steps.
  pose proof (keeps_chdir gd st1 (prepare_log_ready _ _ _ Hprep)) as H2.
  rewrite Hcd in H2.
  pose proof (keeps_load_group_yml yaml_load_group g st2 H2) as H3.
  now rewrite Hload in H3.
Qed.

Lemma reaches_selection_log_ready (yaml_load_group : string -> GroupConfig)
    (st : State) (old gd id rd : string) (st4 : State) :
  reaches_selection yaml_load_group st old gd id rd st4 -> log_ready st4.
Proof.
  intros (gc & st3 & Hreach & Hmerge)%reaches_selection_steps.
  destruct (merge_group_defaults_ok gc st3
              (reaches_merge_log_ready _ _ _ _ _ _ _ _ Hreach))
    as (st' & Hrun & _ & _ & _ & Hready & _).
  rewrite Hmerge in Hrun. now injection Hrun as <-.
Qed.

(** ** The selection on lists *)

Lemma len_gt_0_elem {A : Type} (l : list A) (x : A) : x ∈ l -> len_gt_0 l = true.
Proof. destruct l; [intros H; inversion H | reflexivity]. Qed.

Lemma len_gt_0_false {A : Type} (l : list A) : len_gt_0 l = false -> l = [].
Proof. destruct l; [reflexivity | discriminate]. Qed.

Lemma elem_of_matched (l names : list string) (n : string) :
  n ∈ matched l names <-> n ∈ l /\ n ∈ names.
Proof. exact (list_elem_of_filter (fun m => m ∈ l) names n). Qed.

Lemma elem_of_missed (I images rpms : list string) (n : string) :
  n ∈ missed I images rpms <-> n ∈ I /\ (n ∉ images) /\ (n ∉ rpms).
Proof.
  unfold missed, set_difference.
  rewrite elem_of_elements, elem_of_difference, !elem_of_list_to_set.
  rewrite elem_of_app, !elem_of_matched. tauto.
Qed.

Lemma NoDup_missed (I images rpms : list string) : NoDup (missed I images rpms).
Proof. apply NoDup_elements. Qed.

Lemma missed_nil (images rpms : list string) : missed [] images rpms = [].
Proof.
  apply elem_of_nil_inv. intros n [H _]%elem_of_missed. inversion H.
Qed.

Lemma matched_nil_l (names : list string) : matched [] names = [].
Proof.
  apply elem_of_nil_inv. intros n [H _]%elem_of_matched. inversion H.
Qed.

Lemma selective_nil (names : list string) : selective [] [] names = false.
Proof. unfold selective. now rewrite matched_nil_l. Qed.

Lemma selective_true (I O names : list string) (n : string) :
  n ∈ names -> n ∈ I \/ n ∈ O -> selective I O names = true.
Proof.
  intros Hn [H | H]; unfold selective.
  - rewrite (len_gt_0_elem (matched I names) n); [reflexivity |].
    now apply elem_of_matched.
  - rewrite (len_gt_0_elem (matched O names) n); [apply orb_true_r |].
    now apply elem_of_matched.
Qed.

Lemma elem_of_admitted (I O E names : list string) (n : string) :
  n ∈ admitted I O E names
  <-> n ∈ names /\ passes_include I O (selective I O names) n = true /\ (n ∉ E).
Proof.
  unfold admitted, admits. rewrite list_elem_of_filter.
  destruct (passes_include I O (selective I O names) n); simpl.
  - destruct (decide (n ∈ E)) as [H | H].
    + rewrite bool_decide_eq_true_2 by exact H. simpl. tauto.
    + rewrite bool_decide_eq_false_2 by exact H. simpl. tauto.
  - split; [tauto | intros (_ & H & _); discriminate].
Qed.

Lemma admitted_exclusion_only (E names : list string) :
  admitted [] [] E names = filter (fun n => n ∉ E) names.
Proof.
  unfold admitted. apply list_filter_iff. intros n.
  unfold admits, passes_include. rewrite selective_nil. simpl.
  destruct (decide (n ∈ E)) as [H | H].
  - rewrite bool_decide_eq_true_2 by exact H. simpl. tauto.
  - rewrite bool_decide_eq_false_2 by exact H. simpl. tauto.
Qed.

(** A listing names every directory once. *)
Lemma strip_prefix_Some (pre s n : string) :
  Os.strip_prefix pre s = Some n -> s = pre +:+ n.
Proof.
  revert s. induction pre as [|a pre IH]; intros s H; simpl in H.
  - now injection H as ->.
  - destruct s as [|b s]; [discriminate |].
    destruct (Ascii.eqb a b) eqn:Hab; [| discriminate].
    apply Ascii.eqb_eq in Hab as ->. rewrite append_cons. f_equal. now apply IH.
Qed.

Lemma child_name_inj (d p q n : string) :
  Os.child_name d p = Some n -> Os.child_name d q = Some n -> p = q.
Proof.
  unfold Os.child_name. intros Hp Hq.
  destruct (Os.strip_prefix _ p) as [n1 |] eqn:H1; [| discriminate].
  destruct (Os.strip_prefix _ q) as [n2 |] eqn:H2; [| discriminate].
  destruct (_ || _) in Hp; [discriminate |]. injection Hp as ->.
  destruct (_ || _) in Hq; [discriminate |]. injection Hq as ->.
  apply strip_prefix_Some in H1, H2. congruence.
Qed.

Lemma NoDup_omap_inj {A B : Type} (f : A -> option B) (l : list A) :
  (forall x y b, f x = Some b -> f y = Some b -> x = y) ->
  NoDup l -> NoDup (omap f l).
Proof.
  intros Hinj. induction 1 as [|x l Hx Hl IH]; simpl; [constructor |].
  destruct (f x) as [b |] eqn:Hb; [| exact IH].
  constructor; [| exact IH].
  intros (y & Hy & Hfy)%list_elem_of_omap.
  assert (x = y) by exact (Hinj x y b Hb Hfy). now subst.
Qed.

Lemma NoDup_listing (o : OS) (d : string) : NoDup (listing o d).
Proof.
  unfold listing, Os.entries. apply NoDup_filter, NoDup_omap_inj.
  - intros x y b. apply child_name_inj.
  - apply NoDup_elements.
Qed.

Lemma NoDup_admitted (I O E names : list string) :
  NoDup names -> NoDup (admitted I O E names).
Proof. unfold admitted. apply NoDup_filter. Qed.

(** ** [initialize] after the selection *)

Section InitializeSelection.

Variable yaml_load_group : string -> GroupConfig.
Variable yaml_load_streams : string -> gmap string string.
Variable st st4 : State.
Variable old gd id rd : string.
Variable I O E : list string.

Hypothesis Hreach : reaches_selection yaml_load_group st old gd id rd st4.
Hypothesis Hinclude : include (args (self st4)) = Some I.
Hypothesis Hoptional : optional_include (args (self st4)) = Some O.
Hypothesis Hexclude : exclude (args (self st4)) = Some E.
Hypothesis Himages : Os.is_dir (os st4) id = true.
Hypothesis Hrpms : Os.is_dir (os st4) rd = true.

Local Abbreviation init := (initialize yaml_load_group yaml_load_streams).
Local Abbreviation images := (listing (os st4) id).
Local Abbreviation rpms := (listing (os st4) rd).

Lemma selection_log_ready : log_ready st4.
Proof. exact (reaches_selection_log_ready _ _ _ _ _ _ _ Hreach). Qed.

Lemma registries_at_selection :
  image_map (self st4) = image_map (self st)
  /\ rpm_map (self st4) = rpm_map (self st).
Proof.
  split.
  - eapply (reaches_selection_frame image_map);
      try (intros; reflexivity); exact Hreach.
  - eapply (reaches_selection_frame rpm_map);
      try (intros; reflexivity); exact Hreach.
Qed.

(** A name of [include] that is nowhere: [initialize] raises at line 202
    and nothing was registered. *)
Lemma initialize_missing :
  len_gt_0 (missed I images rpms) = true ->
  init st
  = (Raise (IOError ("Unable to find the following images or rpms configs: "
                       +:+ PyStr.join ", " (missed I images rpms))),
     leave_Dir old (banner I E st4)).
Proof.
  intros Hmiss. rewrite (initialize_from_selection _ _ _ _ _ _ _ _ Hreach).
  now rewrite (select_configs_missing I E id rd st4 Hinclude Hexclude selection_log_ready
                 Himages Hrpms O Hoptional Hmiss).
Qed.

(** Every name of [include] was found: the registries and the console
    after [initialize], and its outcome. *)
Lemma initialize_selected :
  len_gt_0 (missed I images rpms) = false ->
  image_map (self (snd (init st)))
  = with_images (admitted I O E images) (image_map (self st))
  /\ rpm_map (self (snd (init st)))
     = with_rpms (admitted I O E rpms) (rpm_map (self st))
  /\ os_console (os (snd (init st)))
     = os_console (os (banner I E st4))
       ++ (if len_gt_0 (missed O images rpms) then
             ["The following images or rpms were not found, but optional: "
                +:+ PyStr.join ", " (missed O images rpms)]
           else [])
       ++ List.concat (map (console_lines I O E "image"
                              (verbose (args (self st4)))
                              (selective I O images)) images)
       ++ List.concat (map (console_lines I O E "rpm"
                              (verbose (args (self st4)))
                              (selective I O rpms)) rpms)
  /\ fst (init st)
     = if (size (image_map (self (snd (init st))))
           + size (rpm_map (self (snd (init st)))) =? 0)%nat
       then Raise (IOError ("No image or rpm metadata directories found within: "
                              +:+ gd))
       else Ok tt.
Proof.
  intros Hmiss. rewrite (initialize_from_selection _ _ _ _ _ _ _ _ Hreach).
  destruct (select_configs_ok I E id rd st4 Hinclude Hexclude selection_log_ready
              Himages Hrpms O Hoptional Hmiss)
    as (st5 & Hrun & Hself & Hcon & Hfs).
  rewrite Hrun.
  destruct (finish_initialize_registries yaml_load_streams gd (leave_Dir old st5))
    as (Him & Hrm & Hco).
  destruct registries_at_selection as [Him4 Hrm4].
  rewrite finish_initialize_outcome, Him, Hrm, Hco. simpl.
  rewrite Hself.
  destruct (fold_register_rpm (admitted I O E rpms)
              (foldl (fun r n => register_image n r) (self st4)
                 (admitted I O E images))) as [Hr1 Hr2].
  destruct (fold_register_image (admitted I O E images) (self st4))
    as [Hi1 Hi2].
  rewrite Hr1, Hr2, Hi1, Hi2, Him4, Hrm4, Hcon.
  repeat split.
Qed.

End InitializeSelection.

(** ** Claims about the selection *)

(** C3: when the run reaches the selection with all three filters set and
    some name of [include] is neither a discovered image directory nor a
    discovered rpm directory, [initialize] raises the [IOError] of line 202
    (the selection error), whose message lists exactly the names of
    [include] found in neither listing, each once; nothing is registered. *)
Theorem missing_include_is_fatal
    (yaml_load_group : string -> GroupConfig)
    (yaml_load_streams : string -> gmap string string)
    (st st4 : State) (old gd id rd : string) (I O E : list string) (q : string) :
  reaches_selection yaml_load_group st old gd id rd st4 ->
  include (args (self st4)) = Some I ->
  optional_include (args (self st4)) = Some O ->
  exclude (args (self st4)) = Some E ->
  Os.is_dir (os st4) id = true ->
  Os.is_dir (os st4) rd = true ->
  q ∈ I -> q ∉ listing (os st4) id -> q ∉ listing (os st4) rd ->
  exists missing : list string,
    fst (initialize yaml_load_group yaml_load_streams st)
    = Raise (IOError ("Unable to find the following images or rpms configs: "
                        +:+ PyStr.join ", " missing))
    /\ q ∈ missing
    /\ NoDup missing
    /\ (forall n : string,
          n ∈ missing
          <-> n ∈ I /\ (n ∉ listing (os st4) id) /\ (n ∉ listing (os st4) rd))
    /\ image_map (self (snd (initialize yaml_load_group yaml_load_streams st)))
       = image_map (self st)
    /\ rpm_map (self (snd (initialize yaml_load_group yaml_load_streams st)))
       = rpm_map (self st).
Proof.
  intros Hreach HI HO HE Hid Hrd Hq Hqi Hqr.
  exists (missed I (listing (os st4) id) (listing (os st4) rd)).
  assert (Hin : q ∈ missed I (listing (os st4) id) (listing (os st4) rd))
    by (apply elem_of_missed; repeat split; assumption).
  rewrite (initialize_missing yaml_load_group yaml_load_streams st st4
             old gd id rd I O E Hreach HI HO HE Hid Hrd
             (len_gt_0_elem _ _ Hin)).
  simpl. rewrite banner_self.
  destruct (registries_at_selection yaml_load_group st st4 old gd id rd Hreach)
    as [-> ->].
  split; [reflexivity |]. split; [exact Hin |].
  split; [apply NoDup_missed |].
  split; [intros n; apply elem_of_missed |].
  split; reflexivity.
Qed.

(** C5: with [include] and [optional_include] both empty, [initialize]
    registers as images exactly the listed image directories that are not
    in [exclude], in listing order, and likewise for rpms; it fails only
    when nothing at all is left to register.  The same holds of
    [collect_configs] on any list of names and with any registration
    callback: the callback runs on the names that are not in [exclude],
    one after the other in the order of the list. *)
Theorem exclusion_only_mode
    (yaml_load_group : string -> GroupConfig)
    (yaml_load_streams : string -> gmap string string)
    (st st4 : State) (old gd id rd : string) (E : list string) :
  reaches_selection yaml_load_group st old gd id rd st4 ->
  include (args (self st4)) = Some [] ->
  optional_include (args (self st4)) = Some [] ->
  exclude (args (self st4)) = Some E ->
  Os.is_dir (os st4) id = true ->
  Os.is_dir (os st4) rd = true ->
  let st' := snd (initialize yaml_load_group yaml_load_streams st) in
  image_map (self st')
  = with_images (filter (fun n => n ∉ E) (listing (os st4) id))
      (image_map (self st))
  /\ rpm_map (self st')
     = with_rpms (filter (fun n => n ∉ E) (listing (os st4) rd))
         (rpm_map (self st))
  /\ fst (initialize yaml_load_group yaml_load_streams st)
     = (if (size (image_map (self st')) + size (rpm_map (self st')) =? 0)%nat
        then Raise (IOError ("No image or rpm metadata directories found within: "
                               +:+ gd))
        else Ok tt)
  /\ forall (g : string -> Runtime -> Runtime) (search_type search_dir : string)
        (names : list string) (s : State),
        (forall n r, args (g n r) = args r) ->
        (forall n r, ws (g n r) = ws r) ->
        log_ready s -> exclude (args (self s)) = Some E ->
        Os.is_dir (os s) search_dir = true ->
        exists s' : State,
          collect_configs search_type search_dir names (matched [] names)
            (matched [] names) (matched E names)
            (fun n => modify_self (g n)) s
          = (Ok ([], []), s')
          /\ self s'
             = foldl (fun r n => g n r) (self s) (filter (fun n => n ∉ E) names).
Proof.
  intros Hreach HI HO HE Hid Hrd st'.
  destruct (initialize_selected yaml_load_group yaml_load_streams st st4
              old gd id rd [] [] E Hreach HI HO HE Hid Hrd)
    as (Him & Hrm & _ & Hout).
  { now rewrite missed_nil. }
  rewrite !admitted_exclusion_only in *.
  split; [exact Him |]. split; [exact Hrm |]. split; [exact Hout |].
  intros g search_type search_dir names s Hargs Hws Hs HsE Hsd.
  destruct (collect_configs_spec [] [] E g Hargs Hws search_type search_dir
              names s Hs HsE Hsd) as (s' & Hrun & Hself & _).
  exists s'. rewrite Hrun, Hself, admitted_exclusion_only.
  split; [| reflexivity]. repeat f_equal.
  apply elem_of_nil_inv. intros n [[H _] _]%list_elem_of_filter. inversion H.
Qed.

Lemma elem_of_concat_map {A B : Type} (f : A -> list B) (l : list A) (x : A)
    (y : B) :
  x ∈ l -> y ∈ f x -> y ∈ List.concat (map f l).
Proof.
  intros Hx Hy. induction Hx as [x l | x z l _ IH]; simpl;
    apply elem_of_app; [left; exact Hy | right; exact (IH Hy)].
Qed.

Lemma console_lines_excluded (I O E : list string) (search_type : string)
    (v sel : bool) (n : string) :
  n ∈ E ->
  (if passes_include I O sel n then search_type +:+ " exclude: " +:+ n
   else search_type +:+ " skip: " +:+ n)
  ∈ console_lines I O E search_type v sel n.
Proof.
  intros HE. unfold console_lines, exclude_lines.
  destruct (passes_include I O sel n); [| left].
  apply elem_of_app. right. rewrite bool_decide_eq_true_2 by exact HE. left.
Qed.

(** C4, as the code has it: a name of [exclude] is never registered,
    whatever [include] and [optional_include] say, and a discovered one is
    never among the missing names of [include]; when the selection runs
    (no name of [include] is missing), a discovered name of [exclude] is
    reported on the console as [<kind> exclude: <name>] if it got past the
    include stage of its kind (it is in [include] or [optional_include], or
    the kind matched neither list), and as [<kind> skip: <name>]
    otherwise. *)
Theorem excluded_never_admitted
    (yaml_load_group : string -> GroupConfig)
    (yaml_load_streams : string -> gmap string string)
    (st st4 : State) (old gd id rd : string) (I O E : list string) (n : string) :
  reaches_selection yaml_load_group st old gd id rd st4 ->
  include (args (self st4)) = Some I ->
  optional_include (args (self st4)) = Some O ->
  exclude (args (self st4)) = Some E ->
  Os.is_dir (os st4) id = true ->
  Os.is_dir (os st4) rd = true ->
  n ∈ E ->
  let st' := snd (initialize yaml_load_group yaml_load_streams st) in
  let images := listing (os st4) id in
  let rpms := listing (os st4) rd in
  image_map (self st') !! n = image_map (self st) !! n
  /\ rpm_map (self st') !! n = rpm_map (self st) !! n
  /\ (n ∈ images \/ n ∈ rpms -> n ∉ missed I images rpms)
  /\ (len_gt_0 (missed I images rpms) = false ->
      (n ∈ images ->
       (if passes_include I O (selective I O images) n
        then "image exclude: " +:+ n else "image skip: " +:+ n)
       ∈ os_console (os st'))
      /\ (n ∈ rpms ->
          (if passes_include I O (selective I O rpms) n
           then "rpm exclude: " +:+ n else "rpm skip: " +:+ n)
          ∈ os_console (os st'))).
Proof.
  intros Hreach HI HO HE Hid Hrd Hn st' images rpms.
  assert (Hadm : forall names, n ∉ admitted I O E names).
  { intros names (_ & _ & H)%elem_of_admitted. contradiction. }
  destruct (len_gt_0 (missed I images rpms)) eqn:Hmiss.
  - unfold st'.
    rewrite (initialize_missing yaml_load_group yaml_load_streams st st4
               old gd id rd I O E Hreach HI HO HE Hid Hrd Hmiss).
    simpl. rewrite banner_self.
    destruct (registries_at_selection yaml_load_group st st4 old gd id rd Hreach)
      as [-> ->].
    split; [reflexivity |]. split; [reflexivity |].
    split; [| discriminate].
    intros Hfound (_ & Hi & Hr)%elem_of_missed. destruct Hfound; contradiction.
  - destruct (initialize_selected yaml_load_group yaml_load_streams st st4
                old gd id rd I O E Hreach HI HO HE Hid Hrd Hmiss)
      as (Him & Hrm & Hcon & _).
    fold st' in Him, Hrm, Hcon. rewrite Him, Hrm, Hcon.
    rewrite with_images_lookup, with_rpms_lookup.
    rewrite !bool_decide_eq_false_2 by apply Hadm.
    split; [reflexivity |]. split; [reflexivity |].
    split.
    { intros Hfound (_ & Hi & Hr)%elem_of_missed. destruct Hfound; contradiction. }
    intros _. split; intros Hin; rewrite !elem_of_app.
    + right. right. left.
      apply (elem_of_concat_map _ _ n); [exact Hin |].
      exact (console_lines_excluded I O E "image" _ _ n Hn).
    + right. right. right.
      apply (elem_of_concat_map _ _ n); [exact Hin |].
      exact (console_lines_excluded I O E "rpm" _ _ n Hn).
Qed.

(** C2, as the code has it: the admission pass of a kind consumes that
    kind's own match lists (the include list ends empty, the optional list
    keeps only the names that were claimed through [include]), so the two
    kinds do not see each other's matches; when no name of [include] is
    missing, every name of [include] is discovered in some kind, and in
    each kind where it is discovered and not excluded it is admitted
    exactly once. *)
Theorem include_consumed_per_kind
    (yaml_load_group : string -> GroupConfig)
    (yaml_load_streams : string -> gmap string string)
    (st st4 : State) (old gd id rd : string) (I O E : list string) :
  reaches_selection yaml_load_group st old gd id rd st4 ->
  include (args (self st4)) = Some I ->
  optional_include (args (self st4)) = Some O ->
  exclude (args (self st4)) = Some E ->
  Os.is_dir (os st4) id = true ->
  Os.is_dir (os st4) rd = true ->
  let st' := snd (initialize yaml_load_group yaml_load_streams st) in
  let images := listing (os st4) id in
  let rpms := listing (os st4) rd in
  (forall s : State,
     log_ready s -> exclude (args (self s)) = Some E ->
     Os.is_dir (os s) id = true ->
     fst (collect_configs "image" id images (matched I images)
            (matched O images) (matched E images) gen_ImageMetadata s)
     = Ok ([], filter (fun n => n ∈ I /\ n ∈ O) images))
  /\ (forall s : State,
        log_ready s -> exclude (args (self s)) = Some E ->
        Os.is_dir (os s) rd = true ->
        fst (collect_configs "rpm" rd rpms (matched I rpms)
               (matched O rpms) (matched E rpms) gen_RPMMetadata s)
        = Ok ([], filter (fun n => n ∈ I /\ n ∈ O) rpms))
  /\ (len_gt_0 (missed I images rpms) = false ->
      image_map (self st')
      = with_images (admitted I O E images) (image_map (self st))
      /\ rpm_map (self st')
         = with_rpms (admitted I O E rpms) (rpm_map (self st))
      /\ NoDup (admitted I O E images)
      /\ NoDup (admitted I O E rpms)
      /\ forall n : string, n ∈ I ->
           (n ∈ images \/ n ∈ rpms)
           /\ (n ∈ images -> n ∉ E -> n ∈ admitted I O E images)
           /\ (n ∈ rpms -> n ∉ E -> n ∈ admitted I O E rpms)).
Proof.
  intros Hreach HI HO HE Hid Hrd st' images rpms.
  split; [| split].
  - intros s Hs HsE Hsd.
    destruct (collect_configs_spec I O E register_image
                (fun _ _ => eq_refl) (fun _ _ => eq_refl)
                "image" id images s Hs HsE Hsd) as (s' & Hrun & _).
    change gen_ImageMetadata with (fun n => modify_self (register_image n)).
    now rewrite Hrun.
  - intros s Hs HsE Hsd.
    destruct (collect_configs_spec I O E register_rpm
                (fun _ _ => eq_refl) (fun _ _ => eq_refl)
                "rpm" rd rpms s Hs HsE Hsd) as (s' & Hrun & _).
    change gen_RPMMetadata with (fun n => modify_self (register_rpm n)).
    now rewrite Hrun.
  - intros Hmiss.
    destruct (initialize_selected yaml_load_group yaml_load_streams st st4
                old gd id rd I O E Hreach HI HO HE Hid Hrd Hmiss)
      as (Him & Hrm & _ & _).
    split; [exact Him |]. split; [exact Hrm |].
    split; [apply NoDup_admitted, NoDup_listing |].
    split; [apply NoDup_admitted, NoDup_listing |].
    intros n Hn. split; [| split].
    + destruct (decide (n ∈ images)) as [Hi | Hi]; [now left |].
      destruct (decide (n ∈ rpms)) as [Hr | Hr]; [now right |].
      exfalso. apply len_gt_0_false in Hmiss.
      assert (Hin : n ∈ missed I images rpms)
        by (apply elem_of_missed; repeat split; assumption).
      rewrite Hmiss in Hin. inversion Hin.
    + intros Hi Hx. apply elem_of_admitted. split; [exact Hi |].
      split; [| exact Hx]. unfold passes_include.
      rewrite (bool_decide_eq_true_2 (n ∈ I)) by exact Hn.
      now rewrite orb_true_r.
    + intros Hr Hx. apply elem_of_admitted. split; [exact Hr |].
      split; [| exact Hx]. unfold passes_include.
      rewrite (bool_decide_eq_true_2 (n ∈ I)) by exact Hn.
      now rewrite orb_true_r.
Qed.

(** C10, as the code has it: from line 150 on, a filter that is [None]
    after the defaults of [group.yml] were merged in makes [initialize]
    raise.  For [include] and [exclude] it is the [TypeError] of [len] at
    lines 165 and 168.  For [optional_include], which has no default, it is
    the [TypeError] of the membership test on the first listed name, or of
    [set(None)] at line 204 when nothing is listed and [include] is empty;
    when nothing is listed and [include] names something, the missing
    names are reported first, by the [IOError] of line 202. *)
Theorem none_filter_raises
    (yaml_load_group : string -> GroupConfig)
    (yaml_load_streams : string -> gmap string string)
    (st st3 : State) (old gd id rd : string) (gc : GroupConfig) :
  reaches_merge yaml_load_group st old gd id rd gc st3 ->
  let inc := effective (include (args (self st))) (gc_includes gc) in
  let exc := effective (exclude (args (self st))) (gc_excludes gc) in
  let out := fst (initialize yaml_load_group yaml_load_streams st) in
  (inc = None -> out = Raise TypeError)
  /\ (is_Some inc -> exc = None -> out = Raise TypeError)
  /\ (forall I E : list string,
        inc = Some I -> exc = Some E ->
        optional_include (args (self st)) = None ->
        Os.is_dir (os st3) id = true -> Os.is_dir (os st3) rd = true ->
        out = match listing (os st3) id, listing (os st3) rd, I with
              | [], [], _ :: _ =>
                  Raise (IOError
                    ("Unable to find the following images or rpms configs: "
                       +:+ PyStr.join ", " (missed I [] [])))
              | _, _, _ => Raise TypeError
              end).
Proof.
  intros Hreach inc exc out.
  pose proof (reaches_merge_log_ready _ _ _ _ _ _ _ _ Hreach) as Hready.
  assert (Hinc3 : include (args (self st3)) = include (args (self st))).
  { eapply (reaches_merge_frame (fun r => include (args r)));
      try (intros; reflexivity); exact Hreach. }
  assert (Hexc3 : exclude (args (self st3)) = exclude (args (self st))).
  { eapply (reaches_merge_frame (fun r => exclude (args r)));
      try (intros; reflexivity); exact Hreach. }
  assert (Hopt3 : optional_include (args (self st3))
                  = optional_include (args (self st))).
  { eapply (reaches_merge_frame (fun r => optional_include (args r)));
      try (intros; reflexivity); exact Hreach. }
  destruct (merge_group_defaults_ok gc st3 Hready)
    as (st4 & Hmerge & HI4 & HE4 & HO4 & Hready4 & Hfs).
  rewrite Hinc3 in HI4. rewrite Hexc3 in HE4. rewrite Hopt3 in HO4.
  fold inc in HI4. fold exc in HE4.
  assert (Hout : out
                 = match select_configs id rd st4 with
                   | (Ok _, st5) =>
                       fst (finish_initialize yaml_load_streams gd
                              (leave_Dir old st5))
                   | (Raise e, _) => Raise e
                   end).
  { unfold out.
    rewrite (initialize_from_merge _ _ _ _ _ _ _ _ _ Hreach).
    rewrite (bind_ok _ _ _ _ _ Hmerge).
    now destruct (select_configs id rd st4) as [[[] | e] st5]. }
  split; [| split].
  - intros Hnone. rewrite Hout, select_configs_include_none; [reflexivity |].
    now rewrite HI4.
  - intros [I HI] Hnone. rewrite HI in HI4.
    rewrite Hout, (select_configs_exclude_none I); try assumption;
      [reflexivity | now rewrite HE4].
  - intros I E HI HE HO Hid Hrd. rewrite HI in HI4. rewrite HE in HE4.
    rewrite HO in HO4.
    rewrite Hout, (select_configs_optional_none I E); try assumption.
    + rewrite !(listing_same_fs st3 st4 _ Hfs).
      destruct (listing (os st3) id), (listing (os st3) rd), I; reflexivity.
    + now rewrite (is_dir_same_fs st3 st4 _ Hfs).
    + now rewrite (is_dir_same_fs st3 st4 _ Hfs).
Qed.

(** ** Concrete runs *)

(** [include=["q"]] on the demo tree, which has no [q]. *)
Lemma missing_include_is_fatal_witness :
  reaches_selection Demo.yaml_load_group Demo.missing_q "/" Demo.group_dir
    Demo.images_dir Demo.rpms_dir (Demo.at_selection Demo.missing_q)
  /\ "q" ∈ ["q"]
  /\ exists missing : list string,
       fst (Demo.init Demo.missing_q)
       = Raise (IOError ("Unable to find the following images or rpms configs: "
                           +:+ PyStr.join ", " missing))
       /\ "q" ∈ missing
       /\ NoDup missing.
Proof.
  assert (Hreach : reaches_selection Demo.yaml_load_group Demo.missing_q "/"
                     Demo.group_dir Demo.images_dir Demo.rpms_dir
                     (Demo.at_selection Demo.missing_q))
    by (split; by_computation).
  assert (Hq : "q" ∈ ["q"]) by by_computation.
  assert (HI : include (args (self (Demo.at_selection Demo.missing_q)))
               = Some ["q"]) by by_computation.
  assert (HO : optional_include (args (self (Demo.at_selection Demo.missing_q)))
               = Some []) by by_computation.
  assert (HE : exclude (args (self (Demo.at_selection Demo.missing_q)))
               = Some []) by by_computation.
  assert (Hid : Os.is_dir (os (Demo.at_selection Demo.missing_q))
                  Demo.images_dir = true) by by_computation.
  assert (Hrd : Os.is_dir (os (Demo.at_selection Demo.missing_q))
                  Demo.rpms_dir = true) by by_computation.
  assert (Hqi : "q" ∉ listing (os (Demo.at_selection Demo.missing_q))
                        Demo.images_dir) by by_computation.
  assert (Hqr : "q" ∉ listing (os (Demo.at_selection Demo.missing_q))
                        Demo.rpms_dir) by by_computation.
  split; [exact Hreach |]. split; [exact Hq |].
  destruct (missing_include_is_fatal Demo.yaml_load_group Demo.yaml_load_streams
              Demo.missing_q (Demo.at_selection Demo.missing_q) "/"
              Demo.group_dir Demo.images_dir Demo.rpms_dir ["q"] [] [] "q"
              Hreach HI HO HE Hid Hrd Hq Hqi Hqr)
    as (missing & Hout & Hin & Hnodup & _).
  exists missing. repeat split; assumption.
Defined.

(** [exclude=["b"]] alone on the demo tree: images [a] and [c] and rpm [x]
    are registered. *)
Lemma exclusion_only_mode_witness :
  reaches_selection Demo.yaml_load_group Demo.exclude_b "/" Demo.group_dir
    Demo.images_dir Demo.rpms_dir (Demo.at_selection Demo.exclude_b)
  /\ include (args (self (Demo.at_selection Demo.exclude_b))) = Some []
  /\ optional_include (args (self (Demo.at_selection Demo.exclude_b))) = Some []
  /\ dom (image_map (self (snd (Demo.init Demo.exclude_b))))
     = ({[ "a"; "c" ]} : gset string)
  /\ dom (rpm_map (self (snd (Demo.init Demo.exclude_b))))
     = ({[ "x" ]} : gset string)
  /\ fst (Demo.init Demo.exclude_b) = Ok tt.
Proof.
  assert (Hreach : reaches_selection Demo.yaml_load_group Demo.exclude_b "/"
                     Demo.group_dir Demo.images_dir Demo.rpms_dir
                     (Demo.at_selection Demo.exclude_b))
    by (split; by_computation).
  assert (HI : include (args (self (Demo.at_selection Demo.exclude_b))) = Some [])
    by by_computation.
  assert (HO : optional_include (args (self (Demo.at_selection Demo.exclude_b)))
               = Some []) by by_computation.
  assert (HE : exclude (args (self (Demo.at_selection Demo.exclude_b)))
               = Some ["b"]) by by_computation.
  assert (Hid : Os.is_dir (os (Demo.at_selection Demo.exclude_b))
                  Demo.images_dir = true) by by_computation.
  assert (Hrd : Os.is_dir (os (Demo.at_selection Demo.exclude_b))
                  Demo.rpms_dir = true) by by_computation.
  split; [exact Hreach |]. split; [exact HI |]. split; [exact HO |].
  destruct (exclusion_only_mode Demo.yaml_load_group Demo.yaml_load_streams
              Demo.exclude_b (Demo.at_selection Demo.exclude_b) "/"
              Demo.group_dir Demo.images_dir Demo.rpms_dir ["b"]
              Hreach HI HO HE Hid Hrd)
    as (Him & Hrm & Hout & _).
  unfold Demo.init. rewrite Hout, Him, Hrm. repeat split; by_computation.
Defined.

(** [include=["a"]], [exclude=["b"]] on the demo tree: image [b] is
    discovered and excluded, the run succeeds without registering it, but
    it never reaches the exclude test: the console reports it as skipped,
    not as excluded. *)
Lemma excluded_name_reported_as_skip :
  let st' := snd (Demo.init Demo.include_a_exclude_b) in
  fst (Demo.init Demo.include_a_exclude_b) = Ok tt
  /\ "b" ∈ listing (os (Demo.at_selection Demo.include_a_exclude_b))
           Demo.images_dir
  /\ exclude (args (self st')) = Some ["b"]
  /\ image_map (self st') !! "b" = None
  /\ ("image exclude: b" ∉ os_console (os st'))
  /\ "image skip: b" ∈ os_console (os st').
Proof. repeat split; by_computation. Qed.

(** The same run through the theorem: [b] is excluded and skipped, so it
    is reported as [image skip: b]. *)
Lemma excluded_never_admitted_witness :
  reaches_selection Demo.yaml_load_group Demo.include_a_exclude_b "/"
    Demo.group_dir Demo.images_dir Demo.rpms_dir
    (Demo.at_selection Demo.include_a_exclude_b)
  /\ "b" ∈ ["b"]
  /\ image_map (self (snd (Demo.init Demo.include_a_exclude_b))) !! "b" = None
  /\ "image skip: b" ∈ os_console (os (snd (Demo.init Demo.include_a_exclude_b))).
Proof.
  assert (Hreach : reaches_selection Demo.yaml_load_group
                     Demo.include_a_exclude_b "/" Demo.group_dir
                     Demo.images_dir Demo.rpms_dir
                     (Demo.at_selection Demo.include_a_exclude_b))
    by (split; by_computation).
  assert (Hb : "b" ∈ ["b"]) by by_computation.
  split; [exact Hreach |]. split; [exact Hb |].
  assert (HI : include (args (self (Demo.at_selection Demo.include_a_exclude_b)))
               = Some ["a"]) by by_computation.
  assert (HO : optional_include
                 (args (self (Demo.at_selection Demo.include_a_exclude_b)))
               = Some []) by by_computation.
  assert (HE : exclude (args (self (Demo.at_selection Demo.include_a_exclude_b)))
               = Some ["b"]) by by_computation.
  assert (Hid : Os.is_dir (os (Demo.at_selection Demo.include_a_exclude_b))
                  Demo.images_dir = true) by by_computation.
  assert (Hrd : Os.is_dir (os (Demo.at_selection Demo.include_a_exclude_b))
                  Demo.rpms_dir = true) by by_computation.
  pose proof (excluded_never_admitted Demo.yaml_load_group
                Demo.yaml_load_streams Demo.include_a_exclude_b
                (Demo.at_selection Demo.include_a_exclude_b) "/" Demo.group_dir
                Demo.images_dir Demo.rpms_dir ["a"] [] ["b"] "b"
                Hreach HI HO HE Hid Hrd Hb) as (Him & _ & _ & Hcon).
  split; [exact Him |].
  assert (Hmiss : len_gt_0 (missed ["a"]
                    (listing (os (Demo.at_selection Demo.include_a_exclude_b))
                       Demo.images_dir)
                    (listing (os (Demo.at_selection Demo.include_a_exclude_b))
                       Demo.rpms_dir)) = false) by by_computation.
  assert (Hin : "b" ∈ listing (os (Demo.at_selection Demo.include_a_exclude_b))
                        Demo.images_dir) by by_computation.
  exact (proj1 (Hcon Hmiss) Hin).
Defined.

(** [include=["a"]] on the tree where [a] is both an image and an rpm
    directory: the name is admitted in both kinds, not claimed by the
    first; and with [include=["a"]], [exclude=["a"]] the included name is
    admitted nowhere although the run succeeds. *)
Lemma shared_name_admitted_in_both_kinds :
  fst (Demo.init Demo.shared_a) = Ok tt
  /\ image_map (self (snd (Demo.init Demo.shared_a))) !! "a"
     = Some (mkImageMetadata "a" "a")
  /\ rpm_map (self (snd (Demo.init Demo.shared_a))) !! "a"
     = Some (mkRPMMetadata "a" "a")
  /\ fst (Demo.init Demo.include_a_exclude_a) = Ok tt
  /\ image_map (self (snd (Demo.init Demo.include_a_exclude_a))) !! "a" = None
  /\ rpm_map (self (snd (Demo.init Demo.include_a_exclude_a))) !! "a" = None.
Proof. repeat split; by_computation. Qed.

(** The run with the shared name through the theorem. *)
Lemma include_consumed_per_kind_witness :
  reaches_selection Demo.yaml_load_group Demo.shared_a "/" Demo.group_dir
    Demo.images_dir Demo.rpms_dir (Demo.at_selection Demo.shared_a)
  /\ include (args (self (Demo.at_selection Demo.shared_a))) = Some ["a"]
  /\ "a" ∈ admitted ["a"] [] []
             (listing (os (Demo.at_selection Demo.shared_a)) Demo.images_dir)
  /\ "a" ∈ admitted ["a"] [] []
             (listing (os (Demo.at_selection Demo.shared_a)) Demo.rpms_dir).
Proof.
  assert (Hreach : reaches_selection Demo.yaml_load_group Demo.shared_a "/"
                     Demo.group_dir Demo.images_dir Demo.rpms_dir
                     (Demo.at_selection Demo.shared_a))
    by (split; by_computation).
  assert (HI : include (args (self (Demo.at_selection Demo.shared_a)))
               = Some ["a"]) by by_computation.
  split; [exact Hreach |]. split; [exact HI |].
  assert (HO : optional_include (args (self (Demo.at_selection Demo.shared_a)))
               = Some []) by by_computation.
  assert (HE : exclude (args (self (Demo.at_selection Demo.shared_a)))
               = Some []) by by_computation.
  assert (Hid : Os.is_dir (os (Demo.at_selection Demo.shared_a))
                  Demo.images_dir = true) by by_computation.
  assert (Hrd : Os.is_dir (os (Demo.at_selection Demo.shared_a))
                  Demo.rpms_dir = true) by by_computation.
  pose proof (include_consumed_per_kind Demo.yaml_load_group
                Demo.yaml_load_streams Demo.shared_a
                (Demo.at_selection Demo.shared_a) "/" Demo.group_dir
                Demo.images_dir Demo.rpms_dir ["a"] [] []
                Hreach HI HO HE Hid Hrd) as (_ & _ & Hsel).
  assert (Hmiss : len_gt_0 (missed ["a"]
                    (listing (os (Demo.at_selection Demo.shared_a))
                       Demo.images_dir)
                    (listing (os (Demo.at_selection Demo.shared_a))
                       Demo.rpms_dir)) = false) by by_computation.
  destruct (Hsel Hmiss) as (_ & _ & _ & _ & Hall).
  assert (Ha : "a" ∈ ["a"]) by by_computation.
  destruct (Hall "a" Ha) as (_ & Hi & Hr).
  split; [apply Hi | apply Hr]; by_computation.
Defined.

(** [optional_include=None] with [include=["q"]] on a group without any
    image or rpm directory: [initialize] raises the [IOError] of line 202,
    not a [TypeError]. *)
Lemma optional_none_reports_missing_include :
  optional_include (args (self Demo.optional_none)) = None
  /\ fst (Demo.init Demo.optional_none)
     = Raise (IOError "Unable to find the following images or rpms configs: q")
  /\ fst (Demo.init Demo.optional_none) <> Raise TypeError.
Proof.
  assert (H : fst (Demo.init Demo.optional_none)
              = Raise (IOError
                  "Unable to find the following images or rpms configs: q"))
    by by_computation.
  split; [reflexivity |]. split; [exact H |]. rewrite H. discriminate.
Qed.

(** [include=None] on the demo tree, whose [group.yml] has no [includes]:
    the [TypeError] of line 165. *)
Lemma none_filter_raises_witness :
  reaches_merge Demo.yaml_load_group Demo.include_none "/" Demo.group_dir
    Demo.images_dir Demo.rpms_dir
    (Demo.yaml_load_group "name: g") (Demo.at_merge Demo.include_none)
  /\ effective (include (args (self Demo.include_none)))
       (gc_includes (Demo.yaml_load_group "name: g")) = None
  /\ fst (Demo.init Demo.include_none) = Raise TypeError.
Proof.
  assert (Hreach : reaches_merge Demo.yaml_load_group Demo.include_none "/"
                     Demo.group_dir Demo.images_dir Demo.rpms_dir
                     (Demo.yaml_load_group "name: g")
                     (Demo.at_merge Demo.include_none))
    by (split; by_computation).
  assert (Hnone : effective (include (args (self Demo.include_none)))
                    (gc_includes (Demo.yaml_load_group "name: g")) = None)
    by by_computation.
  split; [exact Hreach |]. split; [exact Hnone |].
  refine (proj1 (none_filter_raises Demo.yaml_load_group Demo.yaml_load_streams
                   Demo.include_none (Demo.at_merge Demo.include_none) "/"
                   Demo.group_dir Demo.images_dir Demo.rpms_dir
                   (Demo.yaml_load_group "name: g") Hreach) Hnone).
Defined.

(** ** The [initialized] flag *)

(** C1, on the code: no statement of [initialize] assigns [initialized], so
    the flag is after every call what it was before; a runtime that
    [__init__] made and [initialize] set up still has [initialized = False],
    and a second call runs the whole setup again: the log files are opened
    and their closing is registered with [atexit] a second time. *)
Theorem initialize_never_sets_initialized :
  (forall (yaml_load_group : string -> GroupConfig)
          (yaml_load_streams : string -> gmap string string) (st : State),
     initialized (self (snd (initialize yaml_load_group yaml_load_streams st)))
     = initialized (self st))
  /\ (let st0 := Demo.start Demo.tree (Some ["a"; "x"]) (Some []) (Some []) in
      let st1 := snd (Demo.init st0) in
      let st2 := snd (Demo.init st1) in
      initialized (self st0) = false
      /\ fst (Demo.init st0) = Ok tt
      /\ initialized (self st1) = false
      /\ os_atexit (os st1)
         = [close_file "/work/debug.log"; close_file "/work/record.log"]
      /\ fst (Demo.init st1) = Ok tt
      /\ initialized (self st2) = false
      /\ os_atexit (os st2)
         = [close_file "/work/debug.log"; close_file "/work/record.log";
            close_file "/work/debug.log"; close_file "/work/record.log"]).
Proof.
  split.
  - intros yaml_load_group yaml_load_streams st.
    apply (preserves_initialize initialized); intros; reflexivity.
  - repeat split; by_computation.
Qed.

(** * Further properties *)

(** ** [initialize] only adds to the system *)

Lemma os_only_adds_refl (o : OS) : os_only_adds o o.
Proof.
  split; [reflexivity |]. split; [reflexivity |].
  split; [intros p c H; exists ""; now rewrite append_nil_r |].
  split; exists []; now rewrite app_nil_r.
Qed.

Lemma os_only_adds_trans (a b c : OS) :
  os_only_adds a b -> os_only_adds b c -> os_only_adds a c.
Proof.
  intros (Hc1 & Hd1 & Hf1 & [l1 Ho1] & [k1 Ha1])
         (Hc2 & Hd2 & Hf2 & [l2 Ho2] & [k2 Ha2]).
  split; [congruence |]. split; [set_solver |].
  split.
  { intros p x Hp. destruct (Hf1 p x Hp) as [x1 H1].
    destruct (Hf2 p _ H1) as [x2 H2]. exists (x1 +:+ x2).
    now rewrite <- append_assoc. }
  split.
  - exists (l1 ++ l2). now rewrite Ho2, Ho1, app_assoc.
  - exists (k1 ++ k2). now rewrite Ha2, Ha1, app_assoc.
Qed.

Lemma adds_bind {A B : Type} (m : Py A) (f : A -> Py B) :
  only_adds m -> (forall a : A, only_adds (f a)) -> only_adds (m ≫= f).
Proof.
  intros Hm Hf st. rewrite bind_run. specialize (Hm st).
  destruct (m st) as [[a | e] st1]; simpl in *; [| exact Hm].
  exact (os_only_adds_trans _ _ _ Hm (Hf a st1)).
Qed.

Lemma adds_ret {A : Type} (a : A) : only_adds (mret a : Py A).
Proof. intros st. apply os_only_adds_refl. Qed.

Lemma adds_pass : only_adds pass.
Proof. intros st. apply os_only_adds_refl. Qed.

Lemma adds_raise {A : Type} (e : PyError) : only_adds (raise e : Py A).
Proof. intros st. apply os_only_adds_refl. Qed.

Lemma adds_get_self : only_adds get_self.
Proof. intros st. apply os_only_adds_refl. Qed.

Lemma adds_get_os : only_adds get_os.
Proof. intros st. apply os_only_adds_refl. Qed.

Lemma adds_modify_self (f : Runtime -> Runtime) : only_adds (modify_self f).
Proof. intros st. apply os_only_adds_refl. Qed.

Lemma adds_modify_os (f : OS -> OS) :
  (forall o, os_only_adds o (f o)) -> only_adds (modify_os f).
Proof. intros H st. apply H. Qed.

Lemma adds_when (c : bool) (body : Py unit) :
  only_adds body -> only_adds (when c body).
Proof. intros H. destruct c; [exact H | apply adds_pass]. Qed.

Lemma adds_sequence {A : Type} (o : option A) : only_adds (sequence o).
Proof. destruct o; intros st; apply os_only_adds_refl. Qed.

Create HintDb adds discriminated.

#[local] Hint Resolve adds_bind adds_ret adds_pass adds_raise adds_get_self
  adds_get_os adds_modify_self adds_when adds_sequence : adds.

#[local] Hint Extern 1 (only_adds (if ?c then _ else _)) => destruct c : adds.
#[local] Hint Extern 1 (only_adds (match ?x with Some _ => _ | None => _ end)) =>
  destruct x : adds.

Lemma adds_set_dirs (o : OS) (p : string) :
  os_only_adds o (set_os_dirs ({[ p ]} ∪ os_dirs o) o).
Proof.
  split; [reflexivity |]. split; [simpl; set_solver |].
  split; [intros q c H; exists ""; now rewrite append_nil_r |].
  split; exists []; now rewrite app_nil_r.
Qed.

Lemma adds_set_files_append (o : OS) (f text : string) :
  os_only_adds o
    (set_os_files (<[ f := default "" (os_files o !! f) +:+ text ]> (os_files o)) o).
Proof.
  split; [reflexivity |]. split; [reflexivity |].
  split.
  { intros q c H. simpl. destruct (decide (f = q)) as [-> | Hne].
    - rewrite lookup_insert_eq, H. now exists text.
    - rewrite lookup_insert_ne by exact Hne. exists "".
      now rewrite append_nil_r. }
  split; exists []; now rewrite app_nil_r.
Qed.

Lemma adds_isdir (d : string) : only_adds (Os.isdir d).
Proof. unfold Os.isdir. eauto with adds. Qed.

Lemma adds_isfile (d : string) : only_adds (Os.isfile d).
Proof. unfold Os.isfile. eauto with adds. Qed.

Lemma adds_mkdir (d : string) : only_adds (Os.mkdir d).
Proof.
  unfold Os.mkdir. apply adds_bind; [apply adds_get_os |]. intros o.
  destruct (_ || _); [apply adds_raise |].
  destruct (negb _); [apply adds_raise |].
  apply adds_modify_os. intros o'. apply adds_set_dirs.
Qed.

Lemma adds_listdir (d : string) : only_adds (Os.listdir d).
Proof. unfold Os.listdir. eauto with adds. Qed.

Lemma adds_read_file (d : string) : only_adds (Os.read_file d).
Proof. unfold Os.read_file. eauto with adds. Qed.

Lemma adds_write (f text : string) : only_adds (Os.write f text).
Proof.
  unfold Os.write. apply adds_modify_os. intros o. apply adds_set_files_append.
Qed.

Lemma adds_open_append (d : string) : only_adds (Os.open_append d).
Proof.
  unfold Os.open_append. apply adds_bind; [apply adds_get_os |]. intros o.
  destruct (Os.is_dir o d); [apply adds_raise |].
  destruct (negb _); [apply adds_raise |].
  apply adds_bind; [| intros _; apply adds_ret].
  apply adds_modify_os. intros o'.
  pose proof (adds_set_files_append o' (Os.resolve o' d) "") as H.
  now rewrite append_nil_r in H.
Qed.

Lemma adds_echo (msg : string) : only_adds (Os.echo msg).
Proof.
  unfold Os.echo. apply adds_modify_os. intros o.
  split; [reflexivity |]. split; [reflexivity |].
  split; [intros q c H; exists ""; now rewrite append_nil_r |].
  split; [now exists [msg] | exists []; now rewrite app_nil_r].
Qed.

Lemma adds_atexit_register (cb : AtExit) : only_adds (Os.atexit_register cb).
Proof.
  unfold Os.atexit_register. apply adds_modify_os. intros o.
  split; [reflexivity |]. split; [reflexivity |].
  split; [intros q c H; exists ""; now rewrite append_nil_r |].
  split; [exists []; now rewrite app_nil_r | now exists [cb]].
Qed.

Lemma adds_mkdtemp (suffix prefix : string) : only_adds (Os.mkdtemp suffix prefix).
Proof.
  unfold Os.mkdtemp. apply adds_bind; [apply adds_get_os |]. intros o.
  destruct (Os.mkdtemp_draw _ _ _ _ _) as [[d rest] |]; [| apply adds_raise].
  apply adds_bind.
  { apply adds_modify_os. intros o'.
    split; [reflexivity |]. split; [reflexivity |].
    split; [intros q c H; exists ""; now rewrite append_nil_r |].
    split; exists []; now rewrite app_nil_r. }
  intros _. apply adds_bind; [apply adds_mkdir | intros _; apply adds_ret].
Qed.

(** [with Dir(d)] comes back to where it started, so its body may move. *)
Lemma adds_with_Dir {A : Type} (d : string) (body : Py A) :
  only_adds body -> only_adds (with_Dir d body).
Proof.
  intros H st. unfold with_Dir, Os.chdir. py_unfold. simpl.
  destruct (Os.is_dir (os st) d); simpl; [| apply os_only_adds_refl].
  specialize (H {| os := set_os_cwd (Os.resolve (os st) d) (os st);
                   self := self st |}).
  destruct (body _) as [r st2]. simpl in *.
  destruct H as (Hc & Hd & Hf & Ho & Ha). repeat split; assumption.
Qed.

#[local] Hint Resolve adds_isdir adds_isfile adds_mkdir adds_listdir
  adds_read_file adds_write adds_open_append adds_echo adds_atexit_register
  adds_mkdtemp adds_with_Dir : adds.

Lemma adds_assert_dir (d msg : string) : only_adds (assert_dir d msg).
Proof. unfold assert_dir. eauto with adds. Qed.

Lemma adds_ensure_dir (d : string) : only_adds (ensure_dir d).
Proof. unfold ensure_dir. eauto with adds. Qed.

Lemma adds_log_verbose (msg : string) : only_adds (log_verbose msg).
Proof. unfold log_verbose. eauto 10 with adds. Qed.

Lemma adds_info (msg : string) (debug : option string) :
  only_adds (info msg debug).
Proof.
  unfold info. apply adds_bind; [apply adds_get_self |].
  intros r. destruct (verbose (args r)); [| apply adds_echo].
  destruct debug; apply adds_log_verbose.
Qed.

Lemma adds_modify_args (f : Kwargs -> Kwargs) : only_adds (modify_args f).
Proof. apply adds_modify_self. Qed.

Lemma adds_modify_ws (f : Workspace -> Workspace) : only_adds (modify_ws f).
Proof. apply adds_modify_self. Qed.

Lemma adds_remove (name : string) (l : list string) : only_adds (remove name l).
Proof.
  unfold remove. destruct (PyStr.list_remove name l);
    intros st; apply os_only_adds_refl.
Qed.

#[local] Hint Resolve adds_assert_dir adds_ensure_dir adds_log_verbose
  adds_info adds_modify_args adds_modify_ws adds_remove : adds.

Lemma adds_list_dirs (d : string) : only_adds (list_dirs d).
Proof. unfold list_dirs. apply adds_with_Dir. eauto with adds. Qed.

Lemma adds_match_filters (names : list string) :
  forall acc, only_adds (match_filters names acc).
Proof.
  induction names as [|n rest IH]; intros [[a b] c]; simpl;
    eauto 10 with adds.
Qed.

Lemma adds_setup_working_dir : only_adds setup_working_dir.
Proof.
  unfold setup_working_dir. apply adds_bind; [apply adds_get_self |].
  intros r. destruct (working_dir (args r)); [eauto with adds |].
  apply adds_bind; [apply adds_mkdtemp |]. intros d.
  apply adds_bind; [apply adds_modify_args |]. intros _.
  apply adds_bind; [apply adds_modify_self |]. intros _.
  apply adds_bind; [apply adds_atexit_register | intros _; apply adds_ret].
Qed.

Lemma adds_setup_workspace (wd : string) : only_adds (setup_workspace wd).
Proof.
  unfold setup_workspace. cbv zeta.
  apply adds_bind; [apply adds_modify_ws |]. intros _.
  apply adds_bind; [apply adds_ensure_dir |]. intros _.
  apply adds_bind; [apply adds_modify_ws |]. intros _.
  apply adds_bind; [apply adds_ensure_dir |]. intros _.
  apply adds_bind; [apply adds_modify_ws |]. intros _.
  apply adds_bind; [apply adds_open_append |]. intros f.
  apply adds_bind; [apply adds_modify_ws |]. intros _.
  apply adds_bind; [apply adds_atexit_register |]. intros _.
  apply adds_bind; [apply adds_modify_ws |]. intros _.
  apply adds_bind; [apply adds_open_append |]. intros f'.
  apply adds_bind; [apply adds_modify_ws |]. intros _.
  apply adds_bind; [apply adds_atexit_register |]. intros _.
  apply adds_bind; [apply adds_modify_ws |]. intros _.
  apply adds_bind; [apply adds_ensure_dir |]. intros _.
  apply adds_bind; [apply adds_modify_ws |]. intros _.
  apply adds_ensure_dir.
Qed.

Lemma adds_locate_group (g : string) : only_adds (locate_group g).
Proof.
  unfold locate_group. apply adds_bind; [apply adds_get_self |]. intros r.
  apply adds_bind; [apply adds_assert_dir |]. intros _.
  apply adds_bind; [apply adds_assert_dir |]. intros _.
  apply adds_bind; [apply adds_assert_dir |]. intros _.
  apply adds_bind; [apply adds_info | intros _; apply adds_ret].
Qed.

Lemma adds_prepare : only_adds prepare.
Proof.
  unfold prepare. apply adds_bind; [apply adds_get_self |]. intros r.
  apply adds_bind.
  { destruct (group (args r)); eauto with adds. }
  intros g.
  apply adds_bind; [apply adds_assert_dir |]. intros _.
  apply adds_bind; [apply adds_setup_working_dir |]. intros wd.
  apply adds_bind; [apply adds_setup_workspace |]. intros _.
  apply adds_bind; [apply adds_locate_group | intros dirs; apply adds_ret].
Qed.

Lemma adds_load_group_yml (yaml_load_group : string -> GroupConfig) (g : string) :
  only_adds (load_group_yml yaml_load_group g).
Proof.
  unfold load_group_yml. apply adds_bind; [apply adds_read_file |].
  intros text. apply adds_bind; [apply adds_modify_self |].
  intros _. destruct (bool_decide _); auto with adds.
Qed.

Lemma adds_merge_group_defaults (gc : GroupConfig) :
  only_adds (merge_group_defaults gc).
Proof.
  unfold merge_group_defaults.
  apply adds_bind; [apply adds_get_self |]. intros r1.
  apply adds_bind; [apply adds_when, adds_modify_args |]. intros _.
  apply adds_bind; [apply adds_get_self |]. intros r2.
  apply adds_bind; [apply adds_when, adds_modify_args |]. intros _.
  apply adds_bind; [apply adds_get_self |]. intros r3.
  destruct (branch (args r3)); [apply adds_info |].
  destruct (gc_branch gc); [| apply adds_info].
  apply adds_bind; [apply adds_modify_args | intros _; apply adds_info].
Qed.

Lemma adds_collect_loop (search_type : string) (ci co ce : bool)
    (gen : string -> Py unit) (names : list string) :
  (forall n, only_adds (gen n)) ->
  forall inc opt, only_adds (collect_loop search_type ci co ce gen names inc opt).
Proof.
  intros Hgen. induction names as [|n rest IH]; intros inc opt; simpl.
  - apply adds_ret.
  - apply adds_bind.
    { unfold include_stage.
      destruct (ci || co); [| apply adds_ret].
      destruct (ci && PyStr.mem n inc); [eauto 10 with adds |].
      destruct (co && PyStr.mem n opt); eauto 10 with adds. }
    intros [[inc' opt'] |]; [| apply IH].
    apply adds_bind.
    { unfold exclude_stage. destruct ce; [| apply adds_ret].
      apply adds_bind; [apply adds_get_self |]. intros r.
      apply adds_bind; [apply adds_sequence |]. intros l.
      destruct (PyStr.mem n l); eauto 10 with adds. }
    intros [|]; [apply IH |].
    apply adds_bind; [apply Hgen | intros _; apply IH].
Qed.

Lemma adds_collect_configs (search_type search_dir : string)
    (names inc opt exc : list string) (gen : string -> Py unit) :
  (forall n, only_adds (gen n)) ->
  only_adds (collect_configs search_type search_dir names inc opt exc gen).
Proof.
  intros Hgen. unfold collect_configs.
  apply adds_with_Dir, adds_collect_loop, Hgen.
Qed.

Lemma adds_select_configs (images_dir rpms_dir : string) :
  only_adds (select_configs images_dir rpms_dir).
Proof.
  unfold select_configs.
  apply adds_bind; [apply adds_get_self |]. intros r.
  apply adds_bind; [apply adds_sequence |]. intros l1.
  apply adds_bind; [apply adds_when, adds_info |]. intros _.
  apply adds_bind; [apply adds_sequence |]. intros l2.
  apply adds_bind; [apply adds_when, adds_info |]. intros _.
  apply adds_bind; [apply adds_list_dirs |]. intros images.
  apply adds_bind; [apply adds_list_dirs |]. intros rpms.
  apply adds_bind; [apply adds_match_filters |]. intros [[a b] c].
  apply adds_bind; [apply adds_match_filters |]. intros [[a' b'] c'].
  apply adds_bind; [apply adds_get_self |]. intros r'.
  apply adds_bind; [apply adds_sequence |]. intros l3.
  cbv zeta. destruct (len_gt_0 _); [apply adds_raise |].
  apply adds_bind; [apply adds_sequence |]. intros l4.
  apply adds_bind; [apply adds_when, adds_info |]. intros _.
  apply adds_bind.
  { apply adds_collect_configs. intros n. apply adds_modify_self. }
  intros _. apply adds_bind; [| intros _; apply adds_pass].
  apply adds_collect_configs. intros n. apply adds_modify_self.
Qed.

Lemma adds_finish_initialize
    (yaml_load_streams : string -> gmap string string) (gd : string) :
  only_adds (finish_initialize yaml_load_streams gd).
Proof.
  unfold finish_initialize.
  apply adds_bind; [apply adds_get_self |]. intros r.
  destruct (_ =? 0)%nat; [apply adds_raise |].
  apply adds_bind; [apply adds_isfile |]. intros [|]; [| apply adds_pass].
  apply adds_bind; [apply adds_read_file |]. intros s.
  apply adds_modify_self.
Qed.

Lemma adds_initialize (yaml_load_group : string -> GroupConfig)
    (yaml_load_streams : string -> gmap string string) :
  only_adds (initialize yaml_load_group yaml_load_streams).
Proof.
  unfold initialize.
  apply adds_bind; [apply adds_get_self |]. intros r.
  destruct (initialized r); [apply adds_pass |].
  apply adds_bind; [apply adds_prepare |].
  intros [g [[gd id] rd]].
  apply adds_bind; [| intros _; apply adds_finish_initialize].
  apply adds_with_Dir. unfold initialize_group.
  apply adds_bind; [apply adds_load_group_yml |]. intros gc.
  apply adds_bind; [apply adds_merge_group_defaults |]. intros _.
  apply adds_select_configs.
Qed.


(** X2: [initialize] never removes a directory, never removes or truncates
    a file (the logs are opened for appending, so a file that existed keeps
    its content as a prefix), and leaves what was on the console and in the
    [atexit] registry in place, on every path, failing ones included. *)
Theorem initialize_never_destroys
    (yaml_load_group : string -> GroupConfig)
    (yaml_load_streams : string -> gmap string string) (st : State) :
  let st' := snd (initialize yaml_load_group yaml_load_streams st) in
  os_dirs (os st) ⊆ os_dirs (os st')
  /\ (forall p c, os_files (os st) !! p = Some c ->
        exists c', os_files (os st') !! p = Some (c +:+ c'))
  /\ (exists l, os_console (os st') = os_console (os st) ++ l)
  /\ (exists l, os_atexit (os st') = os_atexit (os st) ++ l).
Proof. exact (proj2 (adds_initialize yaml_load_group yaml_load_streams st)). Qed.

(** ** Failing before anything is set up *)

(** X3: without a group, [initialize] prints [Group must be specified] and
    leaves with [exit(1)]; nothing else has happened: no directory or file
    is made and the object is untouched. *)
Theorem initialize_without_group
    (yaml_load_group : string -> GroupConfig)
    (yaml_load_streams : string -> gmap string string) (st : State) :
  initialized (self st) = false ->
  group (args (self st)) = None ->
  initialize yaml_load_group yaml_load_streams st
  = (Raise (SystemExit 1),
     {| os := set_os_console (os_console (os st) ++ ["Group must be specified"])
                (os st);
        self := self st |}).
Proof.
  intros Hflag Hgroup. unfold initialize, prepare.
  rewrite bind_get_self, Hflag. rewrite bind_run, bind_get_self, Hgroup.
  reflexivity.
Qed.

Lemma initialize_without_group_witness :
  initialized (self Cases.no_group) = false
  /\ group (args (self Cases.no_group)) = None
  /\ fst (Demo.init Cases.no_group) = Raise (SystemExit 1)
  /\ os_dirs (os (snd (Demo.init Cases.no_group))) = os_dirs Demo.tree.
Proof.
  assert (H1 : initialized (self Cases.no_group) = false) by reflexivity.
  assert (H2 : group (args (self Cases.no_group)) = None) by reflexivity.
  split; [exact H1 |]. split; [exact H2 |]. unfold Demo.init.
  rewrite (initialize_without_group Demo.yaml_load_group Demo.yaml_load_streams
             Cases.no_group H1 H2).
  split; reflexivity.
Defined.

(** X4: when the metadata directory is not a directory, or the working
    directory the caller gave is not one, [initialize] raises [IOError]
    before it has changed anything: the system and the object are exactly
    as they were. *)
Theorem initialize_rejects_bad_directories
    (yaml_load_group : string -> GroupConfig)
    (yaml_load_streams : string -> gmap string string) (st : State)
    (g : string) :
  initialized (self st) = false ->
  group (args (self st)) = Some g ->
  (Os.is_dir (os st) (metadata_dir (args (self st))) = false ->
   exists msg : string,
     initialize yaml_load_group yaml_load_streams st = (Raise (IOError msg), st))
  /\ (forall wd : string,
        Os.is_dir (os st) (metadata_dir (args (self st))) = true ->
        working_dir (args (self st)) = Some wd ->
        Os.is_dir (os st) wd = false ->
        exists msg : string,
          initialize yaml_load_group yaml_load_streams st
          = (Raise (IOError msg), st)).
Proof.
  intros Hflag Hgroup. split.
  - intros Hmd. eexists. unfold initialize, prepare.
    rewrite bind_get_self, Hflag. rewrite bind_run, bind_get_self, Hgroup.
    unfold assert_dir, Os.isdir. py_unfold. simpl. rewrite Hmd. reflexivity.
  - intros wd Hmd Hwd Hbad. eexists. unfold initialize, prepare.
    rewrite bind_get_self, Hflag. rewrite bind_run, bind_get_self, Hgroup.
    unfold setup_working_dir, assert_dir, Os.isdir. py_unfold. simpl.
    rewrite Hmd. simpl. rewrite Hwd. simpl. rewrite Hbad. reflexivity.
Qed.

Lemma initialize_rejects_bad_directories_witness :
  initialized (self Cases.bad_metadata_dir) = false
  /\ group (args (self Cases.bad_metadata_dir)) = Some "g"
  /\ (exists msg : string,
        Demo.init Cases.bad_metadata_dir
        = (Raise (IOError msg), Cases.bad_metadata_dir))
  /\ (exists msg : string,
        Demo.init Cases.bad_working_dir
        = (Raise (IOError msg), Cases.bad_working_dir)).
Proof.
  assert (H1 : initialized (self Cases.bad_metadata_dir) = false) by reflexivity.
  assert (H2 : group (args (self Cases.bad_metadata_dir)) = Some "g")
    by reflexivity.
  assert (H3 : initialized (self Cases.bad_working_dir) = false) by reflexivity.
  assert (H4 : group (args (self Cases.bad_working_dir)) = Some "g")
    by reflexivity.
  split; [exact H1 |]. split; [exact H2 |]. split.
  - apply (proj1 (initialize_rejects_bad_directories Demo.yaml_load_group
                    Demo.yaml_load_streams Cases.bad_metadata_dir "g" H1 H2)).
    by_computation.
  - apply (proj2 (initialize_rejects_bad_directories Demo.yaml_load_group
                    Demo.yaml_load_streams Cases.bad_working_dir "g" H3 H4)
             "/nowhere"); by_computation.
Defined.

(** ** The workspace after [initialize] *)

Lemma resolve_cwd (o o' : OS) (p : string) :
  os_cwd o' = os_cwd o -> Os.resolve o' p = Os.resolve o p.
Proof. intros H. unfold Os.resolve. now rewrite H. Qed.

Lemma is_dir_only_adds (o o' : OS) (p : string) :
  os_only_adds o o' -> Os.is_dir o p = true -> Os.is_dir o' p = true.
Proof.
  intros (Hcwd & Hdirs & _) H. unfold Os.is_dir in *.
  apply bool_decide_eq_true in H. apply bool_decide_eq_true.
  rewrite (resolve_cwd o o' p Hcwd). set_solver.
Qed.

Lemma is_file_only_adds (o o' : OS) (p : string) :
  os_only_adds o o' -> Os.is_file o p = true -> Os.is_file o' p = true.
Proof.
  intros (Hcwd & _ & Hfiles & _) H. unfold Os.is_file in *.
  apply bool_decide_eq_true in H. apply bool_decide_eq_true.
  rewrite (resolve_cwd o o' p Hcwd). destruct H as [c Hc].
  destruct (Hfiles _ _ Hc) as [c' Hc']. now exists (c +:+ c').
Qed.

Lemma run_keeps_dir {A : Type} (m : Py A) (st st' : State) (a : A) (p : string) :
  only_adds m -> m st = (Ok a, st') ->
  Os.is_dir (os st) p = true -> Os.is_dir (os st') p = true.
Proof.
  intros Hm Hrun. specialize (Hm st). rewrite Hrun in Hm.
  now apply is_dir_only_adds.
Qed.

Lemma run_keeps_file {A : Type} (m : Py A) (st st' : State) (a : A) (p : string) :
  only_adds m -> m st = (Ok a, st') ->
  Os.is_file (os st) p = true -> Os.is_file (os st') p = true.
Proof.
  intros Hm Hrun. specialize (Hm st). rewrite Hrun in Hm.
  now apply is_file_only_adds.
Qed.

Lemma run_keeps_cwd {A : Type} (m : Py A) (st st' : State) (a : A) :
  only_adds m -> m st = (Ok a, st') -> os_cwd (os st') = os_cwd (os st).
Proof.
  intros Hm Hrun. specialize (Hm st). rewrite Hrun in Hm. apply Hm.
Qed.

Lemma ensure_dir_ok_inv (p : string) (st st' : State) :
  ensure_dir p st = (Ok tt, st') ->
  self st' = self st /\ Os.is_dir (os st') p = true.
Proof.
  unfold ensure_dir, Os.isdir, Os.mkdir. py_unfold. simpl.
  destruct (Os.is_dir (os st) p) eqn:Hd; simpl.
  - intros H. injection H as <-. now split.
  - rewrite Hd. destruct (Os.is_file (os st) p); simpl; [discriminate |].
    destruct (Os.parent_is_dir (os st) p); simpl; [| discriminate].
    intros H. injection H as <-. split; [reflexivity |].
    unfold Os.is_dir, Os.resolve. simpl. apply bool_decide_eq_true.
    set_solver.
Qed.

Lemma open_append_ok_file (p f : string) (st st' : State) :
  Os.open_append p st = (Ok f, st') ->
  f = Os.resolve (os st) p /\ Os.is_file (os st') p = true
  /\ self st' = self st.
Proof.
  unfold Os.open_append. py_unfold. simpl.
  destruct (Os.is_dir (os st) p); [discriminate |].
  destruct (negb (Os.parent_is_dir (os st) p)); [discriminate |].
  simpl. intros H. injection H as <- <-. simpl.
  split; [reflexivity |]. split; [| reflexivity].
  unfold Os.is_file, Os.resolve. simpl. apply bool_decide_eq_true.
  rewrite lookup_insert_eq. now eexists.
Qed.

#[local] Hint Resolve adds_isdir adds_isfile adds_mkdir adds_listdir
  adds_read_file adds_write adds_open_append adds_echo adds_atexit_register
  adds_mkdtemp adds_with_Dir adds_assert_dir adds_ensure_dir adds_log_verbose
  adds_info adds_modify_args adds_modify_ws adds_remove : adds.

(** Lines 104-128, when they run to their end. *)
Lemma setup_workspace_ok_inv (wd : string) (st st' : State) :
  setup_workspace wd st = (Ok tt, st') ->
  ws (self st') = workspace_of (os st') wd
  /\ args (self st') = args (self st)
  /\ Forall (fun d => Os.is_dir (os st') (PyPath.join wd d) = true)
       ["distgits"; "distgits-diffs"; "brew-logs"; "flags"]
  /\ Forall (fun f => Os.is_file (os st') (PyPath.join wd f) = true)
       ["debug.log"; "record.log"].
Proof.
  unfold setup_workspace. cbv zeta. intros H.
  pose proof (run_keeps_cwd _ _ _ _ (adds_setup_workspace wd) H) as Hcwd.
  unfold setup_workspace in Hcwd.
  apply bind_ok_inv in H as ([] & s1 & E1 & H).
  apply bind_ok_inv in H as ([] & s2 & E2 & H).
  assert (D1 : Os.is_dir (os st') (PyPath.join wd "distgits") = true).
  { eapply run_keeps_dir; [| exact H | apply (ensure_dir_ok_inv _ _ _ E2)].
    eauto 40 with adds. }
  apply bind_ok_inv in H as ([] & s3 & E3 & H).
  apply bind_ok_inv in H as ([] & s4 & E4 & H).
  assert (D2 : Os.is_dir (os st') (PyPath.join wd "distgits-diffs") = true).
  { eapply run_keeps_dir; [| exact H | apply (ensure_dir_ok_inv _ _ _ E4)].
    eauto 40 with adds. }
  apply bind_ok_inv in H as ([] & s5 & E5 & H).
  apply bind_ok_inv in H as (f & s6 & E6 & H).
  assert (F1 : Os.is_file (os st') (PyPath.join wd "debug.log") = true).
  { eapply run_keeps_file; [| exact H | apply (open_append_ok_file _ _ _ _ E6)].
    eauto 40 with adds. }
  assert (C6 : os_cwd (os s6) = os_cwd (os st')).
  { symmetry. eapply run_keeps_cwd; [| exact H]. eauto 40 with adds. }
  apply bind_ok_inv in H as ([] & s7 & E7 & H).
  apply bind_ok_inv in H as ([] & s8 & E8 & H).
  apply bind_ok_inv in H as ([] & s9 & E9 & H).
  apply bind_ok_inv in H as (f' & s10 & E10 & H).
  assert (F2 : Os.is_file (os st') (PyPath.join wd "record.log") = true).
  { eapply run_keeps_file; [| exact H | apply (open_append_ok_file _ _ _ _ E10)].
    eauto 40 with adds. }
  assert (C10 : os_cwd (os s10) = os_cwd (os st')).
  { symmetry. eapply run_keeps_cwd; [| exact H]. eauto 40 with adds. }
  apply bind_ok_inv in H as ([] & s11 & E11 & H).
  apply bind_ok_inv in H as ([] & s12 & E12 & H).
  apply bind_ok_inv in H as ([] & s13 & E13 & H).
  apply bind_ok_inv in H as ([] & s14 & E14 & H).
  assert (D3 : Os.is_dir (os st') (PyPath.join wd "brew-logs") = true).
  { eapply run_keeps_dir; [| exact H | apply (ensure_dir_ok_inv _ _ _ E14)].
    eauto 40 with adds. }
  apply bind_ok_inv in H as ([] & s15 & E15 & H).
  pose proof (ensure_dir_ok_inv _ _ _ H) as [S16 D4].
  apply ensure_dir_ok_inv in E2 as [S2 _].
  apply ensure_dir_ok_inv in E4 as [S4 _].
  apply ensure_dir_ok_inv in E14 as [S14 _].
  pose proof (open_append_ok_file _ _ _ _ E6) as (Hf & _ & S6).
  pose proof (open_append_ok_file _ _ _ _ E10) as (Hf' & _ & S10).
  assert (Hf1 : f = Os.resolve (os st') (PyPath.join wd "debug.log")).
  { rewrite Hf. apply resolve_cwd.
    pose proof (run_keeps_cwd _ _ _ _ (adds_open_append _) E6). congruence. }
  assert (Hf2 : f' = Os.resolve (os st') (PyPath.join wd "record.log")).
  { rewrite Hf'. apply resolve_cwd.
    pose proof (run_keeps_cwd _ _ _ _ (adds_open_append _) E10). congruence. }
  unfold modify_ws, modify_self in E1, E3, E5, E7, E9, E11, E13, E15.
  unfold Os.atexit_register, modify_os in E8, E12.
  injection E1 as <-. injection E3 as <-. injection E5 as <-.
  injection E7 as <-. injection E8 as <-. injection E9 as <-.
  injection E11 as <-. injection E12 as <-. injection E13 as <-.
  injection E15 as <-. simpl in *.
  rewrite S16, S14, S10, S6, S4, S2. simpl.
  split; [unfold workspace_of; now rewrite <- Hf1, <- Hf2 |].
  split; [reflexivity |].
  split; repeat constructor; assumption.
Qed.

(** What runs after [prepare]: the body of [with Dir(group_dir)] and the
    last lines. *)
Lemma adds_from_group (yaml_load_group : string -> GroupConfig)
    (yaml_load_streams : string -> gmap string string)
    (g gd id rd : string) :
  only_adds (with_Dir gd (initialize_group yaml_load_group g id rd);;
             finish_initialize yaml_load_streams gd).
Proof.
  apply adds_bind; [| intros _; apply adds_finish_initialize].
  apply adds_with_Dir. unfold initialize_group.
  apply adds_bind; [apply adds_load_group_yml |]. intros gc.
  apply adds_bind; [apply adds_merge_group_defaults |]. intros _.
  apply adds_select_configs.
Qed.

Section FromGroup.

Context {X : Type} (p : Runtime -> X).

Hypothesis p_exclude : forall v r, p (set_args (set_exclude v (args r)) r) = p r.
Hypothesis p_include : forall v r, p (set_args (set_include v (args r)) r) = p r.
Hypothesis p_branch : forall v r, p (set_args (set_branch v (args r)) r) = p r.
Hypothesis p_image_map : forall v r, p (set_image_map v r) = p r.
Hypothesis p_rpm_map : forall v r, p (set_rpm_map v r) = p r.

Lemma preserves_after_load (gc : GroupConfig) (id rd : string) :
  preserves p (merge_group_defaults gc;; select_configs id rd).
Proof.
  apply preserves_bind;
    [apply preserves_merge_group_defaults; assumption |]. intros _.
  apply preserves_select_configs; assumption.
Qed.

Hypothesis p_group_config : forall v r, p (set_group_config v r) = p r.

Lemma preserves_group_body (yaml_load_group : string -> GroupConfig)
    (g gd id rd : string) :
  preserves p (with_Dir gd (initialize_group yaml_load_group g id rd)).
Proof.
  apply preserves_with_Dir. unfold initialize_group.
  apply preserves_bind; [apply preserves_load_group_yml, p_group_config |].
  intros gc. apply preserves_after_load.
Qed.

Hypothesis p_streams : forall v r, p (set_streams v r) = p r.

Lemma preserves_from_group (yaml_load_group : string -> GroupConfig)
    (yaml_load_streams : string -> gmap string string)
    (g gd id rd : string) :
  preserves p (with_Dir gd (initialize_group yaml_load_group g id rd);;
               finish_initialize yaml_load_streams gd).
Proof.
  apply preserves_bind;
    [| intros _; apply preserves_finish_initialize, p_streams].
  apply preserves_group_body.
Qed.

End FromGroup.

Lemma initialize_ok_inv (yaml_load_group : string -> GroupConfig)
    (yaml_load_streams : string -> gmap string string) (st st' : State) :
  initialized (self st) = false ->
  initialize yaml_load_group yaml_load_streams st = (Ok tt, st') ->
  exists (g gd id rd : string) (st1 : State),
    prepare st = (Ok (g, (gd, id, rd)), st1)
    /\ (with_Dir gd (initialize_group yaml_load_group g id rd);;
        finish_initialize yaml_load_streams gd) st1 = (Ok tt, st').
Proof.
  intros Hflag. unfold initialize. rewrite bind_get_self, Hflag.
  intros H. apply bind_ok_inv in H as ([g [[gd id] rd]] & st1 & Hprep & H).
  now exists g, gd, id, rd, st1.
Qed.

(** ** Temporary directories *)

(** The path [mkdtemp] settles on is a name of the draw joined to the
    temporary directory, and nothing is at that path. *)
Lemma mkdtemp_draw_fresh (dir suffix prefix : string) (names rest : list string)
    (o : OS) (p : string) :
  Os.mkdtemp_draw dir suffix prefix names o = Some (p, rest) ->
  Os.is_dir o p = false /\ Os.is_file o p = false
  /\ exists n, n ∈ names /\ p = PyPath.join dir (prefix +:+ n +:+ suffix).
Proof.
  induction names as [|n names IH]; simpl; [discriminate |].
  destruct (Os.is_dir o (PyPath.join dir (prefix +:+ n +:+ suffix))) eqn:Hd;
    simpl.
  - intros H. destruct (IH H) as (? & ? & m & ? & ?).
    repeat split; try assumption. exists m. split; [now right | assumption].
  - destruct (Os.is_file o (PyPath.join dir (prefix +:+ n +:+ suffix))) eqn:Hf.
    + intros H. destruct (IH H) as (? & ? & m & ? & ?).
      repeat split; try assumption. exists m. split; [now right | assumption].
    + intros H. injection H as <- <-.
      split; [exact Hd |]. split; [exact Hf |].
      exists n. split; [now left | reflexivity].
Qed.

Lemma mkdir_ok_inv (p : string) (st st' : State) :
  Os.mkdir p st = (Ok tt, st') ->
  self st' = self st /\ Os.is_dir (os st') p = true
  /\ os_atexit (os st') = os_atexit (os st).
Proof.
  unfold Os.mkdir. py_unfold. simpl.
  destruct (_ || _); [discriminate |].
  destruct (negb _); [discriminate |].
  intros H. injection H as <-. split; [reflexivity |]. split; [| reflexivity].
  unfold Os.is_dir, Os.resolve. simpl. apply bool_decide_eq_true. set_solver.
Qed.

(** Lines 96-102, when they run to their end: the working directory is
    the caller's, or a new one in the temporary directory of the system. *)
Lemma setup_working_dir_ok_inv (wd : string) (st st' : State) :
  setup_working_dir st = (Ok wd, st') ->
  working_dir (args (self st')) = Some wd
  /\ Os.is_dir (os st') wd = true
  /\ (working_dir (args (self st)) = Some wd /\ st' = st
      \/ working_dir (args (self st)) = None
         /\ remove_tmp_working_dir (self st') = true
         /\ Os.is_dir (os st) wd = false
         /\ Os.is_file (os st) wd = false
         /\ (exists n, n ∈ os_tmp (os st)
                       /\ wd = PyPath.join (os_tempdir (os st))
                                  ("oit-" +:+ n +:+ ".tmp"))
         /\ os_atexit (os st')
            = os_atexit (os st) ++ [remove_tmp_working_dir_cb]).
Proof.
  unfold setup_working_dir. rewrite bind_get_self.
  destruct (working_dir (args (self st))) as [d |] eqn:Hwd.
  - intros H. apply bind_ok_inv in H as ([] & s1 & Hdir & H).
    injection H as <- <-. unfold assert_dir, Os.isdir in Hdir.
    py_unfold. simpl in Hdir.
    destruct (Os.is_dir (os st) d) eqn:Hd; [| discriminate].
    injection Hdir as <-. split; [exact Hwd |]. split; [exact Hd |].
    left. now split.
  - intros H. apply bind_ok_inv in H as (d & s1 & Htmp & H).
    apply bind_ok_inv in H as ([] & s2 & E2 & H).
    apply bind_ok_inv in H as ([] & s3 & E3 & H).
    apply bind_ok_inv in H as ([] & s4 & E4 & H).
    injection H as <- <-.
    unfold Os.mkdtemp in Htmp. rewrite bind_get_os in Htmp.
    destruct (Os.mkdtemp_draw _ _ _ _ _) as [[p rest] |] eqn:Hdraw;
      [| discriminate].
    apply bind_ok_inv in Htmp as ([] & t1 & T1 & Htmp).
    apply bind_ok_inv in Htmp as ([] & t2 & T2 & Htmp).
    injection Htmp as <- <-.
    apply mkdtemp_draw_fresh in Hdraw as (Hnd & Hnf & n & Hn & Hp).
    apply mkdir_ok_inv in T2 as (S2 & D2 & A2).
    unfold modify_os in T1. injection T1 as <-.
    unfold modify_args, modify_self in E2, E3.
    unfold Os.atexit_register, modify_os in E4.
    injection E2 as <-. injection E3 as <-. injection E4 as <-. simpl in *.
    rewrite S2. simpl. split; [reflexivity |]. split; [exact D2 |].
    right. split; [reflexivity |]. split; [reflexivity |].
    split; [exact Hnd |]. split; [exact Hnf |].
    split; [exists n; now split |]. now rewrite A2.
Qed.

(** Lines 90-139, when they run to their end. *)
Lemma prepare_ok_inv (st st1 : State) (x : string * (string * string * string)) :
  prepare st = (Ok x, st1) ->
  exists (wd : string) (s : State),
    setup_working_dir st = (Ok wd, s)
    /\ workspace_ready wd st1
    /\ remove_tmp_working_dir (self st1) = remove_tmp_working_dir (self s).
Proof.
  unfold prepare. rewrite bind_get_self. intros H.
  apply bind_ok_inv in H as (g & s2 & Hg & H).
  assert (s2 = st) as ->.
  { destruct (group (args (self st))); [now injection Hg as _ <- |].
    rewrite bind_run in Hg. simpl in Hg. discriminate. }
  apply bind_ok_inv in H as ([] & s3 & Hmd & H).
  assert (s3 = st) as ->.
  { unfold assert_dir, Os.isdir in Hmd. py_unfold. simpl in Hmd.
    destruct (Os.is_dir _ _); [now injection Hmd as <- | discriminate]. }
  apply bind_ok_inv in H as (wd & s4 & Hwd & H).
  apply bind_ok_inv in H as ([] & s5 & Hws & H).
  apply bind_ok_inv in H as (dirs & s6 & Hloc & H).
  injection H as _ <-.
  exists wd, s4. split; [exact Hwd |].
  pose proof (setup_working_dir_ok_inv _ _ _ Hwd) as (Hargs & Hdir & _).
  pose proof (setup_workspace_ok_inv _ _ _ Hws) as (W & A & D & F).
  pose proof (preserves_setup_workspace remove_tmp_working_dir
                (fun _ _ => eq_refl) wd s4) as R5.
  rewrite Hws in R5. simpl in R5.
  pose proof (preserves_locate_group ws g s5) as W6.
  pose proof (preserves_locate_group args g s5) as A6.
  pose proof (preserves_locate_group remove_tmp_working_dir g s5) as R6.
  pose proof (adds_locate_group g s5) as O6.
  pose proof (adds_setup_workspace wd s4) as O5.
  rewrite Hloc in W6, A6, R6, O6. rewrite Hws in O5. simpl in *.
  split; [| congruence].
  split; [now rewrite A6, A |]. split.
  { rewrite W6, W. unfold workspace_of.
    now rewrite !(resolve_cwd (os s5) (os s6) _ (proj1 O6)). }
  split; [eapply is_dir_only_adds, is_dir_only_adds; eassumption |].
  split.
  - eapply Forall_impl; [exact D |]. intros d Hd.
    eapply is_dir_only_adds; eassumption.
  - eapply Forall_impl; [exact F |]. intros f Hf.
    eapply is_file_only_adds; eassumption.
Qed.

Lemma workspace_ready_from_group (yaml_load_group : string -> GroupConfig)
    (yaml_load_streams : string -> gmap string string)
    (g gd id rd wd : string) (st1 st' : State) :
  (with_Dir gd (initialize_group yaml_load_group g id rd);;
   finish_initialize yaml_load_streams gd) st1 = (Ok tt, st') ->
  workspace_ready wd st1 ->
  workspace_ready wd st'
  /\ remove_tmp_working_dir (self st') = remove_tmp_working_dir (self st1).
Proof.
  intros Hrun (A & W & D0 & D & F).
  pose proof (adds_from_group yaml_load_group yaml_load_streams g gd id rd st1)
    as O.
  pose proof (preserves_from_group ws
                (fun _ _ => eq_refl) (fun _ _ => eq_refl) (fun _ _ => eq_refl)
                (fun _ _ => eq_refl) (fun _ _ => eq_refl) (fun _ _ => eq_refl)
                (fun _ _ => eq_refl)
                yaml_load_group yaml_load_streams g gd id rd st1) as W'.
  pose proof (preserves_from_group (fun r => working_dir (args r))
                (fun _ _ => eq_refl) (fun _ _ => eq_refl) (fun _ _ => eq_refl)
                (fun _ _ => eq_refl) (fun _ _ => eq_refl) (fun _ _ => eq_refl)
                (fun _ _ => eq_refl)
                yaml_load_group yaml_load_streams g gd id rd st1) as A'.
  pose proof (preserves_from_group remove_tmp_working_dir
                (fun _ _ => eq_refl) (fun _ _ => eq_refl) (fun _ _ => eq_refl)
                (fun _ _ => eq_refl) (fun _ _ => eq_refl) (fun _ _ => eq_refl)
                (fun _ _ => eq_refl)
                yaml_load_group yaml_load_streams g gd id rd st1) as R'.
  rewrite Hrun in O, W', A', R'. simpl in *.
  split; [| exact R'].
  split; [now rewrite A' |]. split.
  { rewrite W', W. unfold workspace_of.
    now rewrite !(resolve_cwd (os st1) (os st') _ (proj1 O)). }
  split; [eapply is_dir_only_adds; eassumption |].
  split.
  - eapply Forall_impl; [exact D |]. intros d Hd.
    eapply is_dir_only_adds; eassumption.
  - eapply Forall_impl; [exact F |]. intros f Hf.
    eapply is_file_only_adds; eassumption.
Qed.

Lemma workspace_after_initialize
    (yaml_load_group : string -> GroupConfig)
    (yaml_load_streams : string -> gmap string string) (st st' : State) :
  initialized (self st) = false ->
  initialize yaml_load_group yaml_load_streams st = (Ok tt, st') ->
  exists wd : string, workspace_ready wd st'.
Proof.
  intros Hflag Hrun.
  destruct (initialize_ok_inv _ _ _ _ Hflag Hrun)
    as (g & gd & id & rd & st1 & Hprep & Hrest).
  destruct (prepare_ok_inv _ _ _ Hprep) as (wd & s & Hwd & Hready & _).
  exists wd.
  exact (proj1 (workspace_ready_from_group _ _ _ _ _ _ _ _ _ Hrest Hready)).
Qed.

(** X5: when [initialize] returns, the workspace is in place: the object
    names a working directory that exists, together with its directories
    [distgits], [distgits-diffs], [brew-logs] and [flags] and its files
    [debug.log] and [record.log]; the attributes [distgits_dir],
    [distgits_diff_dir], [brew_logs_dir], [flags_dir] and the two log paths
    are the joins of the working directory with these names, and the two
    log attributes are these files.  A working directory given by the
    caller is the one used. *)
Theorem initialize_sets_up_workspace
    (yaml_load_group : string -> GroupConfig)
    (yaml_load_streams : string -> gmap string string) (st st' : State) :
  initialized (self st) = false ->
  initialize yaml_load_group yaml_load_streams st = (Ok tt, st') ->
  exists wd : string,
    workspace_ready wd st'
    /\ (forall d, working_dir (args (self st)) = Some d -> wd = d).
Proof.
  intros Hflag Hrun.
  destruct (initialize_ok_inv _ _ _ _ Hflag Hrun)
    as (g & gd & id & rd & st1 & Hprep & Hrest).
  destruct (prepare_ok_inv _ _ _ Hprep) as (wd & s & Hwd & Hready & _).
  exists wd. split.
  - exact (proj1 (workspace_ready_from_group _ _ _ _ _ _ _ _ _ Hrest Hready)).
  - intros d Hd.
    destruct (setup_working_dir_ok_inv _ _ _ Hwd) as (_ & _ & [[H _] | [H _]]);
      congruence.
Qed.

Lemma initialize_sets_up_workspace_witness :
  initialized (self Demo.exclude_b) = false
  /\ Demo.init Demo.exclude_b = (Ok tt, snd (Demo.init Demo.exclude_b))
  /\ workspace_ready "/work" (snd (Demo.init Demo.exclude_b)).
Proof.
  assert (H1 : initialized (self Demo.exclude_b) = false) by reflexivity.
  assert (H2 : Demo.init Demo.exclude_b = (Ok tt, snd (Demo.init Demo.exclude_b)))
    by by_computation.
  split; [exact H1 |]. split; [exact H2 |].
  destruct (initialize_sets_up_workspace Demo.yaml_load_group
              Demo.yaml_load_streams Demo.exclude_b _ H1 H2) as (wd & Hready & Hwd).
  now rewrite <- (Hwd "/work" eq_refl).
Defined.

(** X6: called without a working directory, a returning [initialize] has
    made a new directory [oit-<name>.tmp] in the directory that
    [tempfile.gettempdir()] names, at a path where there was neither a
    directory nor a file before, built the workspace in it, set
    [remove_tmp_working_dir], and registered the removal with [atexit]
    ahead of everything else it registers. *)
Theorem initialize_temporary_working_dir
    (yaml_load_group : string -> GroupConfig)
    (yaml_load_streams : string -> gmap string string) (st st' : State) :
  initialized (self st) = false ->
  working_dir (args (self st)) = None ->
  initialize yaml_load_group yaml_load_streams st = (Ok tt, st') ->
  exists wd name : string,
    name ∈ os_tmp (os st)
    /\ wd = PyPath.join (os_tempdir (os st)) ("oit-" +:+ name +:+ ".tmp")
    /\ Os.is_dir (os st) wd = false
    /\ Os.is_file (os st) wd = false
    /\ workspace_ready wd st'
    /\ remove_tmp_working_dir (self st') = true
    /\ exists l, os_atexit (os st')
                 = os_atexit (os st) ++ remove_tmp_working_dir_cb :: l.
Proof.
  intros Hflag Hnone Hrun.
  destruct (initialize_ok_inv _ _ _ _ Hflag Hrun)
    as (g & gd & id & rd & st1 & Hprep & Hrest).
  destruct (prepare_ok_inv _ _ _ Hprep) as (wd & s & Hwd & Hready & Hrm).
  destruct (workspace_ready_from_group _ _ _ _ _ _ _ _ _ Hrest Hready)
    as [Hready' Hrm'].
  destruct (setup_working_dir_ok_inv _ _ _ Hwd)
    as (_ & _ & [[H _] | (_ & Htmp & Hnd & Hnf & (n & Hn & Hp) & Hat)]);
    [congruence |].
  exists wd, n. split; [exact Hn |]. split; [exact Hp |].
  split; [exact Hnd |]. split; [exact Hnf |]. split; [exact Hready' |].
  split; [congruence |].
  assert (O : os_only_adds (os s) (os st')).
  { apply (os_only_adds_trans _ (os st1)).
    - unfold prepare in Hprep. rewrite bind_get_self in Hprep.
      apply bind_ok_inv in Hprep as (g' & s2 & Hg & H).
      assert (s2 = st) as ->.
      { destruct (group (args (self st))); [now injection Hg as _ <- |].
        rewrite bind_run in Hg. simpl in Hg. discriminate. }
      apply bind_ok_inv in H as ([] & s3 & Hmd & H).
      assert (s3 = st) as ->.
      { unfold assert_dir, Os.isdir in Hmd. py_unfold. simpl in Hmd.
        destruct (Os.is_dir _ _); [now injection Hmd as <- | discriminate]. }
      apply bind_ok_inv in H as (wd' & s4 & Hwd' & H).
      rewrite Hwd in Hwd'. injection Hwd' as <- <-.
      apply bind_ok_inv in H as ([] & s5 & Hws & H).
      apply bind_ok_inv in H as (dirs & s6 & Hloc & H).
      injection H as _ _ <-.
      pose proof (adds_setup_workspace wd s) as O5.
      pose proof (adds_locate_group g' s5) as O6.
      rewrite Hws in O5. rewrite Hloc in O6.
      exact (os_only_adds_trans _ _ _ O5 O6).
    - pose proof (adds_from_group yaml_load_group yaml_load_streams
                    g gd id rd st1) as O.
      now rewrite Hrest in O. }
  destruct O as (_ & _ & _ & _ & l & Hl).
  exists l. now rewrite Hl, Hat, <- app_assoc.
Qed.

(** With [/work] as the temporary directory of the system, the working
    directory is made there. *)
Lemma initialize_temporary_working_dir_witness :
  initialized (self Cases.temporary) = false
  /\ working_dir (args (self Cases.temporary)) = None
  /\ os_tempdir (os Cases.temporary) = "/work"
  /\ Demo.init Cases.temporary = (Ok tt, snd (Demo.init Cases.temporary))
  /\ workspace_ready "/work/oit-k3j2.tmp" (snd (Demo.init Cases.temporary)).
Proof.
  assert (H1 : initialized (self Cases.temporary) = false) by reflexivity.
  assert (H2 : working_dir (args (self Cases.temporary)) = None) by reflexivity.
  assert (H3 : Demo.init Cases.temporary
               = (Ok tt, snd (Demo.init Cases.temporary))) by by_computation.
  split; [exact H1 |]. split; [exact H2 |]. split; [reflexivity |].
  split; [exact H3 |].
  destruct (initialize_temporary_working_dir Demo.yaml_load_group
              Demo.yaml_load_streams Cases.temporary _ H1 H2 H3)
    as (wd & n & Hn & Hwd & _ & _ & Hready & _).
  assert (Hname : n = "k3j2").
  { change (os_tmp (os Cases.temporary)) with ["k3j2"] in Hn.
    now apply list_elem_of_singleton in Hn. }
  subst n. change (wd = "/work/oit-k3j2.tmp") in Hwd. now subst wd.
Defined.

(** ** [group.yml] *)

(** Lines 130-139, as part of [prepare]: the three directories are built
    from the metadata directory and the group, and the group directory
    exists. *)
Lemma prepare_group_dir (st st1 : State) (g gd id rd : string) :
  prepare st = (Ok (g, (gd, id, rd)), st1) ->
  group (args (self st)) = Some g
  /\ gd = PyPath.join (PyPath.join (metadata_dir (args (self st))) "groups") g
  /\ id = PyPath.join gd "images"
  /\ rd = PyPath.join gd "rpms"
  /\ Os.is_dir (os st1) gd = true.
Proof.
  unfold prepare. rewrite bind_get_self. intros H.
  apply bind_ok_inv in H as (g' & s2 & Hg & H).
  assert (s2 = st /\ group (args (self st)) = Some g') as [-> Hgroup].
  { destruct (group (args (self st))); [now injection Hg as -> -> |].
    rewrite bind_run in Hg. simpl in Hg. discriminate. }
  apply bind_ok_inv in H as ([] & s3 & Hmd & H).
  assert (s3 = st) as ->.
  { unfold assert_dir, Os.isdir in Hmd. py_unfold. simpl in Hmd.
    destruct (Os.is_dir _ _); [now injection Hmd as <- | discriminate]. }
  apply bind_ok_inv in H as (wd & s4 & Hwd & H).
  apply bind_ok_inv in H as ([] & s5 & Hws & H).
  apply bind_ok_inv in H as (dirs & s6 & Hloc & H).
  injection H as -> -> ->.
  pose proof (preserves_setup_working_dir (fun r => metadata_dir (args r))
                (fun _ _ => eq_refl) (fun _ _ => eq_refl) st) as M4.
  pose proof (preserves_setup_workspace (fun r => metadata_dir (args r))
                (fun _ _ => eq_refl) wd s4) as M5.
  rewrite Hwd in M4. rewrite Hws in M5. simpl in M4, M5.
  unfold locate_group in Hloc. rewrite bind_get_self in Hloc.
  rewrite M5, M4 in Hloc.
  set (d := PyPath.join (PyPath.join (metadata_dir (args (self st))) "groups") g)
    in *.
  apply bind_ok_inv in Hloc as ([] & t1 & T1 & Hloc).
  apply bind_ok_inv in Hloc as ([] & t2 & T2 & Hloc).
  apply bind_ok_inv in Hloc as ([] & t3 & T3 & Hloc).
  apply bind_ok_inv in Hloc as ([] & t4 & T4 & Hloc).
  injection Hloc as <- <- <- <-.
  assert (Hd : Os.is_dir (os t3) d = true).
  { unfold assert_dir, Os.isdir in T3. py_unfold. simpl in T3.
    destruct (Os.is_dir (os t2) d) eqn:E; [| discriminate].
    now injection T3 as <-. }
  repeat split; try assumption.
  exact (run_keeps_dir _ _ _ _ _ (adds_info _ _) T4 Hd).
Qed.

Lemma restore_os_cwd (o : OS) (d : string) :
  set_os_cwd (os_cwd o) (set_os_cwd d o) = o.
Proof. now destruct o. Qed.

(** X7: once lines 90-139 have run, a [group.yml] that is missing from the
    group directory, or whose name is not the group asked for, stops
    [initialize] with [IOError]: in the first case the state is the one
    line 139 left, in the second [group_config] holds the loaded document
    and nothing else has changed; no image or rpm is registered and the
    process is back in its working directory. *)
Theorem group_yml_must_name_the_group
    (yaml_load_group : string -> GroupConfig)
    (yaml_load_streams : string -> gmap string string)
    (st st1 : State) (g gd id rd : string) :
  initialized (self st) = false ->
  prepare st = (Ok (g, (gd, id, rd)), st1) ->
  (os_files (os st1) !! PyPath.join (Os.resolve (os st1) gd) "group.yml" = None ->
   initialize yaml_load_group yaml_load_streams st
   = (Raise (IOError "No such file or directory"), st1))
  /\ (forall text : string,
        os_files (os st1) !! PyPath.join (Os.resolve (os st1) gd) "group.yml"
        = Some text ->
        gc_name (yaml_load_group text) <> Some g ->
        initialize yaml_load_group yaml_load_streams st
        = (Raise (IOError "Name in group.yml does not match group name. Someone may have copied this group without updating group.yml (make sure to check branch)"),
           {| os := os st1;
              self := set_group_config (Some (yaml_load_group text))
                        (self st1) |})).
Proof.
  intros Hflag Hprep.
  destruct (prepare_group_dir _ _ _ _ _ _ Hprep) as (_ & _ & _ & _ & Hdir).
  assert (Hrun : forall r st5,
            load_group_yml yaml_load_group g
              {| os := set_os_cwd (Os.resolve (os st1) gd) (os st1);
                 self := self st1 |} = (Raise r, st5) ->
            initialize yaml_load_group yaml_load_streams st
            = (Raise r, leave_Dir (os_cwd (os st1)) st5)).
  { intros r st5 Hload. unfold initialize. rewrite bind_get_self, Hflag.
    rewrite (bind_ok _ _ _ _ _ Hprep). cbv beta iota.
    rewrite bind_run, (with_Dir_entered _ _ _ _ (chdir_ok _ _ Hdir)).
    unfold initialize_group.
    now rewrite (bind_raise _ _ _ _ _ Hload). }
  split.
  - intros Hfile. erewrite Hrun.
    2:{ unfold load_group_yml, Os.read_file. py_unfold. simpl.
        change (Os.resolve (set_os_cwd (Os.resolve (os st1) gd) (os st1))
                  "group.yml")
          with (PyPath.join (Os.resolve (os st1) gd) "group.yml").
        rewrite Hfile. reflexivity. }
    unfold leave_Dir. simpl. rewrite restore_os_cwd. now destruct st1.
  - intros text Hfile Hname. erewrite Hrun.
    2:{ unfold load_group_yml, Os.read_file. py_unfold. simpl.
        change (Os.resolve (set_os_cwd (Os.resolve (os st1) gd) (os st1))
                  "group.yml")
          with (PyPath.join (Os.resolve (os st1) gd) "group.yml").
        rewrite Hfile. simpl.
        rewrite bool_decide_eq_false_2 by exact Hname. reflexivity. }
    unfold leave_Dir. simpl. now rewrite restore_os_cwd.
Qed.

Lemma group_yml_must_name_the_group_witness :
  initialized (self (Cases.group_h Cases.tree_bare)) = false
  /\ fst (prepare (Cases.group_h Cases.tree_bare))
     = Ok ("h", ("/meta/groups/h", "/meta/groups/h/images", "/meta/groups/h/rpms"))
  /\ fst (Demo.init (Cases.group_h Cases.tree_bare))
     = Raise (IOError "No such file or directory")
  /\ fst (Demo.init (Cases.group_h Cases.tree_copied))
     = Raise (IOError "Name in group.yml does not match group name. Someone may have copied this group without updating group.yml (make sure to check branch)").
Proof.
  assert (H1 : initialized (self (Cases.group_h Cases.tree_bare)) = false)
    by reflexivity.
  assert (H2 : prepare (Cases.group_h Cases.tree_bare)
               = (Ok ("h", ("/meta/groups/h", "/meta/groups/h/images",
                            "/meta/groups/h/rpms")),
                  snd (prepare (Cases.group_h Cases.tree_bare))))
    by by_computation.
  assert (H3 : initialized (self (Cases.group_h Cases.tree_copied)) = false)
    by reflexivity.
  assert (H4 : prepare (Cases.group_h Cases.tree_copied)
               = (Ok ("h", ("/meta/groups/h", "/meta/groups/h/images",
                            "/meta/groups/h/rpms")),
                  snd (prepare (Cases.group_h Cases.tree_copied))))
    by by_computation.
  split; [exact H1 |]. split; [now rewrite H2 |]. split.
  - unfold Demo.init.
    rewrite (proj1 (group_yml_must_name_the_group Demo.yaml_load_group
                      Demo.yaml_load_streams _ _ _ _ _ _ H1 H2));
      [reflexivity | by_computation].
  - unfold Demo.init.
    rewrite (proj2 (group_yml_must_name_the_group Demo.yaml_load_group
                      Demo.yaml_load_streams _ _ _ _ _ _ H3 H4) "name: g");
      [reflexivity | by_computation | discriminate].
Defined.

(** ** Defaults of [group.yml] *)

(** X8: whatever [merge_group_defaults] prints and however it ends, the
    command line wins over [group.yml]: [include], [exclude] and [branch]
    keep a value the caller gave and take the one of [group.yml] only when
    the caller gave none; [optional_include] and the other arguments are
    never touched. *)
Theorem command_line_wins_over_group_yml (gc : GroupConfig) (st : State) :
  let a := args (self st) in
  let a' := args (self (snd (merge_group_defaults gc st))) in
  include a' = effective (include a) (gc_includes gc)
  /\ exclude a' = effective (exclude a) (gc_excludes gc)
  /\ branch a' = match branch a with
                 | Some b => Some b
                 | None => gc_branch gc
                 end
  /\ optional_include a' = optional_include a
  /\ group a' = group a
  /\ metadata_dir a' = metadata_dir a
  /\ working_dir a' = working_dir a
  /\ verbose a' = verbose a.
Proof.
  unfold merge_group_defaults. py_unfold. simpl.
  destruct (exclude (args (self st))) as [e |] eqn:He,
    (gc_excludes gc) as [ge |], (include (args (self st))) as [i |] eqn:Hi,
    (gc_includes gc) as [gi |], (branch (args (self st))) as [b |] eqn:Hb,
    (gc_branch gc) as [gb |];
    repeat progress (simpl; rewrite ?He, ?Hi, ?Hb);
    repeat match goal with
      | |- context [snd (info ?m None ?s)] =>
          change (snd (info m None s)) with (logged m s); rewrite logged_self
      end;
    repeat progress (simpl; rewrite ?He, ?Hi, ?Hb); repeat split.
Qed.

(** ** More on the selection *)

Lemma selective_false (I O names : list string) :
  (forall n, n ∈ names -> (n ∉ I) /\ (n ∉ O)) -> selective I O names = false.
Proof.
  intros H. unfold selective.
  assert (HI : matched I names = []).
  { apply elem_of_nil_inv. intros n [Hi Hn]%elem_of_matched.
    now destruct (H n Hn). }
  assert (HO : matched O names = []).
  { apply elem_of_nil_inv. intros n [Ho Hn]%elem_of_matched.
    now destruct (H n Hn). }
  now rewrite HI, HO.
Qed.

Lemma admitted_not_selective (I O E names : list string) :
  selective I O names = false ->
  admitted I O E names = filter (fun n => n ∉ E) names.
Proof.
  intros Hsel. unfold admitted. apply list_filter_iff. intros n.
  unfold admits, passes_include. rewrite Hsel. simpl.
  destruct (decide (n ∈ E)) as [H | H].
  - rewrite bool_decide_eq_true_2 by exact H. simpl. tauto.
  - rewrite bool_decide_eq_false_2 by exact H. simpl. tauto.
Qed.

(** X9: the include lists restrict a kind only when they name one of its
    own directories.  When no image directory is named by [include] or
    [optional_include] (they name rpms only, say), every image directory
    that is not excluded is registered, as if no include list had been
    given; and the same for rpms. *)
Theorem include_of_other_kind_does_not_restrict
    (yaml_load_group : string -> GroupConfig)
    (yaml_load_streams : string -> gmap string string)
    (st st4 : State) (old gd id rd : string) (I O E : list string) :
  reaches_selection yaml_load_group st old gd id rd st4 ->
  include (args (self st4)) = Some I ->
  optional_include (args (self st4)) = Some O ->
  exclude (args (self st4)) = Some E ->
  Os.is_dir (os st4) id = true ->
  Os.is_dir (os st4) rd = true ->
  len_gt_0 (missed I (listing (os st4) id) (listing (os st4) rd)) = false ->
  let st' := snd (initialize yaml_load_group yaml_load_streams st) in
  let images := listing (os st4) id in
  let rpms := listing (os st4) rd in
  ((forall n, n ∈ images -> (n ∉ I) /\ (n ∉ O)) ->
   image_map (self st')
   = with_images (filter (fun n => n ∉ E) images) (image_map (self st)))
  /\ ((forall n, n ∈ rpms -> (n ∉ I) /\ (n ∉ O)) ->
      rpm_map (self st')
      = with_rpms (filter (fun n => n ∉ E) rpms) (rpm_map (self st))).
Proof.
  intros Hreach HI HO HE Hid Hrd Hmiss st' images rpms.
  subst st' images rpms.
  destruct (initialize_selected yaml_load_group yaml_load_streams st st4
              old gd id rd I O E Hreach HI HO HE Hid Hrd Hmiss)
    as (Him & Hrm & _ & _).
  split; intros Hnone.
  - rewrite Him.
    now rewrite (admitted_not_selective I O E _ (selective_false I O _ Hnone)).
  - rewrite Hrm.
    now rewrite (admitted_not_selective I O E _ (selective_false I O _ Hnone)).
Qed.

(** [include=["x"]] names the rpm only: the three images are registered
    all the same. *)
Lemma include_of_other_kind_does_not_restrict_witness :
  reaches_selection Demo.yaml_load_group Cases.include_x "/"
    Demo.group_dir Demo.images_dir Demo.rpms_dir
    (Demo.at_selection Cases.include_x)
  /\ include (args (self (Demo.at_selection Cases.include_x))) = Some ["x"]
  /\ dom (image_map (self (snd (Demo.init Cases.include_x))))
     = {[ "a"; "b"; "c" ]}.
Proof.
  assert (Hreach : reaches_selection Demo.yaml_load_group
                     Cases.include_x "/" Demo.group_dir
                     Demo.images_dir Demo.rpms_dir
                     (Demo.at_selection Cases.include_x))
    by (split; by_computation).
  assert (HI : include (args (self (Demo.at_selection Cases.include_x)))
               = Some ["x"]) by by_computation.
  assert (HO : optional_include (args (self (Demo.at_selection Cases.include_x)))
               = Some []) by by_computation.
  assert (HE : exclude (args (self (Demo.at_selection Cases.include_x)))
               = Some []) by by_computation.
  assert (Hid : Os.is_dir (os (Demo.at_selection Cases.include_x))
                  Demo.images_dir = true) by by_computation.
  assert (Hrd : Os.is_dir (os (Demo.at_selection Cases.include_x))
                  Demo.rpms_dir = true) by by_computation.
  assert (Hmiss : len_gt_0 (missed ["x"]
                    (listing (os (Demo.at_selection Cases.include_x))
                       Demo.images_dir)
                    (listing (os (Demo.at_selection Cases.include_x))
                       Demo.rpms_dir)) = false) by by_computation.
  assert (Hnone : forall n,
            n ∈ listing (os (Demo.at_selection Cases.include_x)) Demo.images_dir ->
            (n ∉ ["x"]) /\ (n ∉ ([] : list string))).
  { intros n Hn. split; [| apply not_elem_of_nil].
    intros ->%list_elem_of_singleton. revert Hn. by_computation. }
  split; [exact Hreach |]. split; [exact HI |]. unfold Demo.init.
  rewrite (proj1 (include_of_other_kind_does_not_restrict Demo.yaml_load_group
                    Demo.yaml_load_streams Cases.include_x
                    (Demo.at_selection Cases.include_x) "/" Demo.group_dir
                    Demo.images_dir Demo.rpms_dir ["x"] [] []
                    Hreach HI HO HE Hid Hrd Hmiss) Hnone).
  by_computation.
Defined.

(** X10: a name of [optional_include] that is neither an image nor an rpm
    directory does not stop [initialize]: one console line reports the
    names of [optional_include] found nowhere, each once, and the
    selection goes on to register what it admits. *)
Theorem missing_optional_include_is_reported
    (yaml_load_group : string -> GroupConfig)
    (yaml_load_streams : string -> gmap string string)
    (st st4 : State) (old gd id rd : string) (I O E : list string) (q : string) :
  reaches_selection yaml_load_group st old gd id rd st4 ->
  include (args (self st4)) = Some I ->
  optional_include (args (self st4)) = Some O ->
  exclude (args (self st4)) = Some E ->
  Os.is_dir (os st4) id = true ->
  Os.is_dir (os st4) rd = true ->
  len_gt_0 (missed I (listing (os st4) id) (listing (os st4) rd)) = false ->
  q ∈ O -> q ∉ listing (os st4) id -> q ∉ listing (os st4) rd ->
  let st' := snd (initialize yaml_load_group yaml_load_streams st) in
  let images := listing (os st4) id in
  let rpms := listing (os st4) rd in
  exists missing : list string,
    ("The following images or rpms were not found, but optional: "
       +:+ PyStr.join ", " missing) ∈ os_console (os st')
    /\ q ∈ missing
    /\ NoDup missing
    /\ (forall n : string,
          n ∈ missing <-> n ∈ O /\ (n ∉ images) /\ (n ∉ rpms))
    /\ image_map (self st')
       = with_images (admitted I O E images) (image_map (self st))
    /\ rpm_map (self st')
       = with_rpms (admitted I O E rpms) (rpm_map (self st)).
Proof.
  intros Hreach HI HO HE Hid Hrd Hmiss Hq Hqi Hqr st' images rpms.
  subst st' images rpms.
  destruct (initialize_selected yaml_load_group yaml_load_streams st st4
              old gd id rd I O E Hreach HI HO HE Hid Hrd Hmiss)
    as (Him & Hrm & Hcon & _).
  exists (missed O (listing (os st4) id) (listing (os st4) rd)).
  assert (Hin : q ∈ missed O (listing (os st4) id) (listing (os st4) rd))
    by (apply elem_of_missed; repeat split; assumption).
  split.
  { rewrite Hcon. rewrite (len_gt_0_elem _ _ Hin).
    rewrite !elem_of_app. right. left. apply list_elem_of_here. }
  split; [exact Hin |]. split; [apply NoDup_missed |].
  split; [intros n; apply elem_of_missed |].
  split; assumption.
Qed.

Lemma missing_optional_include_is_reported_witness :
  reaches_selection Demo.yaml_load_group Cases.optional_q "/"
    Demo.group_dir Demo.images_dir Demo.rpms_dir
    (Demo.at_selection Cases.optional_q)
  /\ "q" ∈ ["q"]
  /\ exists missing : list string,
       ("The following images or rpms were not found, but optional: "
          +:+ PyStr.join ", " missing)
       ∈ os_console (os (snd (Demo.init Cases.optional_q)))
       /\ "q" ∈ missing.
Proof.
  assert (Hreach : reaches_selection Demo.yaml_load_group
                     Cases.optional_q "/" Demo.group_dir
                     Demo.images_dir Demo.rpms_dir
                     (Demo.at_selection Cases.optional_q))
    by (split; by_computation).
  assert (HI : include (args (self (Demo.at_selection Cases.optional_q)))
               = Some []) by by_computation.
  assert (HO : optional_include (args (self (Demo.at_selection Cases.optional_q)))
               = Some ["q"]) by by_computation.
  assert (HE : exclude (args (self (Demo.at_selection Cases.optional_q)))
               = Some []) by by_computation.
  assert (Hid : Os.is_dir (os (Demo.at_selection Cases.optional_q))
                  Demo.images_dir = true) by by_computation.
  assert (Hrd : Os.is_dir (os (Demo.at_selection Cases.optional_q))
                  Demo.rpms_dir = true) by by_computation.
  assert (Hmiss : len_gt_0 (missed []
                    (listing (os (Demo.at_selection Cases.optional_q))
                       Demo.images_dir)
                    (listing (os (Demo.at_selection Cases.optional_q))
                       Demo.rpms_dir)) = false) by by_computation.
  assert (Hq : "q" ∈ ["q"]) by by_computation.
  assert (Hqi : "q" ∉ listing (os (Demo.at_selection Cases.optional_q))
                        Demo.images_dir) by by_computation.
  assert (Hqr : "q" ∉ listing (os (Demo.at_selection Cases.optional_q))
                        Demo.rpms_dir) by by_computation.
  split; [exact Hreach |]. split; [exact Hq |].
  destruct (missing_optional_include_is_reported Demo.yaml_load_group
              Demo.yaml_load_streams Cases.optional_q
              (Demo.at_selection Cases.optional_q) "/" Demo.group_dir
              Demo.images_dir Demo.rpms_dir [] ["q"] [] "q"
              Hreach HI HO HE Hid Hrd Hmiss Hq Hqi Hqr)
    as (missing & Hcon & Hin & _).
  exists missing. split; assumption.
Defined.

Lemma with_images_empty (l : list string) :
  with_images l ∅ = ∅ <-> l = [].
Proof.
  split; [| now intros ->].
  destruct l as [|n l]; [reflexivity |]. intros H.
  pose proof (with_images_lookup (n :: l) ∅ n) as Hn.
  rewrite H, lookup_empty, bool_decide_eq_true_2 in Hn by left. discriminate.
Qed.

Lemma with_rpms_empty (l : list string) :
  with_rpms l ∅ = ∅ <-> l = [].
Proof.
  split; [| now intros ->].
  destruct l as [|n l]; [reflexivity |]. intros H.
  pose proof (with_rpms_lookup (n :: l) ∅ n) as Hn.
  rewrite H, lookup_empty, bool_decide_eq_true_2 in Hn by left. discriminate.
Qed.

(** X11: on a fresh object [initialize], once the selection has run,
    returns exactly when at least one image or rpm was admitted; when
    every discovered directory was filtered out it raises the [IOError]
    of line 249, naming the group directory. *)
Theorem initialize_needs_an_image_or_rpm
    (yaml_load_group : string -> GroupConfig)
    (yaml_load_streams : string -> gmap string string)
    (st st4 : State) (old gd id rd : string) (I O E : list string) :
  reaches_selection yaml_load_group st old gd id rd st4 ->
  include (args (self st4)) = Some I ->
  optional_include (args (self st4)) = Some O ->
  exclude (args (self st4)) = Some E ->
  Os.is_dir (os st4) id = true ->
  Os.is_dir (os st4) rd = true ->
  len_gt_0 (missed I (listing (os st4) id) (listing (os st4) rd)) = false ->
  image_map (self st) = ∅ ->
  rpm_map (self st) = ∅ ->
  let images := listing (os st4) id in
  let rpms := listing (os st4) rd in
  (fst (initialize yaml_load_group yaml_load_streams st) = Ok tt
   <-> exists n, n ∈ admitted I O E images \/ n ∈ admitted I O E rpms)
  /\ (admitted I O E images = [] -> admitted I O E rpms = [] ->
      fst (initialize yaml_load_group yaml_load_streams st)
      = Raise (IOError ("No image or rpm metadata directories found within: "
                          +:+ gd))).
Proof.
  intros Hreach HI HO HE Hid Hrd Hmiss Him0 Hrm0 images rpms.
  destruct (initialize_selected yaml_load_group yaml_load_streams st st4
              old gd id rd I O E Hreach HI HO HE Hid Hrd Hmiss)
    as (Him & Hrm & _ & Hout).
  rewrite Him, Hrm, Him0, Hrm0 in Hout. rewrite Hout. clear Hout Him Hrm.
  fold images rpms. clearbody images rpms.
  assert (Hzero : (size (with_images (admitted I O E images) ∅)
                   + size (with_rpms (admitted I O E rpms) ∅) =? 0)%nat = true
                  <-> admitted I O E images = [] /\ admitted I O E rpms = []).
  { rewrite Nat.eqb_eq, <- with_images_empty, <- with_rpms_empty.
    rewrite <- !map_size_empty_iff. lia. }
  destruct (_ =? 0)%nat.
  - destruct (proj1 Hzero eq_refl) as [Hi Hr]. split; [| reflexivity].
    split; [discriminate |].
    intros [n [Hn | Hn]]; [rewrite Hi in Hn | rewrite Hr in Hn]; inversion Hn.
  - split.
    + split; [intros _ | reflexivity].
      destruct (admitted I O E images) as [|n l].
      * destruct (admitted I O E rpms) as [|n l].
        -- discriminate (proj2 Hzero (conj eq_refl eq_refl)).
        -- exists n. right. left.
      * exists n. left. left.
    + intros Hi Hr. discriminate (proj2 Hzero (conj Hi Hr)).
Qed.

Lemma initialize_needs_an_image_or_rpm_witness :
  reaches_selection Demo.yaml_load_group Cases.all_excluded "/"
    Demo.group_dir Demo.images_dir Demo.rpms_dir
    (Demo.at_selection Cases.all_excluded)
  /\ exclude (args (self (Demo.at_selection Cases.all_excluded)))
     = Some ["a"; "b"; "c"; "x"]
  /\ fst (Demo.init Cases.all_excluded)
     = Raise (IOError "No image or rpm metadata directories found within: /meta/groups/g").
Proof.
  assert (Hreach : reaches_selection Demo.yaml_load_group
                     Cases.all_excluded "/" Demo.group_dir
                     Demo.images_dir Demo.rpms_dir
                     (Demo.at_selection Cases.all_excluded))
    by (split; by_computation).
  assert (HI : include (args (self (Demo.at_selection Cases.all_excluded)))
               = Some []) by by_computation.
  assert (HO : optional_include (args (self (Demo.at_selection Cases.all_excluded)))
               = Some []) by by_computation.
  assert (HE : exclude (args (self (Demo.at_selection Cases.all_excluded)))
               = Some ["a"; "b"; "c"; "x"]) by by_computation.
  assert (Hid : Os.is_dir (os (Demo.at_selection Cases.all_excluded))
                  Demo.images_dir = true) by by_computation.
  assert (Hrd : Os.is_dir (os (Demo.at_selection Cases.all_excluded))
                  Demo.rpms_dir = true) by by_computation.
  assert (Hmiss : len_gt_0 (missed []
                    (listing (os (Demo.at_selection Cases.all_excluded))
                       Demo.images_dir)
                    (listing (os (Demo.at_selection Cases.all_excluded))
                       Demo.rpms_dir)) = false) by by_computation.
  assert (Him0 : image_map (self Cases.all_excluded) = ∅) by reflexivity.
  assert (Hrm0 : rpm_map (self Cases.all_excluded) = ∅) by reflexivity.
  split; [exact Hreach |]. split; [exact HE |].
  unfold Demo.init.
  rewrite (proj2 (initialize_needs_an_image_or_rpm Demo.yaml_load_group
                    Demo.yaml_load_streams Cases.all_excluded
                    (Demo.at_selection Cases.all_excluded) "/" Demo.group_dir
                    Demo.images_dir Demo.rpms_dir [] [] ["a"; "b"; "c"; "x"]
                    Hreach HI HO HE Hid Hrd Hmiss Him0 Hrm0));
    [reflexivity | by_computation | by_computation].
Defined.

(** ** The registered handles *)

Lemma with_images_list_to_map (l : list string) :
  NoDup l ->
  with_images l ∅
  = list_to_map ((fun n => (n, mkImageMetadata n n)) <$> l).
Proof.
  intros Hl. apply map_eq. intros n.
  assert (Hfst : ((fun n => (n, mkImageMetadata n n)) <$> l).*1 = l).
  { rewrite <- list_fmap_compose. rewrite <- (list_fmap_id l) at 2.
    now apply list_fmap_ext. }
  rewrite with_images_lookup, lookup_empty.
  destruct (decide (n ∈ l)) as [Hn | Hn].
  - rewrite bool_decide_eq_true_2 by exact Hn. symmetry.
    apply elem_of_list_to_map_1; [now rewrite Hfst |].
    apply list_elem_of_fmap. now exists n.
  - rewrite bool_decide_eq_false_2 by exact Hn. symmetry.
    apply not_elem_of_list_to_map_1. now rewrite Hfst.
Qed.

(** X12: on a fresh object, after the selection has run, the image
    registry answers exactly for the admitted image directories:
    [resolve_image] returns the handle made from the name for an admitted
    name, and for any other name raises [IOError] when [required] and
    returns [None] otherwise; [images()] returns these handles, each once. *)
Theorem registered_images_are_the_admitted_ones
    (yaml_load_group : string -> GroupConfig)
    (yaml_load_streams : string -> gmap string string)
    (st st4 : State) (old gd id rd : string) (I O E : list string) :
  reaches_selection yaml_load_group st old gd id rd st4 ->
  include (args (self st4)) = Some I ->
  optional_include (args (self st4)) = Some O ->
  exclude (args (self st4)) = Some E ->
  Os.is_dir (os st4) id = true ->
  Os.is_dir (os st4) rd = true ->
  len_gt_0 (missed I (listing (os st4) id) (listing (os st4) rd)) = false ->
  image_map (self st) = ∅ ->
  let st' := snd (initialize yaml_load_group yaml_load_streams st) in
  let images := admitted I O E (listing (os st4) id) in
  (forall (n : string) (required : bool),
     resolve_image n required st'
     = if bool_decide (n ∈ images) then (Ok (Some (mkImageMetadata n n)), st')
       else if required then
         (Raise (IOError
            ("Unable to find image metadata in group / included images: "
               +:+ n)), st')
       else (Ok None, st'))
  /\ exists l : list ImageMetadata,
       Rt.images st' = (Ok l, st')
       /\ l ≡ₚ (fun n => mkImageMetadata n n) <$> images.
Proof.
  intros Hreach HI HO HE Hid Hrd Hmiss Him0 st' images.
  destruct (initialize_selected yaml_load_group yaml_load_streams st st4
              old gd id rd I O E Hreach HI HO HE Hid Hrd Hmiss)
    as (Him & _ & _ & _).
  fold st' images in Him. rewrite Him0 in Him. split.
  - intros n required. unfold resolve_image. rewrite bind_get_self, Him.
    rewrite with_images_lookup, lookup_empty.
    destruct (bool_decide (n ∈ images)); [reflexivity |].
    now destruct required.
  - exists (snd <$> map_to_list (image_map (self st'))).
    split; [reflexivity |]. rewrite Him.
    assert (Hnd : NoDup images) by apply NoDup_admitted, NoDup_listing.
    rewrite (with_images_list_to_map images Hnd).
    rewrite map_to_list_to_map.
    + rewrite <- list_fmap_compose. reflexivity.
    + rewrite <- list_fmap_compose.
      replace (fst ∘ (fun n => (n, mkImageMetadata n n)) <$> images)
        with images; [exact Hnd |].
      rewrite <- (list_fmap_id images) at 1. now apply list_fmap_ext.
Qed.

Lemma registered_images_are_the_admitted_ones_witness :
  reaches_selection Demo.yaml_load_group Demo.include_a_exclude_b "/"
    Demo.group_dir Demo.images_dir Demo.rpms_dir
    (Demo.at_selection Demo.include_a_exclude_b)
  /\ fst (resolve_image "a" true (snd (Demo.init Demo.include_a_exclude_b)))
     = Ok (Some (mkImageMetadata "a" "a"))
  /\ fst (resolve_image "b" false (snd (Demo.init Demo.include_a_exclude_b)))
     = Ok None.
Proof.
  assert (Hreach : reaches_selection Demo.yaml_load_group
                     Demo.include_a_exclude_b "/" Demo.group_dir
                     Demo.images_dir Demo.rpms_dir
                     (Demo.at_selection Demo.include_a_exclude_b))
    by (split; by_computation).
  assert (HI : include (args (self (Demo.at_selection Demo.include_a_exclude_b)))
               = Some ["a"]) by by_computation.
  assert (HO : optional_include
                 (args (self (Demo.at_selection Demo.include_a_exclude_b)))
               = Some []) by by_computation.
  assert (HE : exclude (args (self (Demo.at_selection Demo.include_a_exclude_b)))
               = Some ["b"]) by by_computation.
  assert (Hid : Os.is_dir (os (Demo.at_selection Demo.include_a_exclude_b))
                  Demo.images_dir = true) by by_computation.
  assert (Hrd : Os.is_dir (os (Demo.at_selection Demo.include_a_exclude_b))
                  Demo.rpms_dir = true) by by_computation.
  assert (Hmiss : len_gt_0 (missed ["a"]
                    (listing (os (Demo.at_selection Demo.include_a_exclude_b))
                       Demo.images_dir)
                    (listing (os (Demo.at_selection Demo.include_a_exclude_b))
                       Demo.rpms_dir)) = false) by by_computation.
  assert (Him0 : image_map (self Demo.include_a_exclude_b) = ∅) by reflexivity.
  split; [exact Hreach |].
  pose proof (proj1 (registered_images_are_the_admitted_ones
                       Demo.yaml_load_group
                       Demo.yaml_load_streams Demo.include_a_exclude_b
                       (Demo.at_selection Demo.include_a_exclude_b) "/"
                       Demo.group_dir Demo.images_dir Demo.rpms_dir
                       ["a"] [] ["b"] Hreach HI HO HE Hid Hrd Hmiss Him0))
    as Hres.
  unfold Demo.init. split.
  - rewrite (Hres "a" true). by_computation.
  - rewrite (Hres "b" false). by_computation.
Defined.

(** ** The logger *)

Lemma info_runs (msg : string) (st : State) :
  verbose (args (self st)) = false \/ log_ready st ->
  info msg None st = (Ok tt, logged msg st).
Proof.
  intros [V | Hready]; [| now apply info_ok].
  unfold logged, info. py_unfold. simpl. now rewrite V.
Qed.

(** X13: [info] prints its message on the console exactly once on every
    path and never changes the object.  Without [verbose] that is all it
    does: the debug detail is dropped and no file is written.  With
    [verbose] the message, with its debug detail, is also appended as one
    line to the debug log; when the debug log is not open yet (before
    [initialize]) the call raises [AttributeError] after printing. *)
Theorem info_prints_once_and_logs_when_verbose
    (msg : string) (debug : option string) (st : State) :
  let v := verbose (args (self st)) in
  let text := info_text msg debug v in
  let st' := snd (info msg debug st) in
  os_console (os st') = os_console (os st) ++ [text]
  /\ self st' = self st
  /\ os_dirs (os st') = os_dirs (os st)
  /\ (if v then
        match debug_log (ws (self st)) with
        | Some f =>
            fst (info msg debug st) = Ok tt
            /\ os_files (os st')
               = <[ f := default "" (os_files (os st) !! f)
                         +:+ text +:+ String PyStr.LF "" ]> (os_files (os st))
        | None =>
            fst (info msg debug st) = Raise AttributeError
            /\ os_files (os st') = os_files (os st)
        end
      else fst (info msg debug st) = Ok tt
           /\ os_files (os st') = os_files (os st)).
Proof.
  unfold info, log_verbose, info_text, Os.echo, Os.write. py_unfold. simpl.
  destruct (verbose (args (self st))) eqn:V; simpl.
  - destruct debug as [d |]; simpl; rewrite V; simpl;
      destruct (debug_log (ws (self st))); simpl;
      rewrite ?append_assoc; repeat split.
  - repeat split.
Qed.

(** ** Stream aliases *)

(** X14: an alias registered with [register_stream_alias] is what
    [resolve_stream] returns for it from then on, whatever [streams.yml]
    says about that name; the resolution of every other name is as
    before, and the stream definitions themselves are not touched. *)
Theorem registered_alias_overrides_streams
    (alias image : string) (st : State) :
  verbose (args (self st)) = false \/ log_ready st ->
  exists st' : State,
    register_stream_alias alias image st = (Ok tt, st')
    /\ resolve_stream alias st' = (Ok image, st')
    /\ (forall n : string, n <> alias ->
          fst (resolve_stream n st') = fst (resolve_stream n st))
    /\ streams (self st') = streams (self st)
    /\ image_map (self st') = image_map (self st).
Proof.
  intros H. unfold register_stream_alias.
  rewrite (bind_ok _ _ _ _ _ (info_runs _ st H)).
  eexists. split; [reflexivity |]. unfold modify_self. simpl.
  rewrite logged_self. split.
  - unfold resolve_stream. py_unfold. simpl. now rewrite lookup_insert_eq.
  - split; [| split; reflexivity].
    intros n Hn. unfold resolve_stream. py_unfold. simpl.
    rewrite lookup_insert_ne by congruence.
    destruct (stream_alias_overrides (self st) !! n); [reflexivity |].
    now destruct (streams (self st) !! n).
Qed.

Lemma registered_alias_overrides_streams_witness :
  (verbose (args (self Demo.ready)) = false \/ log_ready Demo.ready)
  /\ exists st' : State,
       register_stream_alias "golang" "openshift/golang-builder:v1" Demo.ready
       = (Ok tt, st')
       /\ resolve_stream "golang" st' = (Ok "openshift/golang-builder:v1", st').
Proof.
  assert (H : verbose (args (self Demo.ready)) = false \/ log_ready Demo.ready)
    by (left; by_computation).
  split; [exact H |].
  destruct (registered_alias_overrides_streams "golang"
              "openshift/golang-builder:v1" Demo.ready H)
    as (st' & Hreg & Hres & _).
  exists st'. split; assumption.
Defined.

(** ** Record log *)

Lemma add_record_fields_bad_key (kwargs : list (string * string))
    (record : string) (st : State) :
  Exists (fun kv => PyStr.contains PyStr.LF kv.1 = true) kwargs ->
  add_record_fields kwargs record st = (Raise AssertionError, st).
Proof.
  intros H. revert record. induction kwargs as [|[k v] rest IH];
    intros record; [inversion H |].
  simpl. destruct (PyStr.contains PyStr.LF k) eqn:Hk; [reflexivity |].
  apply IH. inversion H as [? ? Hx | ? ? Hx]; subst; [| exact Hx].
  simpl in Hx. congruence.
Qed.

(** X15: [add_record] writes nothing unless it can write the whole line.
    A line feed in any key, wherever it stands among the arguments, raises
    [AssertionError]; with clean keys but no record log open (before
    [initialize]) the call raises [AttributeError]; in both cases the
    state is exactly as before. *)
Theorem add_record_fails_without_writing (st : State) (record_type : string)
    (kwargs : list (string * string)) :
  (Exists (fun kv => PyStr.contains PyStr.LF kv.1 = true) kwargs ->
   add_record record_type kwargs st = (Raise AssertionError, st))
  /\ (Forall (fun kv => PyStr.contains PyStr.LF kv.1 = false) kwargs ->
      record_log (ws (self st)) = None ->
      add_record record_type kwargs st = (Raise AttributeError, st)).
Proof.
  split.
  - intros H. unfold add_record.
    now rewrite (bind_raise _ _ _ _ _ (add_record_fields_bad_key _ _ st H)).
  - intros H Hlog. unfold add_record.
    rewrite (bind_ok _ _ _ _ _ (add_record_fields_ok _ _ st H)).
    rewrite bind_get_self, Hlog. reflexivity.
Qed.

Lemma add_record_fails_without_writing_witness :
  add_record "build" [("name", "foo"); ("sta" +:+ String PyStr.LF "tus", "ok")]
    Demo.ready
  = (Raise AssertionError, Demo.ready)
  /\ add_record "build" [("name", "foo")] Demo.exclude_b
     = (Raise AttributeError, Demo.exclude_b).
Proof.
  split.
  - apply (proj1 (add_record_fails_without_writing Demo.ready "build"
                    [("name", "foo"); ("sta" +:+ String PyStr.LF "tus", "ok")])).
    right. left. reflexivity.
  - apply (proj2 (add_record_fails_without_writing Demo.exclude_b "build"
                    [("name", "foo")])).
    + repeat constructor.
    + reflexivity.
Defined.

Lemma appended_appended (f a b : string) (st : State) :
  appended f b (appended f a st) = appended f (a +:+ b) st.
Proof.
  unfold appended. simpl. rewrite lookup_insert_eq, insert_insert_eq. simpl.
  now rewrite append_assoc.
Qed.

(** X16: records are appended in the order of the calls: after two calls
    of [add_record] the record log holds what it held before, then the
    line of the first call, then the line of the second. *)
Theorem add_record_appends_in_call_order (st : State) (f old t1 t2 : string)
    (k1 k2 : list (string * string)) :
  record_log (ws (self st)) = Some f ->
  os_files (os st) !! f = Some old ->
  Forall (fun kv => PyStr.contains PyStr.LF kv.1 = false) k1 ->
  Forall (fun kv => PyStr.contains PyStr.LF kv.1 = false) k2 ->
  exists st' : State,
    (add_record t1 k1;; add_record t2 k2) st = (Ok tt, st')
    /\ os_files (os st') !! f
       = Some (old +:+ record_line t1 k1 +:+ String PyStr.LF ""
                   +:+ record_line t2 k2 +:+ String PyStr.LF "")
    /\ (forall p, p <> f -> os_files (os st') !! p = os_files (os st) !! p)
    /\ self st' = self st.
Proof.
  intros Hlog Hold H1 H2.
  assert (Hrun : forall t k s,
            record_log (ws (self s)) = Some f ->
            Forall (fun kv => PyStr.contains PyStr.LF kv.1 = false) k ->
            add_record t k s
            = (Ok tt, appended f (record_line t k +:+ String PyStr.LF "") s)).
  { intros t k s Hs Hk. unfold add_record.
    rewrite (bind_ok _ _ _ _ _ (add_record_fields_ok _ _ s Hk)).
    rewrite bind_get_self, Hs. unfold Os.write, modify_os, appended, record_line.
    now rewrite !append_assoc. }
  eexists. split.
  { rewrite (bind_ok _ _ _ _ _ (Hrun t1 k1 st Hlog H1)).
    rewrite (Hrun t2 k2 (appended f (record_line t1 k1 +:+ String PyStr.LF "") st)
               Hlog H2), appended_appended. reflexivity. }
  unfold appended. simpl. rewrite Hold. simpl. split.
  - rewrite lookup_insert_eq. now rewrite !append_assoc.
  - split; [| reflexivity]. intros p Hp. now rewrite lookup_insert_ne.
Qed.

Lemma add_record_appends_in_call_order_witness :
  record_log (ws (self Demo.ready)) = Some "/work/record.log"
  /\ os_files (os Demo.ready) !! "/work/record.log" = Some ""
  /\ exists st' : State,
       (add_record "build" [("name", "foo")];;
        add_record "push" [("name", "foo")]) Demo.ready = (Ok tt, st')
       /\ os_files (os st') !! "/work/record.log"
          = Some ("build|name=foo|" +:+ String PyStr.LF ""
                  +:+ "push|name=foo|" +:+ String PyStr.LF "").
Proof.
  assert (Hlog : record_log (ws (self Demo.ready)) = Some "/work/record.log")
    by by_computation.
  assert (Hold : os_files (os Demo.ready) !! "/work/record.log" = Some "")
    by by_computation.
  assert (Hk : Forall (fun kv : string * string =>
                         PyStr.contains PyStr.LF kv.1 = false) [("name", "foo")])
    by repeat constructor.
  split; [exact Hlog |]. split; [exact Hold |].
  destruct (add_record_appends_in_call_order Demo.ready "/work/record.log" ""
              "build" "push" [("name", "foo")] [("name", "foo")]
              Hlog Hold Hk Hk) as (st' & Hrun & Hfile & _).
  exists st'. split; [exact Hrun | exact Hfile].
Defined.

Lemma replace_absent (c : ascii) (new s : string) :
  PyStr.contains c s = false -> PyStr.replace c new s = s.
Proof.
  induction s as [|x s IH]; simpl; [reflexivity |].
  destruct (Ascii.eqb x c); simpl; [discriminate |].
  intros H. now rewrite IH.
Qed.

Lemma replace_fixed (c : ascii) (new s : string) :
  PyStr.replace c new s = s -> PyStr.contains c new = false ->
  PyStr.contains c s = false.
Proof.
  intros Heq Hnew.
  assert (Hcount : forall t, PyStr.count c (PyStr.replace c new t) = 0).
  { induction t as [|x t IH]; simpl; [reflexivity |].
    destruct (Ascii.eqb x c) eqn:E; simpl.
    - rewrite count_append, IH. apply contains_count in Hnew. lia.
    - now rewrite E. }
  apply contains_count. rewrite <- Heq. apply Hcount.
Qed.

Lemma contains_append (c : ascii) (a b : string) :
  PyStr.contains c (a +:+ b) = PyStr.contains c a || PyStr.contains c b.
Proof.
  induction a as [|x a IH]; simpl; rewrite ?append_cons, ?append_nil_l;
    [reflexivity |].
  simpl. rewrite IH. now destruct (Ascii.eqb x c).
Qed.

Lemma encode_value_clean (v : string) :
  PyStr.contains PyStr.LF (encode_value v) = false
  /\ PyStr.contains PyStr.CR (encode_value v) = false.
Proof.
  rewrite encode_value_substitute.
  destruct (substitute_newlines_clean v) as [H1 H2].
  split; now apply contains_count.
Qed.

(** X17: [encode_value] leaves a value as it is exactly when the value
    holds neither a line feed nor a carriage return, and encoding twice is
    encoding once. *)
Theorem encode_value_identity_and_idempotence (v : string) :
  (encode_value v = v
   <-> PyStr.contains PyStr.LF v = false /\ PyStr.contains PyStr.CR v = false)
  /\ encode_value (encode_value v) = encode_value v.
Proof.
  assert (Hid : forall w,
            PyStr.contains PyStr.LF w = false ->
            PyStr.contains PyStr.CR w = false -> encode_value w = w).
  { intros w HLF HCR. unfold encode_value.
    now rewrite (replace_absent PyStr.LF _ w HLF), (replace_absent PyStr.CR _ w HCR). }
  split.
  - split; [| intros [? ?]; now apply Hid].
    intros Heq. destruct (encode_value_clean v) as [H1 H2].
    now rewrite Heq in H1, H2.
  - destruct (encode_value_clean v) as [H1 H2]. now apply Hid.
Qed.

Lemma encode_value_append (a b : string) :
  encode_value (a +:+ b) = encode_value a +:+ encode_value b.
Proof. unfold encode_value. now rewrite !replace_append. Qed.

(** A value that contains [|key=value] is written exactly as a further
    field handed out next would be. *)
Lemma add_record_combined_field (st : State)
    (record_type k v k2 v2 : string) (rest : list (string * string)) :
  PyStr.contains PyStr.LF k2 = false ->
  PyStr.contains PyStr.CR k2 = false ->
  add_record record_type ((k, v +:+ "|" +:+ k2 +:+ "=" +:+ v2) :: rest) st
  = add_record record_type ((k, v) :: (k2, v2) :: rest) st.
Proof.
  intros HLF HCR. unfold add_record. simpl. rewrite HLF.
  destruct (PyStr.contains PyStr.LF k); [reflexivity |].
  rewrite !encode_value_append.
  assert (Hk2 : encode_value k2 = k2).
  { unfold encode_value.
    now rewrite (replace_absent PyStr.LF _ k2 HLF), (replace_absent PyStr.CR _ k2 HCR). }
  rewrite Hk2.
  change (encode_value "|") with "|". change (encode_value "=") with "=".
  now rewrite !append_assoc.
Qed.

(** X18: [add_record] does not escape the separators of the line, so the
    line does not determine the fields.  Take a call with two fields whose
    keys hold no line feed and no carriage return, and let [items] be its
    fields in whichever order the keyword dictionary hands them out: the
    call with the single field that comes first, its value extended by
    [|key=value] of the other, has the same result and leaves the same
    log. *)
Theorem add_record_does_not_escape_separators (st : State)
    (record_type a va b vb : string) (items : list (string * string)) :
  PyStr.contains PyStr.LF a = false ->
  PyStr.contains PyStr.CR a = false ->
  PyStr.contains PyStr.LF b = false ->
  PyStr.contains PyStr.CR b = false ->
  items ≡ₚ [(a, va); (b, vb)] ->
  exists k v k' v' : string,
    items = [(k, v); (k', v')]
    /\ add_record record_type items st
       = add_record record_type [(k, v +:+ "|" +:+ k' +:+ "=" +:+ v')] st.
Proof.
  intros HaLF HaCR HbLF HbCR Hitems. symmetry in Hitems.
  apply Permutation_length_2_inv in Hitems as [-> | ->].
  - exists a, va, b, vb. split; [reflexivity |]. symmetry.
    now apply add_record_combined_field.
  - exists b, vb, a, va. split; [reflexivity |]. symmetry.
    now apply add_record_combined_field.
Qed.

(** The record [build] with [name] and [status], handed out in the order
    [status], [name]. *)
Lemma add_record_does_not_escape_separators_witness :
  [("status", "failed"); ("name", "foo")]
    ≡ₚ [("name", "foo"); ("status", "failed")]
  /\ add_record "build" [("status", "failed"); ("name", "foo")] Demo.ready
     = add_record "build" [("status", "failed|name=foo")] Demo.ready.
Proof.
  assert (Hperm : [("status", "failed"); ("name", "foo")]
                    ≡ₚ [("name", "foo"); ("status", "failed")])
    by apply perm_swap.
  split; [exact Hperm |].
  destruct (add_record_does_not_escape_separators Demo.ready "build"
              "name" "foo" "status" "failed"
              [("status", "failed"); ("name", "foo")]
              eq_refl eq_refl eq_refl eq_refl Hperm)
    as (k & v & k' & v' & Hitems & Hrun).
  injection Hitems as <- <- <- <-. exact Hrun.
Defined.

(** ** Flag files *)

(** X19: [flag_create] stores exactly the message, whatever the flag file
    held before; a following [flag_remove] deletes the file, so that
    [flag_exists] answers false; and when the flag did not exist before
    the two calls, the state after them is the state before. *)
Theorem flag_create_then_remove (st : State) (d flag_name msg : string) :
  flags_dir (ws (self st)) = Some d ->
  Os.is_dir (os st) (PyPath.join d flag_name) = false ->
  Os.parent_is_dir (os st) (PyPath.join d flag_name) = true ->
  exists st1 st2 : State,
    flag_create flag_name msg st = (Ok tt, st1)
    /\ os_files (os st1) !! Os.resolve (os st) (PyPath.join d flag_name)
       = Some msg
    /\ flag_remove flag_name st1 = (Ok tt, st2)
    /\ flag_exists flag_name st2 = (Ok false, st2)
    /\ (Os.is_file (os st) (PyPath.join d flag_name) = false -> st2 = st).
Proof.
  intros Hd Hdir Hparent.
  set (p := Os.resolve (os st) (PyPath.join d flag_name)).
  eexists _, {| os := set_os_files (delete p (os_files (os st))) (os st);
               self := self st |}.
  split; [apply (flag_create_ok st d); assumption |]. fold p.
  split; [simpl; apply lookup_insert_eq |].
  split.
  { unfold flag_remove, flag_exists.
    rewrite !bind_run, (flag_file_path _ d) by exact Hd.
    unfold Os.isfile, Os.is_file. py_unfold. simpl.
    repeat match goal with
      | |- context [Os.resolve ?o ?q] =>
          progress change (Os.resolve o q) with p
      end.
    rewrite lookup_insert_eq.
    rewrite bool_decide_eq_true_2 by (eexists; reflexivity). simpl.
    rewrite (flag_file_path _ d) by exact Hd.
    unfold Os.remove, Os.is_file. py_unfold. simpl.
    repeat match goal with
      | |- context [Os.resolve ?o ?q] =>
          progress change (Os.resolve o q) with p
      end.
    rewrite lookup_insert_eq.
    rewrite bool_decide_eq_true_2 by (eexists; reflexivity). simpl.
    repeat match goal with
      | |- context [Os.resolve ?o ?q] =>
          progress change (Os.resolve o q) with p
      end.
    now rewrite delete_insert_eq. }
  split.
  { unfold flag_exists. rewrite bind_run, (flag_file_path _ d) by exact Hd.
    unfold Os.isfile, Os.is_file. py_unfold. simpl.
    repeat match goal with
      | |- context [Os.resolve ?o ?q] =>
          progress change (Os.resolve o q) with p
      end.
    rewrite lookup_delete_eq.
    rewrite bool_decide_eq_false_2; [reflexivity |]. now intros [? ?]. }
  intros Hfile. unfold Os.is_file in Hfile. fold p in Hfile.
  apply bool_decide_eq_false in Hfile.
  assert (Hnone : os_files (os st) !! p = None).
  { destruct (os_files (os st) !! p) eqn:E; [| reflexivity].
    exfalso. apply Hfile. now eexists. }
  rewrite delete_id by exact Hnone. destruct st as [[] ?]. reflexivity.
Qed.

Lemma flag_create_then_remove_witness :
  flags_dir (ws (self Demo.ready)) = Some "/work/flags"
  /\ exists st1 : State,
       flag_create "done" "built" Demo.ready = (Ok tt, st1)
       /\ os_files (os st1) !! "/work/flags/done" = Some "built"
       /\ flag_remove "done" st1 = (Ok tt, Demo.ready).
Proof.
  assert (Hd : flags_dir (ws (self Demo.ready)) = Some "/work/flags")
    by by_computation.
  assert (Hdir : Os.is_dir (os Demo.ready) (PyPath.join "/work/flags" "done")
                 = false) by by_computation.
  assert (Hparent : Os.parent_is_dir (os Demo.ready)
                      (PyPath.join "/work/flags" "done") = true)
    by by_computation.
  assert (Hfile : Os.is_file (os Demo.ready) (PyPath.join "/work/flags" "done")
                  = false) by by_computation.
  split; [exact Hd |].
  destruct (flag_create_then_remove Demo.ready "/work/flags" "done" "built"
              Hd Hdir Hparent) as (st1 & st2 & Hc & Hm & Hr & _ & Hback).
  exists st1. split; [exact Hc |]. split; [exact Hm |].
  now rewrite <- (Hback Hfile).
Defined.

(** X20: flag names are joined to the flags directory as [os.path.join]
    does it.  Before [initialize] set [flags_dir], every flag operation on
    a relative name raises [AttributeError] and changes nothing; a name
    that starts with a slash is taken as the path of the flag file by
    itself, whatever [flags_dir] is. *)
Theorem flag_names_follow_path_join (st : State) (flag_name : string) :
  (flags_dir (ws (self st)) = None ->
   PyPath.starts_with_slash flag_name = false ->
   (forall msg, flag_create flag_name msg st = (Raise AttributeError, st))
   /\ flag_exists flag_name st = (Raise AttributeError, st)
   /\ flag_remove flag_name st = (Raise AttributeError, st))
  /\ (PyPath.starts_with_slash flag_name = true ->
      _flag_file flag_name st = (Ok flag_name, st)
      /\ flag_exists flag_name st = (Ok (Os.is_file (os st) flag_name), st)).
Proof.
  split.
  - intros Hd Hrel.
    assert (H : _flag_file flag_name st = (Raise AttributeError, st)).
    { unfold _flag_file. rewrite bind_get_self, Hd, Hrel. reflexivity. }
    unfold flag_create, flag_remove, flag_exists.
    split; [intros msg; now rewrite (bind_raise _ _ _ _ _ H) |].
    rewrite !(bind_raise _ _ _ _ _ H). split; [reflexivity |].
    now rewrite (bind_raise _ _ _ _ _ (bind_raise _ _ _ _ _ H)).
  - intros Habs.
    assert (H : _flag_file flag_name st = (Ok flag_name, st)).
    { unfold _flag_file, PyPath.join. rewrite bind_get_self, Habs.
      now destruct (flags_dir (ws (self st))). }
    split; [exact H |]. unfold flag_exists.
    now rewrite (bind_ok _ _ _ _ _ H).
Qed.

Lemma flag_names_follow_path_join_witness :
  flags_dir (ws (self Demo.exclude_b)) = None
  /\ flag_exists "done" Demo.exclude_b = (Raise AttributeError, Demo.exclude_b)
  /\ _flag_file "/etc/done" Demo.ready = (Ok "/etc/done", Demo.ready).
Proof.
  assert (Hd : flags_dir (ws (self Demo.exclude_b)) = None) by reflexivity.
  split; [exact Hd |]. split.
  - apply (proj1 (flag_names_follow_path_join Demo.exclude_b "done") Hd).
    reflexivity.
  - apply (proj2 (flag_names_follow_path_join Demo.ready "/etc/done")).
    reflexivity.
Defined.

(** ** Diffs of dist-git repositories *)

(** X21: [add_distgits_diff] leaves the file [<distgit>.patch] of the
    diffs directory holding exactly the diff, whatever it held before (the
    file is opened for writing, not appending), and touches no other file
    and nothing of the object; before [initialize] assigned the diffs
    directory the call raises [AttributeError] and changes nothing. *)
Theorem add_distgits_diff_writes_the_patch (st : State) (distgit diff : string) :
  (distgits_diff_dir (ws (self st)) = None ->
   Rt.add_distgits_diff distgit diff st = (Raise AttributeError, st))
  /\ (forall d : string,
        distgits_diff_dir (ws (self st)) = Some d ->
        Os.is_dir (os st) (PyPath.join d (distgit +:+ ".patch")) = false ->
        Os.parent_is_dir (os st) (PyPath.join d (distgit +:+ ".patch")) = true ->
        Rt.add_distgits_diff distgit diff st
        = (Ok tt,
           {| os := set_os_files
                      (<[ Os.resolve (os st)
                            (PyPath.join d (distgit +:+ ".patch")) := diff ]>
                         (os_files (os st))) (os st);
              self := self st |})).
Proof.
  split.
  - intros Hd. unfold Rt.add_distgits_diff. now rewrite bind_get_self, Hd.
  - intros d Hd Hdir Hparent. unfold Rt.add_distgits_diff.
    rewrite bind_get_self, Hd.
    unfold Os.open_write, Os.write. py_unfold. simpl.
    rewrite Hdir, Hparent. simpl. unfold set_os_files at 1. simpl.
    rewrite lookup_insert_eq, insert_insert_eq. reflexivity.
Qed.

Lemma add_distgits_diff_writes_the_patch_witness :
  distgits_diff_dir (ws (self Demo.ready)) = Some "/work/distgits-diffs"
  /\ Rt.add_distgits_diff "a" "+line" Demo.exclude_b
     = (Raise AttributeError, Demo.exclude_b)
  /\ os_files (os (snd (Rt.add_distgits_diff "a" "+line" Demo.ready)))
       !! "/work/distgits-diffs/a.patch" = Some "+line".
Proof.
  assert (Hd : distgits_diff_dir (ws (self Demo.ready))
               = Some "/work/distgits-diffs") by by_computation.
  split; [exact Hd |]. split.
  - apply (proj1 (add_distgits_diff_writes_the_patch Demo.exclude_b "a" "+line")).
    reflexivity.
  - rewrite (proj2 (add_distgits_diff_writes_the_patch Demo.ready "a" "+line")
               "/work/distgits-diffs" Hd); by_computation.
Defined.

(** ** Using the workspace *)

(** X22: once [initialize] has returned, the record log is usable:
    [add_record] with keys free of line feeds returns and appends its line
    to [record.log] of the working directory, after what the file held. *)
Theorem record_log_usable_after_initialize
    (yaml_load_group : string -> GroupConfig)
    (yaml_load_streams : string -> gmap string string) (st st' : State)
    (record_type : string) (kwargs : list (string * string)) :
  initialized (self st) = false ->
  initialize yaml_load_group yaml_load_streams st = (Ok tt, st') ->
  Forall (fun kv => PyStr.contains PyStr.LF kv.1 = false) kwargs ->
  exists (wd old : string) (st2 : State),
    working_dir (args (self st')) = Some wd
    /\ os_files (os st') !! Os.resolve (os st') (PyPath.join wd "record.log")
       = Some old
    /\ add_record record_type kwargs st' = (Ok tt, st2)
    /\ os_files (os st2) !! Os.resolve (os st') (PyPath.join wd "record.log")
       = Some (old +:+ record_line record_type kwargs +:+ String PyStr.LF "").
Proof.
  intros Hflag Hrun Hkeys.
  destruct (workspace_after_initialize _ _ _ _ Hflag Hrun)
    as (wd & Hwd & Hws & _ & _ & Hfiles).
  assert (Hrec : Os.is_file (os st') (PyPath.join wd "record.log") = true).
  { rewrite Forall_forall in Hfiles. apply Hfiles. right. left. }
  unfold Os.is_file in Hrec. apply bool_decide_eq_true in Hrec as [old Hold].
  exists wd, old. eexists. split; [exact Hwd |]. split; [exact Hold |].
  split.
  - unfold add_record.
    rewrite (bind_ok _ _ _ _ _ (add_record_fields_ok _ _ st' Hkeys)).
    rewrite bind_get_self, Hws. simpl. reflexivity.
  - unfold Os.write, modify_os. simpl. rewrite lookup_insert_eq, Hold. simpl.
    unfold record_line. now rewrite !append_assoc.
Qed.

Lemma record_log_usable_after_initialize_witness :
  initialized (self Demo.exclude_b) = false
  /\ Demo.init Demo.exclude_b = (Ok tt, snd (Demo.init Demo.exclude_b))
  /\ fst (add_record "build" [("name", "foo")] (snd (Demo.init Demo.exclude_b)))
     = Ok tt.
Proof.
  assert (H1 : initialized (self Demo.exclude_b) = false) by reflexivity.
  assert (H2 : Demo.init Demo.exclude_b = (Ok tt, snd (Demo.init Demo.exclude_b)))
    by by_computation.
  assert (Hk : Forall (fun kv : string * string =>
                         PyStr.contains PyStr.LF kv.1 = false) [("name", "foo")])
    by repeat constructor.
  split; [exact H1 |]. split; [exact H2 |].
  destruct (record_log_usable_after_initialize Demo.yaml_load_group
              Demo.yaml_load_streams Demo.exclude_b _ "build" [("name", "foo")]
              H1 H2 Hk) as (wd & old & st2 & _ & _ & Hrun & _).
  now rewrite Hrun.
Defined.

(** ** Files directly inside a directory *)

Lemma last_append_r (a b : string) :
  b <> "" -> PyStr.last (a +:+ b) = PyStr.last b.
Proof.
  intros Hb. induction a as [|x a IH]; [reflexivity |].
  rewrite append_cons. simpl. rewrite IH.
  destruct (a +:+ b) eqn:E; [| reflexivity].
  destruct a; [rewrite append_nil_l in E; contradiction | discriminate].
Qed.

Lemma last_Some_nonempty (s : string) (c : ascii) :
  PyStr.last s = Some c -> s <> "".
Proof. now intros H ->. Qed.

Lemma starts_with_slash_append (a b : string) :
  a <> "" -> PyPath.starts_with_slash (a +:+ b) = PyPath.starts_with_slash a.
Proof. destruct a; [contradiction | reflexivity]. Qed.

Lemma contains_slash_start (n : string) :
  PyStr.contains "/" n = false -> PyPath.starts_with_slash n = false.
Proof.
  destruct n as [|x n]; [reflexivity |]. simpl.
  now intros [H _]%orb_false_iff.
Qed.

Lemma join_plain (d n : string) (c : ascii) :
  PyStr.last d = Some c -> c <> "/"%char ->
  PyPath.starts_with_slash n = false ->
  PyPath.join d n = d +:+ "/" +:+ n.
Proof.
  intros Hlast Hc Hn. unfold PyPath.join, PyPath.ends_with_slash.
  rewrite Hn, Hlast.
  destruct (String.eqb_spec d ""); [subst; discriminate |].
  now apply Ascii.eqb_neq in Hc as ->.
Qed.

Lemma resolve_plain (o : OS) (d : string) :
  d <> "." -> d <> "" ->
  exists pre : string, Os.resolve o d = pre +:+ d.
Proof.
  intros Hdot Hne. unfold Os.resolve, PyPath.join.
  apply String.eqb_neq in Hdot as ->.
  destruct (PyPath.starts_with_slash d); [now exists "" |].
  destruct (_ || _); [now exists (os_cwd o) |].
  exists (os_cwd o +:+ "/"). now rewrite append_assoc.
Qed.

Lemma resolve_child (o : OS) (d n : string) (c : ascii) :
  PyStr.last d = Some c -> c <> "/"%char -> d <> "." ->
  PyStr.contains "/" n = false ->
  Os.resolve o (PyPath.join d n) = Os.resolve o d +:+ "/" +:+ n.
Proof.
  intros Hlast Hc Hdot Hn.
  pose proof (last_Some_nonempty _ _ Hlast) as Hne.
  rewrite (join_plain d n c Hlast Hc (contains_slash_start n Hn)).
  unfold Os.resolve, PyPath.join.
  apply String.eqb_neq in Hdot as ->.
  assert (Hnd : String.eqb (d +:+ "/" +:+ n) "." = false).
  { destruct d as [|x d]; [contradiction |]. rewrite append_cons.
    simpl. destruct (Ascii.eqb x "."); [| reflexivity].
    destruct d; reflexivity. }
  rewrite Hnd, (starts_with_slash_append d _ Hne).
  destruct (PyPath.starts_with_slash d); [reflexivity |].
  destruct (_ || _); now rewrite ?append_assoc.
Qed.

Lemma head_plain (n : string) :
  PyStr.contains "/" n = false -> PyPath.head n = None.
Proof.
  induction n as [|x n IH]; [reflexivity |]. simpl.
  intros [Hx Hn]%orb_false_iff. now rewrite (IH Hn), Hx.
Qed.

Lemma head_child (X n : string) :
  PyStr.contains "/" n = false ->
  PyPath.head (X +:+ "/" +:+ n) = Some (X +:+ "/").
Proof.
  intros Hn. induction X as [|x X IH].
  - rewrite !append_nil_l, append_cons, append_nil_l. simpl.
    now rewrite (head_plain n Hn).
  - rewrite (append_cons x X). simpl. now rewrite IH.
Qed.

Lemma rstrip_slash_child (X : string) (c : ascii) :
  PyStr.last X = Some c -> c <> "/"%char ->
  PyPath.rstrip_slash (X +:+ "/") = X.
Proof.
  intros Hlast Hc. induction X as [|x X IH]; [discriminate |].
  rewrite append_cons. simpl. destruct X as [|y X].
  - simpl in Hlast. injection Hlast as ->.
    rewrite append_nil_l. simpl.
    now apply Ascii.eqb_neq in Hc as ->.
  - rewrite IH by exact Hlast. rewrite andb_false_r. reflexivity.
Qed.

Lemma dirname_child (X n : string) (c : ascii) :
  PyStr.last X = Some c -> c <> "/"%char ->
  PyStr.contains "/" n = false ->
  PyPath.dirname (X +:+ "/" +:+ n) = X.
Proof.
  intros Hlast Hc Hn. unfold PyPath.dirname.
  rewrite (head_child X n Hn). simpl.
  rewrite (rstrip_slash_child X c Hlast Hc).
  destruct (String.eqb_spec X ""); [subst; discriminate | reflexivity].
Qed.

(** A path directly inside [d] can be created exactly when [d] is a
    directory. *)
Lemma parent_of_child (o : OS) (d n : string) (c : ascii) :
  PyStr.last d = Some c -> c <> "/"%char -> d <> "." ->
  PyStr.contains "/" n = false ->
  Os.parent_is_dir o (PyPath.join d n) = Os.is_dir o d.
Proof.
  intros Hlast Hc Hdot Hn. unfold Os.parent_is_dir, Os.is_dir.
  rewrite (resolve_child o d n c Hlast Hc Hdot Hn).
  destruct (resolve_plain o d Hdot (last_Some_nonempty _ _ Hlast)) as [pre Hpre].
  assert (Hl : PyStr.last (Os.resolve o d) = Some c).
  { rewrite Hpre, last_append_r by exact (last_Some_nonempty _ _ Hlast).
    exact Hlast. }
  now rewrite (dirname_child _ n c Hl Hc Hn).
Qed.

Lemma workspace_dir_plain (wd name : string) (c : ascii) :
  PyStr.last name = Some c -> c <> "."%char ->
  PyPath.starts_with_slash name = false ->
  PyStr.last (PyPath.join wd name) = Some c /\ PyPath.join wd name <> ".".
Proof.
  intros Hlast Hc Hrel.
  assert (H : PyStr.last (PyPath.join wd name) = Some c).
  { unfold PyPath.join. rewrite Hrel.
    destruct (_ || _);
      rewrite ?last_append_r; try exact Hlast;
      try exact (last_Some_nonempty _ _ Hlast).
    destruct name; discriminate. }
  split; [exact H |]. intros Heq. rewrite Heq in H. simpl in H. congruence.
Qed.

(** X23: once [initialize] has returned, the directories it made can be
    used by bare names.  For a flag name without a slash that is not a
    directory of the flags directory, [flag_create] returns and
    [flag_exists] then answers true; for a dist-git name without a slash,
    [add_distgits_diff] returns and [<name>.patch] of the diffs directory
    holds the diff, unless a directory is in the way. *)
Theorem workspace_usable_after_initialize
    (yaml_load_group : string -> GroupConfig)
    (yaml_load_streams : string -> gmap string string) (st st' : State)
    (name text : string) :
  initialized (self st) = false ->
  initialize yaml_load_group yaml_load_streams st = (Ok tt, st') ->
  PyStr.contains "/" name = false ->
  exists wd : string,
    working_dir (args (self st')) = Some wd
    /\ (Os.is_dir (os st') (PyPath.join (PyPath.join wd "flags") name) = false ->
        exists st1 : State,
          flag_create name text st' = (Ok tt, st1)
          /\ flag_exists name st1 = (Ok true, st1))
    /\ (Os.is_dir (os st')
          (PyPath.join (PyPath.join wd "distgits-diffs") (name +:+ ".patch"))
        = false ->
        exists st1 : State,
          Rt.add_distgits_diff name text st' = (Ok tt, st1)
          /\ os_files (os st1)
               !! Os.resolve (os st')
                    (PyPath.join (PyPath.join wd "distgits-diffs")
                       (name +:+ ".patch"))
             = Some text).
Proof.
  intros Hflag Hrun Hname.
  destruct (workspace_after_initialize _ _ _ _ Hflag Hrun)
    as (wd & Hwd & Hws & _ & Hdirs & _).
  rewrite Forall_forall in Hdirs.
  exists wd. split; [exact Hwd |]. split.
  - intros Hnodir.
    destruct (workspace_dir_plain wd "flags" "s") as [Hl Hdot];
      [reflexivity | discriminate | reflexivity |].
    assert (Hparent : Os.parent_is_dir (os st')
                        (PyPath.join (PyPath.join wd "flags") name) = true).
    { rewrite (parent_of_child _ _ _ "s" Hl) by (discriminate || assumption).
      apply Hdirs. do 3 right. left. }
    assert (Hd : flags_dir (ws (self st')) = Some (PyPath.join wd "flags"))
      by now rewrite Hws.
    eexists. split; [apply (flag_create_ok st' _ _ _ Hd Hnodir Hparent) |].
    unfold flag_exists.
    rewrite bind_run, (flag_file_path _ (PyPath.join wd "flags")) by exact Hd.
    unfold Os.isfile, Os.is_file, Os.resolve. py_unfold. simpl.
    rewrite lookup_insert_eq.
    rewrite bool_decide_eq_true_2 by (eexists; reflexivity). reflexivity.
  - intros Hnodir.
    destruct (workspace_dir_plain wd "distgits-diffs" "s") as [Hl Hdot];
      [reflexivity | discriminate | reflexivity |].
    assert (Hpatch : PyStr.contains "/" (name +:+ ".patch") = false)
      by now rewrite contains_append, Hname.
    assert (Hparent : Os.parent_is_dir (os st')
                        (PyPath.join (PyPath.join wd "distgits-diffs")
                           (name +:+ ".patch")) = true).
    { rewrite (parent_of_child _ _ _ "s" Hl) by (discriminate || assumption).
      apply Hdirs. right. left. }
    assert (Hd : distgits_diff_dir (ws (self st'))
                 = Some (PyPath.join wd "distgits-diffs")) by now rewrite Hws.
    eexists. split.
    + unfold Rt.add_distgits_diff. rewrite bind_get_self, Hd.
      unfold Os.open_write, Os.write. py_unfold. simpl.
      rewrite Hnodir, Hparent. simpl. reflexivity.
    + simpl. unfold Os.resolve at 1. simpl.
      fold (Os.resolve (os st')
              (PyPath.join (PyPath.join wd "distgits-diffs") (name +:+ ".patch"))).
      now rewrite !lookup_insert_eq.
Qed.

Lemma workspace_usable_after_initialize_witness :
  initialized (self Demo.exclude_b) = false
  /\ Demo.init Demo.exclude_b = (Ok tt, snd (Demo.init Demo.exclude_b))
  /\ PyStr.contains "/" "a" = false
  /\ exists wd : string,
       working_dir (args (self (snd (Demo.init Demo.exclude_b)))) = Some wd.
Proof.
  assert (H1 : initialized (self Demo.exclude_b) = false) by reflexivity.
  assert (H2 : Demo.init Demo.exclude_b = (Ok tt, snd (Demo.init Demo.exclude_b)))
    by by_computation.
  assert (H3 : PyStr.contains "/" "a" = false) by reflexivity.
  split; [exact H1 |]. split; [exact H2 |]. split; [exact H3 |].
  destruct (workspace_usable_after_initialize Demo.yaml_load_group
              Demo.yaml_load_streams Demo.exclude_b _ "a" "+line" H1 H2 H3)
    as (wd & Hwd & _).
  now exists wd.
Defined.

(** ** What a returning [initialize] has loaded *)

(** X24: [streams.yml] is optional.  When [initialize] returns, the stream
    definitions are those loaded from [streams.yml] of the group directory
    if that file exists, and are left as they were if it does not. *)
Theorem streams_yml_is_optional
    (yaml_load_group : string -> GroupConfig)
    (yaml_load_streams : string -> gmap string string) (st st' : State) :
  initialized (self st) = false ->
  initialize yaml_load_group yaml_load_streams st = (Ok tt, st') ->
  exists g : string,
    group (args (self st)) = Some g
    /\ streams (self st')
       = match os_files (os st')
                 !! Os.resolve (os st')
                      (PyPath.join
                         (PyPath.join
                            (PyPath.join (metadata_dir (args (self st))) "groups")
                            g)
                         "streams.yml") with
         | Some text => yaml_load_streams text
         | None => streams (self st)
         end.
Proof.
  intros Hflag Hrun.
  destruct (initialize_ok_inv _ _ _ _ Hflag Hrun)
    as (g & gd & id & rd & st1 & Hprep & Hrest).
  destruct (prepare_group_dir _ _ _ _ _ _ Hprep) as (Hg & Hgd & _).
  exists g. split; [exact Hg |]. rewrite <- Hgd.
  apply bind_ok_inv in Hrest as ([] & s2 & Hbody & Hfin).
  assert (Hstreams : streams (self s2) = streams (self st)).
  { pose proof (preserves_prepare streams (fun _ _ => eq_refl)
                  (fun _ _ => eq_refl) (fun _ _ => eq_refl) st) as H1.
    assert (H2 : preserves streams
                   (with_Dir gd (initialize_group yaml_load_group g id rd)))
      by (apply preserves_group_body; intros; reflexivity).
    specialize (H2 st1). rewrite Hprep in H1. rewrite Hbody in H2.
    simpl in H1, H2. congruence. }
  unfold finish_initialize in Hfin. rewrite bind_get_self in Hfin.
  destruct (_ =? 0)%nat; [discriminate |].
  unfold Os.isfile, Os.read_file, Os.is_file in Hfin. py_unfold. simpl in Hfin.
  destruct (os_files (os s2) !! Os.resolve (os s2) (PyPath.join gd "streams.yml"))
    as [text |] eqn:Hfile.
  - rewrite bool_decide_eq_true_2 in Hfin by (eexists; reflexivity).
    simpl in Hfin. rewrite Hfile in Hfin. injection Hfin as <-. simpl.
    now rewrite Hfile.
  - rewrite bool_decide_eq_false_2 in Hfin by (now intros [? ?]).
    injection Hfin as <-. now rewrite Hfile.
Qed.

Lemma streams_yml_is_optional_witness :
  initialized (self Demo.exclude_b) = false
  /\ Demo.init Demo.exclude_b = (Ok tt, snd (Demo.init Demo.exclude_b))
  /\ streams (self (snd (Demo.init Demo.exclude_b))) = ∅.
Proof.
  assert (H1 : initialized (self Demo.exclude_b) = false) by reflexivity.
  assert (H2 : Demo.init Demo.exclude_b = (Ok tt, snd (Demo.init Demo.exclude_b)))
    by by_computation.
  split; [exact H1 |]. split; [exact H2 |].
  destruct (streams_yml_is_optional Demo.yaml_load_group Demo.yaml_load_streams
              Demo.exclude_b _ H1 H2) as (g & _ & Hs).
  rewrite Hs. now destruct (os_files _ !! _).
Defined.

(** X25: when [initialize] returns, [group_config] holds the document
    loaded from [group.yml] of the group directory, as that file stood
    when lines 90-139 were done, and the name in it is the group asked
    for. *)
Theorem group_config_is_the_loaded_group_yml
    (yaml_load_group : string -> GroupConfig)
    (yaml_load_streams : string -> gmap string string)
    (st st1 st' : State) (g gd id rd : string) :
  initialized (self st) = false ->
  prepare st = (Ok (g, (gd, id, rd)), st1) ->
  initialize yaml_load_group yaml_load_streams st = (Ok tt, st') ->
  exists text : string,
    os_files (os st1) !! PyPath.join (Os.resolve (os st1) gd) "group.yml"
    = Some text
    /\ group_config (self st') = Some (yaml_load_group text)
    /\ gc_name (yaml_load_group text) = Some g.
Proof.
  intros Hflag Hprep Hrun.
  destruct (prepare_group_dir _ _ _ _ _ _ Hprep) as (_ & _ & _ & _ & Hdir).
  unfold initialize in Hrun. rewrite bind_get_self, Hflag in Hrun.
  rewrite (bind_ok _ _ _ _ _ Hprep) in Hrun. cbv beta iota in Hrun.
  apply bind_ok_inv in Hrun as ([] & s2 & Hbody & Hfin).
  rewrite (with_Dir_entered _ _ _ _ (chdir_ok _ _ Hdir)) in Hbody.
  set (st2 := {| os := set_os_cwd (Os.resolve (os st1) gd) (os st1);
                 self := self st1 |}) in *.
  destruct (initialize_group yaml_load_group g id rd st2)
    as [[[] | e] s_end] eqn:Hgroup; [| discriminate].
  simpl in Hbody. injection Hbody as <-.
  unfold initialize_group in Hgroup.
  apply bind_ok_inv in Hgroup as (gc & s3 & Hload & Hafter).
  assert (H1 : preserves group_config
                 (merge_group_defaults gc;; select_configs id rd))
    by (apply preserves_after_load; intros; reflexivity).
  specialize (H1 s3). rewrite Hafter in H1. simpl in H1.
  pose proof (preserves_finish_initialize group_config (fun _ _ => eq_refl)
                yaml_load_streams gd (leave_Dir (os_cwd (os st1)) s_end)) as H2.
  rewrite Hfin in H2. simpl in H2. rewrite H2, H1. clear H1 H2 Hafter Hfin.
  unfold load_group_yml, Os.read_file in Hload. py_unfold. simpl in Hload.
  change (Os.resolve (set_os_cwd (Os.resolve (os st1) gd) (os st1)) "group.yml")
    with (PyPath.join (Os.resolve (os st1) gd) "group.yml") in Hload.
  destruct (os_files (os st1) !! _) as [text |]; [| discriminate].
  exists text. split; [reflexivity |]. simpl in Hload.
  destruct (bool_decide (gc_name (yaml_load_group text) = Some g)) eqn:Hname;
    [| discriminate].
  injection Hload as <- <-. apply bool_decide_eq_true in Hname.
  split; [reflexivity | exact Hname].
Qed.

Lemma group_config_is_the_loaded_group_yml_witness :
  initialized (self Demo.exclude_b) = false
  /\ fst (prepare Demo.exclude_b)
     = Ok ("g", (Demo.group_dir, Demo.images_dir, Demo.rpms_dir))
  /\ Demo.init Demo.exclude_b = (Ok tt, snd (Demo.init Demo.exclude_b))
  /\ exists text : string,
       group_config (self (snd (Demo.init Demo.exclude_b)))
       = Some (Demo.yaml_load_group text).
Proof.
  assert (H1 : initialized (self Demo.exclude_b) = false) by reflexivity.
  assert (H2 : prepare Demo.exclude_b
               = (Ok ("g", (Demo.group_dir, Demo.images_dir, Demo.rpms_dir)),
                  snd (prepare Demo.exclude_b))) by by_computation.
  assert (H3 : Demo.init Demo.exclude_b = (Ok tt, snd (Demo.init Demo.exclude_b)))
    by by_computation.
  split; [exact H1 |]. split; [now rewrite H2 |]. split; [exact H3 |].
  destruct (group_config_is_the_loaded_group_yml Demo.yaml_load_group
              Demo.yaml_load_streams Demo.exclude_b _ _ _ _ _ _ H1 H2 H3)
    as (text & _ & Hgc & _).
  now exists text.
Defined.

(** X26: the group directory is looked for only after the workspace was
    made.  When the metadata directory and the working directory are in
    order but the group has no directory, [initialize] raises [IOError]
    and leaves the workspace it has just set up behind; nothing of
    [group.yml] was read and nothing is registered. *)
Theorem missing_group_dir_leaves_workspace
    (yaml_load_group : string -> GroupConfig)
    (yaml_load_streams : string -> gmap string string)
    (st s5 : State) (g wd : string) :
  initialized (self st) = false ->
  group (args (self st)) = Some g ->
  Os.is_dir (os st) (metadata_dir (args (self st))) = true ->
  (wd ← setup_working_dir; setup_workspace wd;; mret wd) st = (Ok wd, s5) ->
  Os.is_dir (os s5)
    (PyPath.join (PyPath.join (metadata_dir (args (self st))) "groups") g)
  = false ->
  (exists msg : string,
     initialize yaml_load_group yaml_load_streams st = (Raise (IOError msg), s5))
  /\ workspace_ready wd s5
  /\ group_config (self s5) = group_config (self st)
  /\ image_map (self s5) = image_map (self st)
  /\ rpm_map (self s5) = rpm_map (self st).
Proof.
  intros Hflag Hgroup Hmd Hsetup Hnodir.
  apply bind_ok_inv in Hsetup as (wd' & s4 & Hwd & Hsetup).
  apply bind_ok_inv in Hsetup as ([] & s5' & Hws & Hret).
  injection Hret as -> ->.
  assert (Hmeta : metadata_dir (args (self s5)) = metadata_dir (args (self st))).
  { pose proof (preserves_setup_working_dir (fun r => metadata_dir (args r))
                  (fun _ _ => eq_refl) (fun _ _ => eq_refl) st) as M4.
    pose proof (preserves_setup_workspace (fun r => metadata_dir (args r))
                  (fun _ _ => eq_refl) wd s4) as M5.
    rewrite Hwd in M4. rewrite Hws in M5. simpl in M4, M5. congruence. }
  split; [| split; [| split; [| split]]].
  - eexists. unfold initialize, prepare.
    rewrite bind_get_self, Hflag. rewrite bind_run, bind_get_self, Hgroup.
    unfold assert_dir at 1, Os.isdir. py_unfold. simpl. rewrite Hmd. simpl.
    rewrite Hwd, Hws. unfold locate_group, assert_dir, Os.isdir.
    py_unfold. simpl. rewrite Hmeta, Hnodir. reflexivity.
  - pose proof (setup_working_dir_ok_inv _ _ _ Hwd) as (Hargs & Hdir & _).
    pose proof (setup_workspace_ok_inv _ _ _ Hws) as (W & A & D & F).
    pose proof (adds_setup_workspace wd s4) as O5. rewrite Hws in O5.
    split; [now rewrite A |]. split; [exact W |].
    split; [eapply is_dir_only_adds; eassumption |]. split; assumption.
  - pose proof (preserves_setup_working_dir group_config
                  (fun _ _ => eq_refl) (fun _ _ => eq_refl) st) as M4.
    pose proof (preserves_setup_workspace group_config
                  (fun _ _ => eq_refl) wd s4) as M5.
    rewrite Hwd in M4. rewrite Hws in M5. simpl in M4, M5. congruence.
  - pose proof (preserves_setup_working_dir image_map
                  (fun _ _ => eq_refl) (fun _ _ => eq_refl) st) as M4.
    pose proof (preserves_setup_workspace image_map
                  (fun _ _ => eq_refl) wd s4) as M5.
    rewrite Hwd in M4. rewrite Hws in M5. simpl in M4, M5. congruence.
  - pose proof (preserves_setup_working_dir rpm_map
                  (fun _ _ => eq_refl) (fun _ _ => eq_refl) st) as M4.
    pose proof (preserves_setup_workspace rpm_map
                  (fun _ _ => eq_refl) wd s4) as M5.
    rewrite Hwd in M4. rewrite Hws in M5. simpl in M4, M5. congruence.
Qed.

Lemma missing_group_dir_leaves_workspace_witness :
  initialized (self (Cases.group_h Demo.tree)) = false
  /\ group (args (self (Cases.group_h Demo.tree))) = Some "h"
  /\ (exists msg : string,
        fst (Demo.init (Cases.group_h Demo.tree)) = Raise (IOError msg))
  /\ workspace_ready "/work" (snd (Demo.init (Cases.group_h Demo.tree))).
Proof.
  assert (H1 : initialized (self (Cases.group_h Demo.tree)) = false)
    by reflexivity.
  assert (H2 : group (args (self (Cases.group_h Demo.tree))) = Some "h")
    by reflexivity.
  assert (H3 : Os.is_dir (os (Cases.group_h Demo.tree))
                 (metadata_dir (args (self (Cases.group_h Demo.tree)))) = true)
    by by_computation.
  assert (H4 : fst ((wd ← setup_working_dir; setup_workspace wd;; mret wd)
                      (Cases.group_h Demo.tree)) = Ok "/work")
    by by_computation.
  assert (H5 : Os.is_dir
                 (os (snd ((wd ← setup_working_dir; setup_workspace wd;; mret wd)
                             (Cases.group_h Demo.tree))))
                 (PyPath.join
                    (PyPath.join
                       (metadata_dir (args (self (Cases.group_h Demo.tree))))
                       "groups") "h") = false) by by_computation.
  destruct ((wd ← setup_working_dir; setup_workspace wd;; mret wd)
              (Cases.group_h Demo.tree)) as [o s5] eqn:Hsetup.
  cbn [fst snd] in H4, H5. subst o.
  split; [exact H1 |]. split; [exact H2 |].
  destruct (missing_group_dir_leaves_workspace Demo.yaml_load_group
              Demo.yaml_load_streams (Cases.group_h Demo.tree) s5 "h" "/work"
              H1 H2 H3 Hsetup H5) as ((msg & Hrun) & Hready & _).
  unfold Demo.init. rewrite Hrun.
  split; [exists msg; reflexivity | exact Hready].
Defined.

(** ** What [initialize] registers with [atexit] *)

Lemma quiet_bind {A B : Type} (m : Py A) (f : A -> Py B) :
  keeps_atexit m -> (forall a : A, keeps_atexit (f a)) -> keeps_atexit (m ≫= f).
Proof.
  intros Hm Hf st. rewrite bind_run. specialize (Hm st).
  destruct (m st) as [[a | e] st1]; simpl in *; [| exact Hm].
  now rewrite (Hf a st1).
Qed.

Lemma quiet_ret {A : Type} (a : A) : keeps_atexit (mret a : Py A).
Proof. intros st. reflexivity. Qed.

Lemma quiet_pass : keeps_atexit pass.
Proof. intros st. reflexivity. Qed.

Lemma quiet_raise {A : Type} (e : PyError) : keeps_atexit (raise e : Py A).
Proof. intros st. reflexivity. Qed.

Lemma quiet_get_self : keeps_atexit get_self.
Proof. intros st. reflexivity. Qed.

Lemma quiet_get_os : keeps_atexit get_os.
Proof. intros st. reflexivity. Qed.

Lemma quiet_modify_self (f : Runtime -> Runtime) : keeps_atexit (modify_self f).
Proof. intros st. reflexivity. Qed.

Lemma quiet_modify_os (f : OS -> OS) :
  (forall o, os_atexit (f o) = os_atexit o) -> keeps_atexit (modify_os f).
Proof. intros H st. apply H. Qed.

Lemma quiet_when (c : bool) (body : Py unit) :
  keeps_atexit body -> keeps_atexit (when c body).
Proof. intros H. destruct c; [exact H | apply quiet_pass]. Qed.

Lemma quiet_sequence {A : Type} (o : option A) : keeps_atexit (sequence o).
Proof. destruct o; intros st; reflexivity. Qed.

Create HintDb quiet discriminated.

#[local] Hint Resolve quiet_bind quiet_ret quiet_pass quiet_raise quiet_get_self
  quiet_get_os quiet_modify_self quiet_when quiet_sequence : quiet.

#[local] Hint Extern 1 (keeps_atexit (if ?c then _ else _)) => destruct c : quiet.
#[local] Hint Extern 1
  (keeps_atexit (match ?x with Some _ => _ | None => _ end)) =>
  destruct x : quiet.
#[local] Hint Extern 1 (keeps_atexit (modify_os _)) =>
  apply quiet_modify_os; intros ?; reflexivity : quiet.

Lemma quiet_isdir (d : string) : keeps_atexit (Os.isdir d).
Proof. unfold Os.isdir. eauto with quiet. Qed.

Lemma quiet_isfile (d : string) : keeps_atexit (Os.isfile d).
Proof. unfold Os.isfile. eauto with quiet. Qed.

Lemma quiet_mkdir (d : string) : keeps_atexit (Os.mkdir d).
Proof.
  unfold Os.mkdir. apply quiet_bind; [apply quiet_get_os |]. intros o.
  destruct (_ || _); [apply quiet_raise |].
  destruct (negb _); [apply quiet_raise |].
  apply quiet_modify_os. reflexivity.
Qed.

Lemma quiet_listdir (d : string) : keeps_atexit (Os.listdir d).
Proof. unfold Os.listdir. eauto with quiet. Qed.

Lemma quiet_read_file (d : string) : keeps_atexit (Os.read_file d).
Proof. unfold Os.read_file. eauto with quiet. Qed.

Lemma quiet_write (f text : string) : keeps_atexit (Os.write f text).
Proof. unfold Os.write. apply quiet_modify_os. reflexivity. Qed.

Lemma quiet_open_append (d : string) : keeps_atexit (Os.open_append d).
Proof.
  unfold Os.open_append. apply quiet_bind; [apply quiet_get_os |]. intros o.
  destruct (Os.is_dir o d); [apply quiet_raise |].
  destruct (negb _); [apply quiet_raise |].
  apply quiet_bind; [| intros _; apply quiet_ret].
  apply quiet_modify_os. reflexivity.
Qed.

Lemma quiet_echo (msg : string) : keeps_atexit (Os.echo msg).
Proof. unfold Os.echo. apply quiet_modify_os. reflexivity. Qed.

Lemma quiet_with_Dir {A : Type} (d : string) (body : Py A) :
  keeps_atexit body -> keeps_atexit (with_Dir d body).
Proof.
  intros H st. unfold with_Dir, Os.chdir. py_unfold. simpl.
  destruct (Os.is_dir (os st) d); simpl; [| reflexivity].
  specialize (H {| os := set_os_cwd (Os.resolve (os st) d) (os st);
                   self := self st |}).
  destruct (body _) as [r st2]. exact H.
Qed.

#[local] Hint Resolve quiet_isdir quiet_isfile quiet_mkdir quiet_listdir
  quiet_read_file quiet_write quiet_open_append quiet_echo quiet_with_Dir
  : quiet.

Lemma quiet_assert_dir (d msg : string) : keeps_atexit (assert_dir d msg).
Proof. unfold assert_dir. eauto with quiet. Qed.

Lemma quiet_ensure_dir (d : string) : keeps_atexit (ensure_dir d).
Proof. unfold ensure_dir. eauto with quiet. Qed.

Lemma quiet_log_verbose (msg : string) : keeps_atexit (log_verbose msg).
Proof. unfold log_verbose. eauto 10 with quiet. Qed.

Lemma quiet_info (msg : string) (debug : option string) :
  keeps_atexit (info msg debug).
Proof.
  unfold info. apply quiet_bind; [apply quiet_get_self |].
  intros r. destruct (verbose (args r)); [| apply quiet_echo].
  destruct debug; apply quiet_log_verbose.
Qed.

Lemma quiet_modify_args (f : Kwargs -> Kwargs) : keeps_atexit (modify_args f).
Proof. apply quiet_modify_self. Qed.

Lemma quiet_modify_ws (f : Workspace -> Workspace) : keeps_atexit (modify_ws f).
Proof. apply quiet_modify_self. Qed.

Lemma quiet_remove (name : string) (l : list string) :
  keeps_atexit (remove name l).
Proof.
  unfold remove. destruct (PyStr.list_remove name l); intros st; reflexivity.
Qed.

#[local] Hint Resolve quiet_assert_dir quiet_ensure_dir quiet_log_verbose
  quiet_info quiet_modify_args quiet_modify_ws quiet_remove : quiet.

Lemma quiet_list_dirs (d : string) : keeps_atexit (list_dirs d).
Proof. unfold list_dirs. apply quiet_with_Dir. eauto with quiet. Qed.

Lemma quiet_match_filters (names : list string) :
  forall acc, keeps_atexit (match_filters names acc).
Proof.
  induction names as [|n rest IH]; intros [[a b] c]; simpl;
    eauto 10 with quiet.
Qed.

Lemma quiet_locate_group (g : string) : keeps_atexit (locate_group g).
Proof.
  unfold locate_group. apply quiet_bind; [apply quiet_get_self |]. intros r.
  apply quiet_bind; [apply quiet_assert_dir |]. intros _.
  apply quiet_bind; [apply quiet_assert_dir |]. intros _.
  apply quiet_bind; [apply quiet_assert_dir |]. intros _.
  apply quiet_bind; [apply quiet_info | intros _; apply quiet_ret].
Qed.

Lemma quiet_load_group_yml (yaml_load_group : string -> GroupConfig) (g : string) :
  keeps_atexit (load_group_yml yaml_load_group g).
Proof.
  unfold load_group_yml. apply quiet_bind; [apply quiet_read_file |].
  intros text. apply quiet_bind; [apply quiet_modify_self |].
  intros _. destruct (bool_decide _); auto with quiet.
Qed.

Lemma quiet_merge_group_defaults (gc : GroupConfig) :
  keeps_atexit (merge_group_defaults gc).
Proof.
  unfold merge_group_defaults.
  apply quiet_bind; [apply quiet_get_self |]. intros r1.
  apply quiet_bind; [apply quiet_when, quiet_modify_args |]. intros _.
  apply quiet_bind; [apply quiet_get_self |]. intros r2.
  apply quiet_bind; [apply quiet_when, quiet_modify_args |]. intros _.
  apply quiet_bind; [apply quiet_get_self |]. intros r3.
  destruct (branch (args r3)); [apply quiet_info |].
  destruct (gc_branch gc); [| apply quiet_info].
  apply quiet_bind; [apply quiet_modify_args | intros _; apply quiet_info].
Qed.

Lemma quiet_collect_loop (search_type : string) (ci co ce : bool)
    (gen : string -> Py unit) (names : list string) :
  (forall n, keeps_atexit (gen n)) ->
  forall inc opt,
    keeps_atexit (collect_loop search_type ci co ce gen names inc opt).
Proof.
  intros Hgen. induction names as [|n rest IH]; intros inc opt; simpl.
  - apply quiet_ret.
  - apply quiet_bind.
    { unfold include_stage.
      destruct (ci || co); [| apply quiet_ret].
      destruct (ci && PyStr.mem n inc); [eauto 10 with quiet |].
      destruct (co && PyStr.mem n opt); eauto 10 with quiet. }
    intros [[inc' opt'] |]; [| apply IH].
    apply quiet_bind.
    { unfold exclude_stage. destruct ce; [| apply quiet_ret].
      apply quiet_bind; [apply quiet_get_self |]. intros r.
      apply quiet_bind; [apply quiet_sequence |]. intros l.
      destruct (PyStr.mem n l); eauto 10 with quiet. }
    intros [|]; [apply IH |].
    apply quiet_bind; [apply Hgen | intros _; apply IH].
Qed.

Lemma quiet_collect_configs (search_type search_dir : string)
    (names inc opt exc : list string) (gen : string -> Py unit) :
  (forall n, keeps_atexit (gen n)) ->
  keeps_atexit (collect_configs search_type search_dir names inc opt exc gen).
Proof.
  intros Hgen. unfold collect_configs.
  apply quiet_with_Dir, quiet_collect_loop, Hgen.
Qed.

Lemma quiet_select_configs (images_dir rpms_dir : string) :
  keeps_atexit (select_configs images_dir rpms_dir).
Proof.
  unfold select_configs.
  apply quiet_bind; [apply quiet_get_self |]. intros r.
  apply quiet_bind; [apply quiet_sequence |]. intros l1.
  apply quiet_bind; [apply quiet_when, quiet_info |]. intros _.
  apply quiet_bind; [apply quiet_sequence |]. intros l2.
  apply quiet_bind; [apply quiet_when, quiet_info |]. intros _.
  apply quiet_bind; [apply quiet_list_dirs |]. intros images.
  apply quiet_bind; [apply quiet_list_dirs |]. intros rpms.
  apply quiet_bind; [apply quiet_match_filters |]. intros [[a b] c].
  apply quiet_bind; [apply quiet_match_filters |]. intros [[a' b'] c'].
  apply quiet_bind; [apply quiet_get_self |]. intros r'.
  apply quiet_bind; [apply quiet_sequence |]. intros l3.
  cbv zeta. destruct (len_gt_0 _); [apply quiet_raise |].
  apply quiet_bind; [apply quiet_sequence |]. intros l4.
  apply quiet_bind; [apply quiet_when, quiet_info |]. intros _.
  apply quiet_bind.
  { apply quiet_collect_configs. intros n. apply quiet_modify_self. }
  intros _. apply quiet_bind; [| intros _; apply quiet_pass].
  apply quiet_collect_configs. intros n. apply quiet_modify_self.
Qed.

Lemma quiet_finish_initialize
    (yaml_load_streams : string -> gmap string string) (gd : string) :
  keeps_atexit (finish_initialize yaml_load_streams gd).
Proof.
  unfold finish_initialize.
  apply quiet_bind; [apply quiet_get_self |]. intros r.
  destruct (_ =? 0)%nat; [apply quiet_raise |].
  apply quiet_bind; [apply quiet_isfile |]. intros [|]; [| apply quiet_pass].
  apply quiet_bind; [apply quiet_read_file |]. intros s.
  apply quiet_modify_self.
Qed.

(** Nothing after line 118 registers with [atexit]. *)
Lemma quiet_from_group (yaml_load_group : string -> GroupConfig)
    (yaml_load_streams : string -> gmap string string)
    (g gd id rd : string) :
  keeps_atexit (with_Dir gd (initialize_group yaml_load_group g id rd);;
                finish_initialize yaml_load_streams gd).
Proof.
  apply quiet_bind; [| intros _; apply quiet_finish_initialize].
  apply quiet_with_Dir. unfold initialize_group.
  apply quiet_bind; [apply quiet_load_group_yml |]. intros gc.
  apply quiet_bind; [apply quiet_merge_group_defaults |]. intros _.
  apply quiet_select_configs.
Qed.

Lemma run_quiet {A : Type} (m : Py A) (st st' : State) (a : A) :
  keeps_atexit m -> m st = (Ok a, st') -> os_atexit (os st') = os_atexit (os st).
Proof. intros Hm Hrun. specialize (Hm st). now rewrite Hrun in Hm. Qed.

(** Lines 104-128 register the closing of the two logs, in this order. *)
Lemma setup_workspace_atexit (wd : string) (st st' : State) :
  setup_workspace wd st = (Ok tt, st') ->
  exists f f' : string,
    debug_log (ws (self st')) = Some f
    /\ record_log (ws (self st')) = Some f'
    /\ os_atexit (os st')
       = os_atexit (os st) ++ [close_file f; close_file f'].
Proof.
  unfold setup_workspace. cbv zeta. intros H.
  apply bind_ok_inv in H as ([] & s1 & E1 & H).
  apply bind_ok_inv in H as ([] & s2 & E2 & H).
  apply bind_ok_inv in H as ([] & s3 & E3 & H).
  apply bind_ok_inv in H as ([] & s4 & E4 & H).
  apply bind_ok_inv in H as ([] & s5 & E5 & H).
  apply bind_ok_inv in H as (f & s6 & E6 & H).
  apply bind_ok_inv in H as ([] & s7 & E7 & H).
  apply bind_ok_inv in H as ([] & s8 & E8 & H).
  apply bind_ok_inv in H as ([] & s9 & E9 & H).
  apply bind_ok_inv in H as (f' & s10 & E10 & H).
  apply bind_ok_inv in H as ([] & s11 & E11 & H).
  apply bind_ok_inv in H as ([] & s12 & E12 & H).
  apply bind_ok_inv in H as ([] & s13 & E13 & H).
  apply bind_ok_inv in H as ([] & s14 & E14 & H).
  apply bind_ok_inv in H as ([] & s15 & E15 & H).
  pose proof (run_quiet _ _ _ _ (quiet_ensure_dir _) E2) as A2.
  pose proof (run_quiet _ _ _ _ (quiet_ensure_dir _) E4) as A4.
  pose proof (run_quiet _ _ _ _ (quiet_open_append _) E6) as A6.
  pose proof (run_quiet _ _ _ _ (quiet_open_append _) E10) as A10.
  pose proof (run_quiet _ _ _ _ (quiet_ensure_dir _) E14) as A14.
  pose proof (run_quiet _ _ _ _ (quiet_ensure_dir _) H) as A16.
  apply ensure_dir_ok_inv in E2 as [S2 _].
  apply ensure_dir_ok_inv in E4 as [S4 _].
  apply ensure_dir_ok_inv in E14 as [S14 _].
  apply ensure_dir_ok_inv in H as [S16 _].
  apply open_append_ok_file in E6 as (_ & _ & S6).
  apply open_append_ok_file in E10 as (_ & _ & S10).
  unfold modify_ws, modify_self in E1, E3, E5, E7, E9, E11, E13, E15.
  unfold Os.atexit_register, modify_os in E8, E12.
  injection E1 as <-. injection E3 as <-. injection E5 as <-.
  injection E7 as <-. injection E8 as <-. injection E9 as <-.
  injection E11 as <-. injection E12 as <-. injection E13 as <-.
  injection E15 as <-. simpl in *.
  exists f, f'. rewrite S16, S14, S10, S6, S4, S2. simpl.
  split; [reflexivity |]. split; [reflexivity |].
  rewrite A16, A14, A10, A6, A4, A2. now rewrite <- app_assoc.
Qed.

(** X27: a returning [initialize] has registered with [atexit], after
    what was registered before and in this order: the removal of the
    working directory, if and only if the caller gave none; the closing of
    the debug log; the closing of the record log.  The two files are the
    ones the object holds in [debug_log] and [record_log]; nothing else is
    registered. *)
Theorem initialize_registers_at_exit
    (yaml_load_group : string -> GroupConfig)
    (yaml_load_streams : string -> gmap string string) (st st' : State) :
  initialized (self st) = false ->
  initialize yaml_load_group yaml_load_streams st = (Ok tt, st') ->
  exists f f' : string,
    debug_log (ws (self st')) = Some f
    /\ record_log (ws (self st')) = Some f'
    /\ os_atexit (os st')
       = os_atexit (os st)
         ++ (if is_none (working_dir (args (self st)))
             then [remove_tmp_working_dir_cb] else [])
         ++ [close_file f; close_file f'].
Proof.
  intros Hflag Hrun.
  destruct (initialize_ok_inv _ _ _ _ Hflag Hrun)
    as (g & gd & id & rd & st1 & Hprep & Hrest).
  pose proof (run_quiet _ _ _ _ (quiet_from_group _ _ _ _ _ _) Hrest) as Arest.
  assert (Wrest : ws (self st') = ws (self st1)).
  { assert (H : preserves ws
                  (with_Dir gd (initialize_group yaml_load_group g id rd);;
                   finish_initialize yaml_load_streams gd))
      by (apply preserves_from_group; intros; reflexivity).
    specialize (H st1). now rewrite Hrest in H. }
  unfold prepare in Hprep. rewrite bind_get_self in Hprep.
  apply bind_ok_inv in Hprep as (g' & s2 & Hg & H).
  assert (s2 = st) as ->.
  { destruct (group (args (self st))); [now injection Hg as _ <- |].
    rewrite bind_run in Hg. simpl in Hg. discriminate. }
  apply bind_ok_inv in H as ([] & s3 & Hmd & H).
  assert (s3 = st) as ->.
  { unfold assert_dir, Os.isdir in Hmd. py_unfold. simpl in Hmd.
    destruct (Os.is_dir _ _); [now injection Hmd as <- | discriminate]. }
  apply bind_ok_inv in H as (wd & s4 & Hwd & H).
  apply bind_ok_inv in H as ([] & s5 & Hws & H).
  apply bind_ok_inv in H as (dirs & s6 & Hloc & H).
  injection H as _ _ <-.
  pose proof (run_quiet _ _ _ _ (quiet_locate_group _) Hloc) as Aloc.
  pose proof (preserves_locate_group ws g' s5) as Wloc.
  rewrite Hloc in Wloc. simpl in Wloc.
  destruct (setup_workspace_atexit _ _ _ Hws) as (f & f' & Hf & Hf' & Aws).
  exists f, f'. rewrite Wrest, Wloc. split; [exact Hf |]. split; [exact Hf' |].
  rewrite Arest, Aloc, Aws.
  destruct (setup_working_dir_ok_inv _ _ _ Hwd)
    as (_ & _ & [[Hgiven ->] | (Hnone & _ & _ & _ & _ & Atmp)]).
  - rewrite Hgiven. reflexivity.
  - rewrite Hnone, Atmp. simpl. now rewrite <- app_assoc.
Qed.

Lemma initialize_registers_at_exit_witness :
  initialized (self Cases.temporary) = false
  /\ Demo.init Cases.temporary = (Ok tt, snd (Demo.init Cases.temporary))
  /\ exists f f' : string,
       os_atexit (os (snd (Demo.init Cases.temporary)))
       = [remove_tmp_working_dir_cb; close_file f; close_file f'].
Proof.
  assert (H1 : initialized (self Cases.temporary) = false) by reflexivity.
  assert (H2 : Demo.init Cases.temporary
               = (Ok tt, snd (Demo.init Cases.temporary))) by by_computation.
  split; [exact H1 |]. split; [exact H2 |].
  destruct (initialize_registers_at_exit Demo.yaml_load_group
              Demo.yaml_load_streams Cases.temporary _ H1 H2)
    as (f & f' & _ & _ & Hat).
  exists f, f'. exact Hat.
Defined.

(** ** The footprint of [initialize] on the file system *)

Lemma os_writes_only_refl (f : string) (o : OS) : os_writes_only f o o.
Proof. split; [reflexivity | intros; reflexivity]. Qed.

Lemma os_writes_only_trans (f : string) (a b c : OS) :
  os_writes_only f a b -> os_writes_only f b c -> os_writes_only f a c.
Proof.
  intros [D1 F1] [D2 F2]. split; [congruence |].
  intros p Hp. now rewrite (F2 p Hp), (F1 p Hp).
Qed.

Section LogsOnly.

Variable f : string.

Lemma logs_bind {A B : Type} (m : Py A) (k : A -> Py B) :
  logs_only f m -> (forall a : A, logs_only f (k a)) -> logs_only f (m ≫= k).
Proof.
  intros Hm Hk st Hf. rewrite bind_run. destruct (Hm st Hf) as [Hf1 H1].
  destruct (m st) as [[a | e] st1]; simpl in *; [| now split].
  destruct (Hk a st1 Hf1) as [Hf2 H2]. split; [exact Hf2 |].
  exact (os_writes_only_trans _ _ _ _ H1 H2).
Qed.

Lemma logs_ret {A : Type} (a : A) : logs_only f (mret a : Py A).
Proof. intros st Hf. split; [exact Hf | apply os_writes_only_refl]. Qed.

Lemma logs_pass : logs_only f pass.
Proof. intros st Hf. split; [exact Hf | apply os_writes_only_refl]. Qed.

Lemma logs_raise {A : Type} (e : PyError) : logs_only f (raise e : Py A).
Proof. intros st Hf. split; [exact Hf | apply os_writes_only_refl]. Qed.

Lemma logs_get_self : logs_only f get_self.
Proof. intros st Hf. split; [exact Hf | apply os_writes_only_refl]. Qed.

Lemma logs_get_os : logs_only f get_os.
Proof. intros st Hf. split; [exact Hf | apply os_writes_only_refl]. Qed.

Lemma logs_modify_self (g : Runtime -> Runtime) :
  (forall r, debug_log (ws (g r)) = debug_log (ws r)) ->
  logs_only f (modify_self g).
Proof.
  intros H st Hf. split; [simpl; now rewrite H | apply os_writes_only_refl].
Qed.

Lemma logs_modify_os (g : OS -> OS) :
  (forall o, os_dirs (g o) = os_dirs o) ->
  (forall o, os_files (g o) = os_files o) ->
  logs_only f (modify_os g).
Proof.
  intros Hd Hfiles st Hf. split; [exact Hf |].
  split; [apply Hd | intros p _; simpl; now rewrite Hfiles].
Qed.

Lemma logs_when (c : bool) (body : Py unit) :
  logs_only f body -> logs_only f (when c body).
Proof. intros H. destruct c; [exact H | apply logs_pass]. Qed.

Lemma logs_sequence {A : Type} (o : option A) : logs_only f (sequence o).
Proof.
  destruct o; intros st Hf; (split; [exact Hf | apply os_writes_only_refl]).
Qed.

Lemma logs_isdir (d : string) : logs_only f (Os.isdir d).
Proof.
  unfold Os.isdir. apply logs_bind; [apply logs_get_os |].
  intros o. apply logs_ret.
Qed.

Lemma logs_isfile (d : string) : logs_only f (Os.isfile d).
Proof.
  unfold Os.isfile. apply logs_bind; [apply logs_get_os |].
  intros o. apply logs_ret.
Qed.

Lemma logs_listdir (d : string) : logs_only f (Os.listdir d).
Proof.
  unfold Os.listdir. apply logs_bind; [apply logs_get_os |].
  intros o. destruct (Os.is_dir o d); [apply logs_ret | apply logs_raise].
Qed.

Lemma logs_read_file (d : string) : logs_only f (Os.read_file d).
Proof.
  unfold Os.read_file. apply logs_bind; [apply logs_get_os |].
  intros o. destruct (os_files o !! _); [apply logs_ret | apply logs_raise].
Qed.

Lemma logs_echo (msg : string) : logs_only f (Os.echo msg).
Proof. unfold Os.echo. apply logs_modify_os; reflexivity. Qed.

Lemma logs_with_Dir {A : Type} (d : string) (body : Py A) :
  logs_only f body -> logs_only f (with_Dir d body).
Proof.
  intros H st Hf. unfold with_Dir, Os.chdir. py_unfold. simpl.
  destruct (Os.is_dir (os st) d); simpl;
    [| split; [exact Hf | apply os_writes_only_refl]].
  specialize (H {| os := set_os_cwd (Os.resolve (os st) d) (os st);
                   self := self st |} Hf).
  destruct (body _) as [r st2]. exact H.
Qed.

(** [log_verbose] writes to the debug log and nowhere else. *)
Lemma logs_log_verbose (msg : string) : logs_only f (log_verbose msg).
Proof.
  intros st Hf. unfold log_verbose, Os.echo, Os.write. py_unfold. simpl.
  destruct (verbose (args (self st))); simpl; rewrite Hf; simpl;
    (split; [exact Hf |]); (split; [reflexivity |]);
    intros p Hp; simpl; now rewrite lookup_insert_ne.
Qed.

Lemma logs_info (msg : string) (debug : option string) :
  logs_only f (info msg debug).
Proof.
  unfold info. apply logs_bind; [apply logs_get_self |].
  intros r. destruct (verbose (args r)); [| apply logs_echo].
  destruct debug; apply logs_log_verbose.
Qed.

Lemma logs_assert_dir (d msg : string) : logs_only f (assert_dir d msg).
Proof.
  unfold assert_dir. apply logs_bind; [apply logs_isdir |].
  intros [|]; [apply logs_pass | apply logs_raise].
Qed.

Lemma logs_modify_args (g : Kwargs -> Kwargs) : logs_only f (modify_args g).
Proof. apply logs_modify_self. reflexivity. Qed.

Lemma logs_remove (name : string) (l : list string) :
  logs_only f (remove name l).
Proof.
  unfold remove. destruct (PyStr.list_remove name l);
    [apply logs_ret | apply logs_raise].
Qed.

Lemma logs_list_dirs (d : string) : logs_only f (list_dirs d).
Proof.
  unfold list_dirs. apply logs_with_Dir.
  apply logs_bind; [apply logs_listdir |]. intros l.
  apply logs_bind; [apply logs_get_os |]. intros o. apply logs_ret.
Qed.

Lemma logs_match_filters (names : list string) :
  forall acc, logs_only f (match_filters names acc).
Proof.
  induction names as [|n rest IH]; intros [[a b] c]; simpl;
    [apply logs_ret |].
  apply logs_bind; [apply logs_get_self |]. intros r.
  apply logs_bind; [apply logs_sequence |]. intros l1.
  apply logs_bind; [apply logs_sequence |]. intros l2.
  apply logs_bind; [apply logs_sequence |]. intros l3.
  apply IH.
Qed.

Lemma logs_locate_group (g : string) : logs_only f (locate_group g).
Proof.
  unfold locate_group. apply logs_bind; [apply logs_get_self |]. intros r.
  apply logs_bind; [apply logs_assert_dir |]. intros _.
  apply logs_bind; [apply logs_assert_dir |]. intros _.
  apply logs_bind; [apply logs_assert_dir |]. intros _.
  apply logs_bind; [apply logs_info | intros _; apply logs_ret].
Qed.

Lemma logs_load_group_yml (yaml_load_group : string -> GroupConfig) (g : string) :
  logs_only f (load_group_yml yaml_load_group g).
Proof.
  unfold load_group_yml. apply logs_bind; [apply logs_read_file |].
  intros text. apply logs_bind; [apply logs_modify_self; reflexivity |].
  intros _. destruct (bool_decide _); [apply logs_ret | apply logs_raise].
Qed.

Lemma logs_merge_group_defaults (gc : GroupConfig) :
  logs_only f (merge_group_defaults gc).
Proof.
  unfold merge_group_defaults.
  apply logs_bind; [apply logs_get_self |]. intros r1.
  apply logs_bind; [apply logs_when, logs_modify_args |]. intros _.
  apply logs_bind; [apply logs_get_self |]. intros r2.
  apply logs_bind; [apply logs_when, logs_modify_args |]. intros _.
  apply logs_bind; [apply logs_get_self |]. intros r3.
  destruct (branch (args r3)); [apply logs_info |].
  destruct (gc_branch gc); [| apply logs_info].
  apply logs_bind; [apply logs_modify_args | intros _; apply logs_info].
Qed.

Lemma logs_collect_loop (search_type : string) (ci co ce : bool)
    (gen : string -> Py unit) (names : list string) :
  (forall n, logs_only f (gen n)) ->
  forall inc opt,
    logs_only f (collect_loop search_type ci co ce gen names inc opt).
Proof.
  intros Hgen. induction names as [|n rest IH]; intros inc opt; simpl.
  - apply logs_ret.
  - apply logs_bind.
    { unfold include_stage.
      destruct (ci || co); [| apply logs_ret].
      destruct (ci && PyStr.mem n inc).
      { apply logs_bind; [apply logs_info |]. intros _.
        apply logs_bind; [apply logs_remove |]. intros l. apply logs_ret. }
      destruct (co && PyStr.mem n opt).
      { apply logs_bind; [apply logs_info |]. intros _.
        apply logs_bind; [apply logs_remove |]. intros l. apply logs_ret. }
      apply logs_bind; [apply logs_info |]. intros _.
      apply logs_bind; [apply logs_log_verbose |]. intros _. apply logs_ret. }
    intros [[inc' opt'] |]; [| apply IH].
    apply logs_bind.
    { unfold exclude_stage. destruct ce; [| apply logs_ret].
      apply logs_bind; [apply logs_get_self |]. intros r.
      apply logs_bind; [apply logs_sequence |]. intros l.
      destruct (PyStr.mem n l); [| apply logs_ret].
      apply logs_bind; [apply logs_info |]. intros _.
      apply logs_bind; [apply logs_log_verbose |]. intros _. apply logs_ret. }
    intros [|]; [apply IH |].
    apply logs_bind; [apply Hgen | intros _; apply IH].
Qed.

Lemma logs_collect_configs (search_type search_dir : string)
    (names inc opt exc : list string) (gen : string -> Py unit) :
  (forall n, logs_only f (gen n)) ->
  logs_only f (collect_configs search_type search_dir names inc opt exc gen).
Proof.
  intros Hgen. unfold collect_configs.
  apply logs_with_Dir, logs_collect_loop, Hgen.
Qed.

Lemma logs_select_configs (images_dir rpms_dir : string) :
  logs_only f (select_configs images_dir rpms_dir).
Proof.
  unfold select_configs.
  apply logs_bind; [apply logs_get_self |]. intros r.
  apply logs_bind; [apply logs_sequence |]. intros l1.
  apply logs_bind; [apply logs_when, logs_info |]. intros _.
  apply logs_bind; [apply logs_sequence |]. intros l2.
  apply logs_bind; [apply logs_when, logs_info |]. intros _.
  apply logs_bind; [apply logs_list_dirs |]. intros images.
  apply logs_bind; [apply logs_list_dirs |]. intros rpms.
  apply logs_bind; [apply logs_match_filters |]. intros [[a b] c].
  apply logs_bind; [apply logs_match_filters |]. intros [[a' b'] c'].
  apply logs_bind; [apply logs_get_self |]. intros r'.
  apply logs_bind; [apply logs_sequence |]. intros l3.
  cbv zeta. destruct (len_gt_0 _); [apply logs_raise |].
  apply logs_bind; [apply logs_sequence |]. intros l4.
  apply logs_bind; [apply logs_when, logs_info |]. intros _.
  apply logs_bind.
  { apply logs_collect_configs. intros n. apply logs_modify_self. reflexivity. }
  intros _. apply logs_bind; [| intros _; apply logs_pass].
  apply logs_collect_configs. intros n. apply logs_modify_self. reflexivity.
Qed.

Lemma logs_finish_initialize
    (yaml_load_streams : string -> gmap string string) (gd : string) :
  logs_only f (finish_initialize yaml_load_streams gd).
Proof.
  unfold finish_initialize.
  apply logs_bind; [apply logs_get_self |]. intros r.
  destruct (_ =? 0)%nat; [apply logs_raise |].
  apply logs_bind; [apply logs_isfile |]. intros [|]; [| apply logs_pass].
  apply logs_bind; [apply logs_read_file |]. intros s.
  apply logs_modify_self. reflexivity.
Qed.

(** From line 130 on, [initialize] writes to the debug log only. *)
Lemma logs_from_group (yaml_load_group : string -> GroupConfig)
    (yaml_load_streams : string -> gmap string string)
    (g gd id rd : string) :
  logs_only f (with_Dir gd (initialize_group yaml_load_group g id rd);;
               finish_initialize yaml_load_streams gd).
Proof.
  apply logs_bind; [| intros _; apply logs_finish_initialize].
  apply logs_with_Dir. unfold initialize_group.
  apply logs_bind; [apply logs_load_group_yml |]. intros gc.
  apply logs_bind; [apply logs_merge_group_defaults |]. intros _.
  apply logs_select_configs.
Qed.

End LogsOnly.

Lemma union_singleton_dir (x : string) (D : gset string) :
  x ∈ D -> {[ x ]} ∪ D = D.
Proof.
  intros Hx. apply set_eq. intros y.
  rewrite elem_of_union, elem_of_singleton. split; [| tauto].
  now intros [-> | Hy].
Qed.

Lemma ensure_dir_footprint (p : string) (st st' : State) :
  ensure_dir p st = (Ok tt, st') ->
  os_dirs (os st') = {[ Os.resolve (os st) p ]} ∪ os_dirs (os st)
  /\ os_files (os st') = os_files (os st)
  /\ os_cwd (os st') = os_cwd (os st).
Proof.
  unfold ensure_dir, Os.isdir, Os.mkdir. py_unfold. simpl.
  destruct (Os.is_dir (os st) p) eqn:Hd; simpl.
  - intros H. injection H as <-. split; [| now split].
    unfold Os.is_dir in Hd. apply bool_decide_eq_true in Hd.
    symmetry. now apply union_singleton_dir.
  - rewrite Hd. destruct (Os.is_file (os st) p); simpl; [discriminate |].
    destruct (Os.parent_is_dir (os st) p); simpl; [| discriminate].
    intros H. injection H as <-. repeat split.
Qed.

Lemma open_append_footprint (p h : string) (st st' : State) :
  Os.open_append p st = (Ok h, st') ->
  os_dirs (os st') = os_dirs (os st)
  /\ os_files (os st')
     = <[ Os.resolve (os st) p
          := default "" (os_files (os st) !! Os.resolve (os st) p) ]>
         (os_files (os st))
  /\ os_cwd (os st') = os_cwd (os st).
Proof.
  unfold Os.open_append. py_unfold. simpl.
  destruct (Os.is_dir (os st) p); [discriminate |].
  destruct (negb (Os.parent_is_dir (os st) p)); [discriminate |].
  simpl. intros H. injection H as <- <-. repeat split.
Qed.

Lemma setup_working_dir_footprint (wd : string) (st st' : State) :
  setup_working_dir st = (Ok wd, st') ->
  os_dirs (os st') = {[ Os.resolve (os st) wd ]} ∪ os_dirs (os st)
  /\ os_files (os st') = os_files (os st)
  /\ os_cwd (os st') = os_cwd (os st).
Proof.
  unfold setup_working_dir. rewrite bind_get_self.
  destruct (working_dir (args (self st))) as [d |] eqn:Hwd.
  - intros H. apply bind_ok_inv in H as ([] & s1 & Hdir & H).
    injection H as <- <-. unfold assert_dir, Os.isdir in Hdir.
    py_unfold. simpl in Hdir.
    destruct (Os.is_dir (os st) d) eqn:Hd; [| discriminate].
    injection Hdir as <-. split; [| now split].
    unfold Os.is_dir in Hd. apply bool_decide_eq_true in Hd.
    symmetry. now apply union_singleton_dir.
  - intros H. apply bind_ok_inv in H as (d & s1 & Htmp & H).
    apply bind_ok_inv in H as ([] & s2 & E2 & H).
    apply bind_ok_inv in H as ([] & s3 & E3 & H).
    apply bind_ok_inv in H as ([] & s4 & E4 & H).
    injection H as <- <-.
    unfold Os.mkdtemp in Htmp. rewrite bind_get_os in Htmp.
    destruct (Os.mkdtemp_draw _ _ _ _ _) as [[p rest] |]; [| discriminate].
    apply bind_ok_inv in Htmp as ([] & t1 & T1 & Htmp).
    apply bind_ok_inv in Htmp as ([] & t2 & T2 & Htmp).
    injection Htmp as <- <-.
    unfold Os.mkdir in T2. py_unfold. simpl in T2.
    destruct (_ || _); [discriminate |].
    destruct (negb _); [discriminate |].
    injection T2 as <-. injection T1 as <-.
    unfold Os.atexit_register, modify_os in E4.
    injection E2 as <-. injection E3 as <-. injection E4 as <-.
    repeat split.
Qed.

Lemma setup_workspace_footprint (wd : string) (st st' : State) :
  setup_workspace wd st = (Ok tt, st') ->
  let r := Os.resolve (os st) in
  let dlog := r (PyPath.join wd "debug.log") in
  let rlog := r (PyPath.join wd "record.log") in
  let F1 := <[ dlog := default "" (os_files (os st) !! dlog) ]>
              (os_files (os st)) in
  os_dirs (os st')
  = list_to_set (r <$> [PyPath.join wd "distgits";
                        PyPath.join wd "distgits-diffs";
                        PyPath.join wd "brew-logs";
                        PyPath.join wd "flags"]) ∪ os_dirs (os st)
  /\ os_files (os st') = <[ rlog := default "" (F1 !! rlog) ]> F1
  /\ os_cwd (os st') = os_cwd (os st).
Proof.
  unfold setup_workspace. cbv zeta. intros H.
  apply bind_ok_inv in H as ([] & s1 & E1 & H).
  apply bind_ok_inv in H as ([] & s2 & E2 & H).
  apply bind_ok_inv in H as ([] & s3 & E3 & H).
  apply bind_ok_inv in H as ([] & s4 & E4 & H).
  apply bind_ok_inv in H as ([] & s5 & E5 & H).
  apply bind_ok_inv in H as (h & s6 & E6 & H).
  apply bind_ok_inv in H as ([] & s7 & E7 & H).
  apply bind_ok_inv in H as ([] & s8 & E8 & H).
  apply bind_ok_inv in H as ([] & s9 & E9 & H).
  apply bind_ok_inv in H as (h' & s10 & E10 & H).
  apply bind_ok_inv in H as ([] & s11 & E11 & H).
  apply bind_ok_inv in H as ([] & s12 & E12 & H).
  apply bind_ok_inv in H as ([] & s13 & E13 & H).
  apply bind_ok_inv in H as ([] & s14 & E14 & H).
  apply bind_ok_inv in H as ([] & s15 & E15 & H).
  apply ensure_dir_footprint in E2 as (D2 & F2 & C2).
  apply ensure_dir_footprint in E4 as (D4 & F4 & C4).
  apply open_append_footprint in E6 as (D6 & F6 & C6).
  apply open_append_footprint in E10 as (D10 & F10 & C10).
  apply ensure_dir_footprint in E14 as (D14 & F14 & C14).
  apply ensure_dir_footprint in H as (D16 & F16 & C16).
  unfold modify_ws, modify_self in E1, E3, E5, E7, E9, E11, E13, E15.
  unfold Os.atexit_register, modify_os in E8, E12.
  injection E1 as <-. injection E3 as <-. injection E5 as <-.
  injection E7 as <-. injection E8 as <-. injection E9 as <-.
  injection E11 as <-. injection E12 as <-. injection E13 as <-.
  injection E15 as <-. simpl in *.
  assert (R2 : forall q, Os.resolve (os s2) q = Os.resolve (os st) q)
    by (intros q; now apply resolve_cwd).
  assert (R4 : forall q, Os.resolve (os s4) q = Os.resolve (os st) q)
    by (intros q; apply resolve_cwd; congruence).
  assert (R6 : forall q, Os.resolve (os s6) q = Os.resolve (os st) q)
    by (intros q; apply resolve_cwd; congruence).
  assert (R10 : forall q, Os.resolve (os s10) q = Os.resolve (os st) q)
    by (intros q; apply resolve_cwd; congruence).
  assert (R14 : forall q, Os.resolve (os s14) q = Os.resolve (os st) q)
    by (intros q; apply resolve_cwd; congruence).
  unfold Os.resolve at 1 in D16. simpl in D16.
  fold (Os.resolve (os s14) (PyPath.join wd "flags")) in D16.
  unfold Os.resolve at 1 in D14. simpl in D14.
  fold (Os.resolve (os s10) (PyPath.join wd "brew-logs")) in D14.
  unfold Os.resolve at 1 2 in F10. simpl in F10.
  fold (Os.resolve (os s6) (PyPath.join wd "record.log")) in F10.
  rewrite R14 in D16. rewrite R10 in D14. rewrite R6 in F10.
  rewrite R4 in F6. rewrite R2 in D4.
  split; [| split].
  - rewrite D16, D14, D10, D6, D4, D2. apply set_eq. intros y.
    rewrite ?fmap_cons, ?fmap_nil, ?list_to_set_cons, ?list_to_set_nil.
    rewrite !elem_of_union, !elem_of_singleton, elem_of_empty. tauto.
  - rewrite F16, F14, F10, F6, F4, F2. reflexivity.
  - congruence.
Qed.

(** X28: the whole footprint of a returning [initialize] on the file
    system.  The directories afterwards are those from before together
    with the working directory and its four subdirectories; no other
    directory is made.  Every file keeps its content but for the debug
    log, the only file that is written to; the record log is created empty
    if it did not exist, and no other file is created. *)
Theorem initialize_footprint
    (yaml_load_group : string -> GroupConfig)
    (yaml_load_streams : string -> gmap string string) (st st' : State) :
  initialized (self st) = false ->
  initialize yaml_load_group yaml_load_streams st = (Ok tt, st') ->
  exists wd : string,
    working_dir (args (self st')) = Some wd
    /\ os_dirs (os st')
       = list_to_set
           (Os.resolve (os st)
              <$> [wd; PyPath.join wd "distgits";
                   PyPath.join wd "distgits-diffs";
                   PyPath.join wd "brew-logs"; PyPath.join wd "flags"])
         ∪ os_dirs (os st)
    /\ forall p : string,
         p <> Os.resolve (os st) (PyPath.join wd "debug.log") ->
         os_files (os st') !! p
         = if bool_decide (p = Os.resolve (os st) (PyPath.join wd "record.log"))
           then Some (default "" (os_files (os st) !! p))
           else os_files (os st) !! p.
Proof.
  intros Hflag Hrun.
  destruct (initialize_ok_inv _ _ _ _ Hflag Hrun)
    as (g & gd & id & rd & st1 & Hprep & Hrest).
  destruct (prepare_ok_inv _ _ _ Hprep) as (wd & s & Hwd & Hready & _).
  destruct (workspace_ready_from_group _ _ _ _ _ _ _ _ _ Hrest Hready)
    as [(Hwork & _) _].
  exists wd. split; [exact Hwork |].
  unfold prepare in Hprep. rewrite bind_get_self in Hprep.
  apply bind_ok_inv in Hprep as (g' & s2 & Hg & H).
  assert (s2 = st) as ->.
  { destruct (group (args (self st))); [now injection Hg as _ <- |].
    rewrite bind_run in Hg. simpl in Hg. discriminate. }
  apply bind_ok_inv in H as ([] & s3 & Hmd & H).
  assert (s3 = st) as ->.
  { unfold assert_dir, Os.isdir in Hmd. py_unfold. simpl in Hmd.
    destruct (Os.is_dir _ _); [now injection Hmd as <- | discriminate]. }
  apply bind_ok_inv in H as (wd' & s4 & Hwd' & H).
  rewrite Hwd in Hwd'. injection Hwd' as <- <-.
  apply bind_ok_inv in H as ([] & s5 & Hws & H).
  apply bind_ok_inv in H as (dirs & s6 & Hloc & H).
  injection H as _ _ <-.
  destruct (setup_working_dir_footprint _ _ _ Hwd) as (D4 & F4 & C4).
  destruct (setup_workspace_footprint _ _ _ Hws) as (D5 & F5 & C5).
  destruct (setup_workspace_ok_inv _ _ _ Hws) as (W5 & _).
  assert (R4 : forall q, Os.resolve (os s) q = Os.resolve (os st) q)
    by (intros q; now apply resolve_cwd).
  assert (R5 : forall q, Os.resolve (os s5) q = Os.resolve (os st) q)
    by (intros q; apply resolve_cwd; congruence).
  set (dlog := Os.resolve (os st) (PyPath.join wd "debug.log")) in *.
  assert (Hlog : debug_log (ws (self s5)) = Some dlog).
  { rewrite W5. unfold workspace_of. simpl. now rewrite R5. }
  destruct (logs_locate_group dlog g' s5 Hlog) as [Hlog1 [D6 F6]].
  rewrite Hloc in Hlog1, D6, F6. simpl in Hlog1, D6, F6.
  destruct (logs_from_group dlog yaml_load_group yaml_load_streams
              g gd id rd s6 Hlog1) as [_ [D7 F7]].
  rewrite Hrest in D7, F7. simpl in D7, F7.
  cbv zeta in D5, F5.
  rewrite !fmap_cons, fmap_nil, !list_to_set_cons, list_to_set_nil in D5.
  rewrite !R4 in D5. rewrite !R4 in F5. fold dlog in F5. split.
  - rewrite D7, D6, D5, D4. apply set_eq. intros y.
    rewrite !fmap_cons, fmap_nil, !list_to_set_cons, list_to_set_nil.
    rewrite !elem_of_union, !elem_of_singleton, elem_of_empty. tauto.
  - intros p Hp. rewrite (F7 p Hp), (F6 p Hp), F5, F4.
    destruct (decide (p = Os.resolve (os st) (PyPath.join wd "record.log")))
      as [-> | Hne].
    + rewrite bool_decide_eq_true_2 by reflexivity.
      rewrite lookup_insert_eq. now rewrite lookup_insert_ne by congruence.
    + rewrite bool_decide_eq_false_2 by exact Hne.
      now rewrite !lookup_insert_ne by congruence.
Qed.

Lemma initialize_footprint_witness :
  initialized (self Demo.exclude_b) = false
  /\ Demo.init Demo.exclude_b = (Ok tt, snd (Demo.init Demo.exclude_b))
  /\ os_files (os (snd (Demo.init Demo.exclude_b))) !! "/meta/groups/g/group.yml"
     = Some "name: g".
Proof.
  assert (H1 : initialized (self Demo.exclude_b) = false) by reflexivity.
  assert (H2 : Demo.init Demo.exclude_b = (Ok tt, snd (Demo.init Demo.exclude_b)))
    by by_computation.
  split; [exact H1 |]. split; [exact H2 |].
  destruct (initialize_footprint Demo.yaml_load_group Demo.yaml_load_streams
              Demo.exclude_b _ H1 H2) as (wd & Hwd & _ & Hfiles).
  assert (Hw : wd = "/work").
  { assert (E : working_dir (args (self (snd (Demo.init Demo.exclude_b))))
               = Some "/work") by by_computation.
    rewrite E in Hwd. now injection Hwd as <-. }
  subst wd. rewrite Hfiles by (cbv; discriminate).
  rewrite bool_decide_eq_false_2 by (cbv; discriminate). reflexivity.
Defined.
